(** * The viewer of knarakochkanian/three, embedded in Rocq

    The development follows [src/viewer/viewer.ts] (class [Viewer]) and the
    hierarchy widget [components/ObjectHierarchyWidget.tsx].

    - Part 1 models the slice of three.js and of the DOM the viewer touches.
    - Part 2 embeds the load-time passes over the parsed object tree
      ([assignPropertyValues], [addTextLabel], [addLabelsToModel]).
    - Part 3 embeds the viewer itself: construction, the render loop, the
      resize and click handlers, highlighting, model loading and disposal,
      as functions on an explicit [World].
    - Part 4 fixes the vocabulary of the properties and some sample data.
    - Parts 5 to 7 prove the properties: of the load-time passes, of
      selecting and highlighting, and of the viewer's life cycle.
    - Parts 8 to 10 prove further properties of the same three groups.

    JavaScript numbers that the code only divides ([window.innerWidth],
    [window.innerHeight], [camera.aspect]) are IEEE-754 binary64 values:
    Rocq's primitive [float].  [Object3D.id] and [Material.id] are drawn by
    three.js from counters that start at 0 and are incremented by one, so
    they are natural numbers ([N]); on naturals JavaScript's [%] is
    [N.modulo]. *)

From Stdlib Require Import PrimFloat.
From stdpp Require Import base option list gmap strings.

Local Open Scope string_scope.
Local Open Scope list_scope.
Local Open Scope N_scope.

(* ===================================================================== *)
(** * Part 1: three.js objects, materials and the DOM                     *)
(* ===================================================================== *)

(** The classes of scene-graph node the viewer can meet.  [SkinnedMesh] and
    [InstancedMesh] extend [Mesh] in three.js. *)
Inductive Class :=
  | Object3DClass | GroupClass | MeshClass | SkinnedMeshClass
  | InstancedMeshClass | LineClass | PointsClass | SpriteClass | LightClass.

(** [o instanceof THREE.Mesh] *)
Definition instanceofMesh (c : Class) : bool :=
  match c with
  | MeshClass | SkinnedMeshClass | InstancedMeshClass => true
  | _ => false
  end.

(** What [addTextLabel] paints on its off-screen canvas (viewer.ts:152-199)
    before it wraps the canvas in a [THREE.CanvasTexture]. *)
Record CanvasTexture := {
  canvas_width : N;
  canvas_height : N;
  canvas_background : string;   (* fillStyle of the rounded rectangle *)
  canvas_textColor : string;    (* fillStyle of the text *)
  canvas_font : string;
  canvas_text : string
}.

(** Where a material object was created.  The viewer never looks inside a
    material that came from the file. *)
Inductive MaterialData :=
  | ParsedMaterial
      (* built by parseJSON from the file's [materials] *)
  | HighlightMaterial
      (* viewer.ts:285
         new THREE.MeshBasicMaterial({ color: 0xff0000, wireframe: true }) *)
  | SpriteMaterial (map : CanvasTexture).
      (* viewer.ts:205  new THREE.SpriteMaterial({ map: texture }) *)

(** A material object.  Two references denote the same object exactly when
    the records are equal: [material_id] is three.js's [Material.id]. *)
Record Material := {
  material_id : N;
  material_data : MaterialData
}.

Definition isHighlightMaterial (m : Material) : bool :=
  match material_data m with HighlightMaterial => true | _ => false end.

(** [userData.propertyValue]: [statusText] is [None] when the lookup in
    [progressStatuses] finds no such key ([undefined]). *)
Record PropertyValue := {
  statusCode : N;
  statusText : option string
}.

(** The two keys of [userData] the viewer reads and writes. *)
Record UserData := {
  propertyValue : option PropertyValue;
  originalMaterial : option Material
}.

(** References to scene-graph objects are their [Object3D.id]. *)
Abbreviation ObjRef := N.

(** The own fields of an [Object3D]. *)
Record Fields := {
  obj_id : ObjRef;
  obj_uuid : string;
  obj_name : string;
  obj_class : Class;
  obj_material : option Material;
  obj_userData : UserData
}.

(** An object together with the subtree of its [children]. *)
#[warnings="-register-all"]
Inductive Object3D :=
  | Node (fields : Fields) (children : list Object3D).

Definition fields (o : Object3D) : Fields :=
  match o with Node f _ => f end.

Definition children (o : Object3D) : list Object3D :=
  match o with Node _ cs => cs end.

(** three.js's module-level counters [_object3DId] and [_materialId]. *)
Record ThreeGlobals := {
  object3DId : N;
  materialId : N
}.

(** ** Field updates *)

Definition set_propertyValue (pv : option PropertyValue) (f : Fields) : Fields :=
  {| obj_id := obj_id f; obj_uuid := obj_uuid f; obj_name := obj_name f;
     obj_class := obj_class f; obj_material := obj_material f;
     obj_userData := {| propertyValue := pv;
                        originalMaterial := originalMaterial (obj_userData f) |} |}.

Definition set_originalMaterial (om : option Material) (f : Fields) : Fields :=
  {| obj_id := obj_id f; obj_uuid := obj_uuid f; obj_name := obj_name f;
     obj_class := obj_class f; obj_material := obj_material f;
     obj_userData := {| propertyValue := propertyValue (obj_userData f);
                        originalMaterial := om |} |}.

Definition set_material (m : option Material) (f : Fields) : Fields :=
  {| obj_id := obj_id f; obj_uuid := obj_uuid f; obj_name := obj_name f;
     obj_class := obj_class f; obj_material := m;
     obj_userData := obj_userData f |}.

(** ** Walking a tree *)

(** The objects of a subtree in the order [Object3D.traverse] visits them. *)
Fixpoint nodes (o : Object3D) : list Object3D :=
  match o with
  | Node _ cs => o :: flat_map nodes cs
  end.

Definition isMesh (o : Object3D) : bool := instanceofMesh (obj_class (fields o)).

(** [o instanceof THREE.Sprite] *)
Definition instanceofSprite (c : Class) : bool :=
  match c with SpriteClass => true | _ => false end.

Definition isSprite (o : Object3D) : bool := instanceofSprite (obj_class (fields o)).

(** Number of objects of a subtree that satisfy [p]. *)
Definition count (p : Object3D -> bool) (o : Object3D) : nat :=
  length (filter (fun x => p x = true) (nodes o)).

(** [Object3D.traverse(callback)] for a callback that rewrites the own fields
    of the visited object: the callback runs on the object, then on each
    child's subtree. *)
Fixpoint traverse (callback : Fields -> Fields) (o : Object3D) : Object3D :=
  match o with
  | Node f cs => Node (callback f) (map (traverse callback) cs)
  end.

(* ===================================================================== *)
(** * Part 2: the load-time passes                                        *)
(* ===================================================================== *)

(** viewer.ts:226-231 *)
Definition progressStatuses (key : N) : option string :=
  match key with
  | 1 => Some "Not Started"
  | 2 => Some "In Progress"
  | 3 => Some "Partially Installed"
  | 4 => Some "Installed"
  | _ => None
  end.

(** viewer.ts:234  [(child.id % 4) + 1] *)
Definition statusIndex (id : N) : N := id mod 4 + 1.

(** viewer.ts:235-238, the value stored under [userData.propertyValue] *)
Definition propertyValueOf (id : N) : PropertyValue :=
  {| statusCode := statusIndex id;
     statusText := progressStatuses (statusIndex id) |}.

(** viewer.ts:223-240, the callback handed to [traverse] *)
Definition assignPropertyValue (child : Fields) : Fields :=
  if instanceofMesh (obj_class child)
  then set_propertyValue (Some (propertyValueOf (obj_id child))) child
  else child.

(** viewer.ts:222-243 (the [console.log] is not modelled) *)
Definition assignPropertyValues (object : Object3D) : Object3D :=
  traverse assignPropertyValue object.

(** viewer.ts:164-179 *)
Definition backgroundColor (statusCode : N) : string :=
  match statusCode with
  | 1 => "rgba(255, 0, 0, 0.8)"
  | 2 => "rgba(255, 165, 0, 0.8)"
  | 3 => "rgba(0, 255, 0, 0.8)"
  | 4 => "rgba(0, 0, 255, 0.8)"
  | _ => "rgba(0, 0, 0, 0.8)"
  end.

(** Truthiness of the two destructured values at viewer.ts:151: a number is
    truthy unless it is 0, a string unless it is empty, [undefined] never. *)
Definition truthyNumber (n : N) : bool := negb (n =? 0).

Definition truthyString (s : option string) : bool :=
  match s with
  | Some (String _ _) => true
  | _ => false
  end.

(** viewer.ts:152-199, the canvas once drawn *)
Definition drawLabel (code : N) (text : string) : CanvasTexture :=
  {| canvas_width := 100; canvas_height := 20;
     canvas_background := backgroundColor code;
     canvas_textColor := "white";
     canvas_font := "12px Arial";
     canvas_text := text |}.

(** The DOM as the label code sees it: whether
    [canvas.getContext("2d")] hands out a context or [null]. *)
Record Document := {
  getContext2d : bool
}.

(** viewer.ts:149-208: the sprite [addTextLabel] builds for [object], if it
    builds one, and the counters after the two allocations
    ([new THREE.SpriteMaterial], [new THREE.Sprite]).  The sprite's [uuid]
    is random and plays no role; it is left empty. *)
Definition makeTextLabel (doc : Document) (object : Fields) (g : ThreeGlobals)
  : option Object3D * ThreeGlobals :=
  match propertyValue (obj_userData object) with
  | None => (None, g)          (* [|| {}]: both names are [undefined] *)
  | Some pv =>
      if truthyNumber (statusCode pv) && truthyString (statusText pv) then
        if getContext2d doc then
          let texture :=
            drawLabel (statusCode pv) (default "" (statusText pv)) in
          let spriteMaterial :=
            {| material_id := materialId g;
               material_data := SpriteMaterial texture |} in
          let sprite :=
            Node {| obj_id := object3DId g; obj_uuid := ""; obj_name := "";
                    obj_class := SpriteClass;
                    obj_material := Some spriteMaterial;
                    obj_userData := {| propertyValue := None;
                                       originalMaterial := None |} |} [] in
          (Some sprite,
           {| object3DId := object3DId g + 1; materialId := materialId g + 1 |})
        else (None, g)                      (* if (!context) return; *)
      else (None, g)
  end.

(** [object.add(sprite)] *)
Definition add (object : Object3D) (child : Object3D) : Object3D :=
  match object with Node f cs => Node f (cs ++ [child]) end.

(** viewer.ts:148-212 *)
Definition addTextLabel (doc : Document) (object : Object3D) (g : ThreeGlobals)
  : Object3D * ThreeGlobals :=
  match makeTextLabel doc (fields object) g with
  | (Some sprite, g') => (add object sprite, g')
  | (None, g') => (object, g')
  end.

(** viewer.ts:214-220.  [traverse] calls the callback on the object and then
    walks [object.children], which it reads after the callback returned: the
    children the parser delivered, followed by the sprite the callback has
    just appended.  That sprite is no Mesh and has no children, so visiting
    it changes nothing; the walk below therefore descends into the parsed
    children and leaves the appended sprite as it is.  The counters are
    threaded in the order of the calls. *)
Fixpoint addLabelsToModel (doc : Document) (model : Object3D) (g : ThreeGlobals)
  : Object3D * ThreeGlobals :=
  match model with
  | Node f cs =>
      let '(label, g1) :=
        if instanceofMesh (obj_class f) then makeTextLabel doc f g
        else (None, g) in
      let '(cs', g2) :=
        (fix walk (l : list Object3D) (g : ThreeGlobals) :=
           match l with
           | [] => ([], g)
           | c :: l' =>
               let '(c', g') := addLabelsToModel doc c g in
               let '(l'', g'') := walk l' g' in
               (c' :: l'', g'')
           end) cs g1 in
      (Node f (cs' ++ option_list label), g2)
  end.

(** The walk over a list of siblings, named. *)
Fixpoint addLabelsToChildren (doc : Document) (l : list Object3D) (g : ThreeGlobals)
  : list Object3D * ThreeGlobals :=
  match l with
  | [] => ([], g)
  | c :: l' =>
      let '(c', g') := addLabelsToModel doc c g in
      let '(l'', g'') := addLabelsToChildren doc l' g' in
      (c' :: l'', g'')
  end.

(* ===================================================================== *)
(** * Part 3: the viewer                                                  *)
(* ===================================================================== *)

(** ** The pieces of state *)

(** viewer.ts:10 *)
Inductive ViewerStatus := loading | error | idle.

(** [RX.BehaviorSubject]: the value it was created with and every value
    pushed by [next], oldest first. *)
Record BehaviorSubject (A : Type) := {
  initialValue : A;
  pushed : list A
}.
Arguments initialValue {A} _.
Arguments pushed {A} _.

Definition newBehaviorSubject {A} (a : A) : BehaviorSubject A :=
  {| initialValue := a; pushed := [] |}.

Definition next {A} (a : A) (s : BehaviorSubject A) : BehaviorSubject A :=
  {| initialValue := initialValue s; pushed := pushed s ++ [a] |}.

(** What an observer subscribed from the start has seen. *)
Definition emissions {A} (s : BehaviorSubject A) : list A :=
  initialValue s :: pushed s.

(** [subject.value] *)
Definition getValue {A} (s : BehaviorSubject A) : A :=
  List.last (pushed s) (initialValue s).

(** Event listeners.  A callback is identified by the function object; the
    viewer's two handlers are arrow-function fields of the instance, one
    object each for the viewer's whole life. *)
Inductive Callback :=
  | ViewerResize (viewer : string)       (* [this.resize] of the viewer with that id *)
  | ViewerOnMouseClick (viewer : string) (* [this.onMouseClick] *)
  | OtherCallback (n : N).               (* somebody else's function *)

Record EventListener := {
  listener_type : string;
  listener_callback : Callback
}.

#[global] Instance Callback_eq_dec : EqDecision Callback.
Proof. solve_decision. Defined.

#[global] Instance EventListener_eq_dec : EqDecision EventListener.
Proof. solve_decision. Defined.

(** [target.addEventListener(type, callback)]: registering a listener that
    is already registered has no effect. *)
Definition addEventListener (type : string) (callback : Callback)
    (ls : list EventListener) : list EventListener :=
  let l := {| listener_type := type; listener_callback := callback |} in
  if decide (l ∈ ls) then ls else ls ++ [l].

(** [target.removeEventListener(type, callback)] *)
Definition removeEventListener (type : string) (callback : Callback)
    (ls : list EventListener) : list EventListener :=
  filter (fun l => l ≠ {| listener_type := type; listener_callback := callback |}) ls.

(** [window]: its size, its listeners and the [_render] callbacks that
    [requestAnimationFrame] has queued and not yet run. *)
Record Window := {
  innerWidth : float;
  innerHeight : float;
  devicePixelRatio : float;
  window_listeners : list EventListener;
  animationFrameRequests : nat
}.

(** The camera parameters a projection matrix was computed from. *)
Record Projection := {
  projection_fov : float;
  projection_aspect : float;
  projection_near : float;
  projection_far : float
}.

Record PerspectiveCamera := {
  fov : float;
  aspect : float;
  near : float;
  far : float;
  projectionMatrix : Projection
}.

(** [camera.updateProjectionMatrix()] *)
Definition updateProjectionMatrix (c : PerspectiveCamera) : PerspectiveCamera :=
  {| fov := fov c; aspect := aspect c; near := near c; far := far c;
     projectionMatrix :=
       {| projection_fov := fov c; projection_aspect := aspect c;
          projection_near := near c; projection_far := far c |} |}.

(** [new THREE.PerspectiveCamera(fov, aspect, near, far)]; the constructor
    ends with [updateProjectionMatrix()]. *)
Definition newPerspectiveCamera (fov aspect near far : float) : PerspectiveCamera :=
  updateProjectionMatrix
    {| fov := fov; aspect := aspect; near := near; far := far;
       projectionMatrix :=
         {| projection_fov := fov; projection_aspect := aspect;
            projection_near := near; projection_far := far |} |}.

(** The renderer's canvas, [renderer.domElement]. *)
Record Canvas := {
  inContainer : bool;                      (* still a child of the container *)
  canvas_listeners : list EventListener
}.

(** One call of [renderer.render(scene, camera)]: what it drew with. *)
Record Draw := {
  draw_projection : Projection;
  draw_size : float * float
}.

Record WebGLRenderer := {
  size : float * float;
  pixelRatio : float;
  domElement : Canvas;
  renderer_disposed : bool;
  draws : list Draw                        (* oldest first *)
}.

Record CameraControls := {
  controls_disposed : bool
}.

(** What [scene.children] holds. *)
Inductive SceneChild :=
  | DirectionalLight
  | AmbientLight
  | LoadedObject (root : ObjRef).

Record Scene := {
  background : string;
  scene_children : list SceneChild
}.

(** Response bodies: [response.data] as axios hands it over. *)
#[warnings="-register-all"]
Inductive JSON :=
  | JNull
  | JBool (b : bool)
  | JNumber (x : float)
  | JString (s : string)
  | JArray (items : list JSON)
  | JObject (members : list (string * JSON)).

(** How a call ends. *)
Inductive Completion (A : Type) :=
  | Returns (a : A)
  | Throws.
Arguments Returns {A} _.
Arguments Throws {A}.

(** The promise [loadModel()] returned, with the place where the async
    function is suspended while the promise is pending. *)
Inductive LoadModel :=
  | NotCalled                              (* [loadModel] has not run yet *)
  | AwaitingResponse                       (* at [await axios.get(...)] *)
  | AwaitingParse (jsonObject : JSON)      (* at [await parseJSON(jsonObject)] *)
  | Fulfilled (object3d : option Object3D) (* [None] is [undefined] *)
  | Rejected (message : string).

(** The fields of a [Viewer] (viewer.ts:13-27); [viewer_id] is the field
    [id].  [_clock], [_raycaster] and
    [_mouse] only feed the two oracles of the events below, and [model]
    is the loaded hierarchy as the load delivered it; the fields of its
    objects that change afterwards are read from [World.objects]. *)
Record Viewer := {
  viewer_id : string;
  scene : Scene;
  camera : PerspectiveCamera;
  _renderer : WebGLRenderer;
  _cameraControl : CameraControls;
  _renderNeeded : bool;
  _selectedObject : option ObjRef;
  model : option Object3D;
  status : BehaviorSubject ViewerStatus;
  loadModel_promise : LoadModel
}.

(** The page the viewer runs in, and the viewer.  [objects] is the store of
    the scene-graph objects that are reachable by reference: each entry holds
    the fields of the object with that id. *)
Record World := {
  three : ThreeGlobals;
  window : Window;
  document : Document;
  objects : gmap ObjRef Fields;
  viewer : Viewer
}.

(** ** Updates of single fields *)

Definition with_viewer (f : Viewer -> Viewer) (w : World) : World :=
  {| three := three w; window := window w; document := document w;
     objects := objects w; viewer := f (viewer w) |}.

Definition with_window (f : Window -> Window) (w : World) : World :=
  {| three := three w; window := f (window w); document := document w;
     objects := objects w; viewer := viewer w |}.

Definition with_objects (f : gmap ObjRef Fields -> gmap ObjRef Fields) (w : World) : World :=
  {| three := three w; window := window w; document := document w;
     objects := f (objects w); viewer := viewer w |}.

Definition with_three (f : ThreeGlobals -> ThreeGlobals) (w : World) : World :=
  {| three := f (three w); window := window w; document := document w;
     objects := objects w; viewer := viewer w |}.

Definition set_scene (s : Scene) (v : Viewer) : Viewer :=
  {| viewer_id := viewer_id v; scene := s; camera := camera v;
     _renderer := _renderer v; _cameraControl := _cameraControl v;
     _renderNeeded := _renderNeeded v; _selectedObject := _selectedObject v;
     model := model v; status := status v;
     loadModel_promise := loadModel_promise v |}.

Definition set_camera (c : PerspectiveCamera) (v : Viewer) : Viewer :=
  {| viewer_id := viewer_id v; scene := scene v; camera := c;
     _renderer := _renderer v; _cameraControl := _cameraControl v;
     _renderNeeded := _renderNeeded v; _selectedObject := _selectedObject v;
     model := model v; status := status v;
     loadModel_promise := loadModel_promise v |}.

Definition set_renderer (r : WebGLRenderer) (v : Viewer) : Viewer :=
  {| viewer_id := viewer_id v; scene := scene v; camera := camera v;
     _renderer := r; _cameraControl := _cameraControl v;
     _renderNeeded := _renderNeeded v; _selectedObject := _selectedObject v;
     model := model v; status := status v;
     loadModel_promise := loadModel_promise v |}.

Definition set_cameraControl (c : CameraControls) (v : Viewer) : Viewer :=
  {| viewer_id := viewer_id v; scene := scene v; camera := camera v;
     _renderer := _renderer v; _cameraControl := c;
     _renderNeeded := _renderNeeded v; _selectedObject := _selectedObject v;
     model := model v; status := status v;
     loadModel_promise := loadModel_promise v |}.

Definition set_renderNeeded (b : bool) (v : Viewer) : Viewer :=
  {| viewer_id := viewer_id v; scene := scene v; camera := camera v;
     _renderer := _renderer v; _cameraControl := _cameraControl v;
     _renderNeeded := b; _selectedObject := _selectedObject v;
     model := model v; status := status v;
     loadModel_promise := loadModel_promise v |}.

Definition set_selectedObject (o : option ObjRef) (v : Viewer) : Viewer :=
  {| viewer_id := viewer_id v; scene := scene v; camera := camera v;
     _renderer := _renderer v; _cameraControl := _cameraControl v;
     _renderNeeded := _renderNeeded v; _selectedObject := o;
     model := model v; status := status v;
     loadModel_promise := loadModel_promise v |}.

Definition set_model (m : option Object3D) (v : Viewer) : Viewer :=
  {| viewer_id := viewer_id v; scene := scene v; camera := camera v;
     _renderer := _renderer v; _cameraControl := _cameraControl v;
     _renderNeeded := _renderNeeded v; _selectedObject := _selectedObject v;
     model := m; status := status v;
     loadModel_promise := loadModel_promise v |}.

Definition set_status (s : BehaviorSubject ViewerStatus) (v : Viewer) : Viewer :=
  {| viewer_id := viewer_id v; scene := scene v; camera := camera v;
     _renderer := _renderer v; _cameraControl := _cameraControl v;
     _renderNeeded := _renderNeeded v; _selectedObject := _selectedObject v;
     model := model v; status := s;
     loadModel_promise := loadModel_promise v |}.

Definition set_loadModel_promise (p : LoadModel) (v : Viewer) : Viewer :=
  {| viewer_id := viewer_id v; scene := scene v; camera := camera v;
     _renderer := _renderer v; _cameraControl := _cameraControl v;
     _renderNeeded := _renderNeeded v; _selectedObject := _selectedObject v;
     model := model v; status := status v;
     loadModel_promise := p |}.

Definition set_listeners (ls : list EventListener) (wd : Window) : Window :=
  {| innerWidth := innerWidth wd; innerHeight := innerHeight wd;
     devicePixelRatio := devicePixelRatio wd; window_listeners := ls;
     animationFrameRequests := animationFrameRequests wd |}.

Definition set_animationFrameRequests (n : nat) (wd : Window) : Window :=
  {| innerWidth := innerWidth wd; innerHeight := innerHeight wd;
     devicePixelRatio := devicePixelRatio wd;
     window_listeners := window_listeners wd;
     animationFrameRequests := n |}.

(** The user resizes the browser window. *)
Definition set_innerSize (width height : float) (wd : Window) : Window :=
  {| innerWidth := width; innerHeight := height;
     devicePixelRatio := devicePixelRatio wd;
     window_listeners := window_listeners wd;
     animationFrameRequests := animationFrameRequests wd |}.

(** ** The renderer and the render loop *)

(** [renderer.setSize(width, height)] *)
Definition setSize (width height : float) (r : WebGLRenderer) : WebGLRenderer :=
  {| size := (width, height); pixelRatio := pixelRatio r;
     domElement := domElement r; renderer_disposed := renderer_disposed r;
     draws := draws r |}.

(** [renderer.render(scene, camera)] *)
Definition render (c : PerspectiveCamera) (r : WebGLRenderer) : WebGLRenderer :=
  {| size := size r; pixelRatio := pixelRatio r;
     domElement := domElement r; renderer_disposed := renderer_disposed r;
     draws := draws r ++ [{| draw_projection := projectionMatrix c;
                             draw_size := size r |}] |}.

Definition set_domElement (c : Canvas) (r : WebGLRenderer) : WebGLRenderer :=
  {| size := size r; pixelRatio := pixelRatio r;
     domElement := c; renderer_disposed := renderer_disposed r;
     draws := draws r |}.

(** [renderer.dispose()] *)
Definition disposeRenderer (r : WebGLRenderer) : WebGLRenderer :=
  {| size := size r; pixelRatio := pixelRatio r;
     domElement := domElement r; renderer_disposed := true;
     draws := draws r |}.

(** [window.requestAnimationFrame(this._render)] *)
Definition requestAnimationFrame (w : World) : World :=
  with_window
    (fun wd => set_animationFrameRequests (S (animationFrameRequests wd)) wd) w.

(** viewer.ts:107-117.  [hasControlsUpdated] is what
    [this._cameraControl.update(clockDelta)] answers in this frame. *)
Definition _render (hasControlsUpdated : bool) (w : World) : World :=
  let w1 :=
    if hasControlsUpdated || _renderNeeded (viewer w) then
      with_viewer
        (fun v => set_renderNeeded false
                    (set_renderer (render (camera v) (_renderer v)) v)) w
    else w in
  requestAnimationFrame w1.

(** viewer.ts:94-97 *)
Definition updateViewer (hasControlsUpdated : bool) (w : World) : World :=
  _render hasControlsUpdated (with_viewer (set_renderNeeded true) w).

(** viewer.ts:99-105 *)
Definition resize (hasControlsUpdated : bool) (w : World) : World :=
  let width := innerWidth (window w) in
  let height := innerHeight (window w) in
  let w1 :=
    with_viewer
      (fun v =>
         let c := camera v in
         (* this.camera.aspect = window.innerWidth / window.innerHeight *)
         let c1 := {| fov := fov c; aspect := (width / height)%float;
                      near := near c; far := far c;
                      projectionMatrix := projectionMatrix c |} in
         set_renderNeeded true
           (set_renderer (setSize width height (_renderer v))
              (set_camera (updateProjectionMatrix c1) v))) w in
  updateViewer hasControlsUpdated w1.

(** ** Selection *)

(** viewer.ts:292-297 *)
Definition resetObjectMaterial (object : ObjRef) (w : World) : World :=
  match objects w !! object with
  | Some o =>
      if instanceofMesh (obj_class o) then
        match originalMaterial (obj_userData o) with
        | Some m =>
            (* object.material = object.userData.originalMaterial;
               delete object.userData.originalMaterial *)
            with_objects
              (insert object (set_originalMaterial None (set_material (Some m) o))) w
        | None => w
        end
      else w
  | None => w
  end.

(** [if (this._selectedObject) this.resetObjectMaterial(this._selectedObject)]
    (viewer.ts:261-263, 270-271 and 278-280) *)
Definition resetSelected (w : World) : World :=
  match _selectedObject (viewer w) with
  | Some s => resetObjectMaterial s w
  | None => w
  end.

(** viewer.ts:283-289 *)
Definition applyHighlight (object : ObjRef) (w : World) : World :=
  match objects w !! object with
  | Some o =>
      if instanceofMesh (obj_class o) then
        let highlight :=
          {| material_id := materialId (three w);
             material_data := HighlightMaterial |} in
        with_three
          (fun g => {| object3DId := object3DId g; materialId := materialId g + 1 |})
          (with_objects
             (insert object
                (set_material (Some highlight)
                   (set_originalMaterial (obj_material o) o))) w)
      else w
  | None => w
  end.

(** viewer.ts:277-290 *)
Definition highlightObject (object : ObjRef) (w : World) : World :=
  let w1 := resetSelected w in
  let w2 := with_viewer (set_selectedObject (Some object)) w1 in
  applyHighlight object w2.

(** viewer.ts:246-275.  [hit] is [intersects[0].object] when the ray meets
    an object of the scene, [None] when [intersects] is empty. *)
Definition onMouseClick (hit : option ObjRef) (w : World) : World :=
  match hit with
  | Some selectedObject =>
      let w1 := resetSelected w in
      let w2 := with_viewer (set_selectedObject (Some selectedObject)) w1 in
      highlightObject selectedObject w2
  | None =>
      match _selectedObject (viewer w) with
      | Some s =>
          with_viewer (set_selectedObject None) (resetObjectMaterial s w)
      | None => w
      end
  end.

(** ** The hierarchy widget (ObjectHierarchyWidget.tsx:8-18) *)

(** A rendered [<ul>]: its key, the object its [<li>] passes to
    [viewer.highlightObject] when clicked, the text of the [<li>], and the
    lists of the children. *)
#[warnings="-register-all"]
Inductive Ul :=
  | MkUl (key : string) (onClick : ObjRef) (text : string) (nested : list Ul).

(** [object.name || `Object (${object.uuid})`] *)
Definition itemText (f : Fields) : string :=
  match obj_name f with
  | "" => "Object (" +:+ obj_uuid f +:+ ")"
  | name => name
  end.

Fixpoint renderObjectHierarchy (object : Object3D) : Ul :=
  match object with
  | Node f cs =>
      MkUl (obj_uuid f) (obj_id f) (itemText f) (map renderObjectHierarchy cs)
  end.

(** The objects a click somewhere in the rendered list can select. *)
Fixpoint clickTargets (u : Ul) : list ObjRef :=
  match u with
  | MkUl _ o _ us => o :: flat_map clickTargets us
  end.

(** ** Construction, loading and disposal *)

(** Every object of a loaded tree becomes reachable by reference once the
    tree is handed to the scene and to [viewer.model]. *)
Definition publish (o : Object3D) (m : gmap ObjRef Fields) : gmap ObjRef Fields :=
  foldr (fun n acc => <[obj_id (fields n) := fields n]> acc) m (nodes o).

(** [scene.add(object)] *)
Definition sceneAdd (c : SceneChild) (s : Scene) : Scene :=
  {| background := background s; scene_children := scene_children s ++ [c] |}.

(** [scene.clear()] *)
Definition sceneClear (s : Scene) : Scene :=
  {| background := background s; scene_children := [] |}.

(** viewer.ts:119-121, [loadModel] up to its first [await]: the part that
    runs inside the constructor. *)
Definition loadModel_start (w : World) : World :=
  with_viewer
    (fun v => set_loadModel_promise AwaitingResponse
                (set_status (next loading (status v)) v)) w.

(** viewer.ts:29-92.  The page before the viewer exists is given by its
    parts; [uuid] is the result of [uuid.v4()].  The camera position, the
    renderer's shadow map, the settings of the camera controls and of the
    lights are not tracked. *)
#[warnings="-inexact-float"]
Definition construct (uuid : string) (hasControlsUpdated : bool)
    (g : ThreeGlobals) (wd : Window) (doc : Document)
    (objs : gmap ObjRef Fields) : World :=
  let scene0 := {| background := "#333333"; scene_children := [] |} in
  let camera0 :=
    newPerspectiveCamera 75 (innerWidth wd / innerHeight wd) 0.1 1000 in
  let canvas0 := {| inContainer := false; canvas_listeners := [] |} in
  let renderer0 :=
    setSize (innerWidth wd) (innerHeight wd)
      {| size := (0, 0)%float; pixelRatio := devicePixelRatio wd;
         domElement := canvas0; renderer_disposed := false; draws := [] |} in
  (* container.appendChild(this._renderer.domElement) *)
  let renderer1 :=
    set_domElement {| inContainer := true; canvas_listeners := [] |} renderer0 in
  let scene1 := sceneAdd AmbientLight (sceneAdd DirectionalLight scene0) in
  (* window.addEventListener("resize", this.resize) *)
  let wd1 :=
    set_listeners
      (addEventListener "resize" (ViewerResize uuid) (window_listeners wd)) wd in
  (* this._renderer.domElement.addEventListener("click", this.onMouseClick) *)
  let renderer2 :=
    set_domElement
      {| inContainer := true;
         canvas_listeners :=
           addEventListener "click" (ViewerOnMouseClick uuid) [] |} renderer1 in
  let v :=
    {| viewer_id := uuid; scene := scene1; camera := camera0;
       _renderer := renderer2;
       _cameraControl := {| controls_disposed := false |};
       _renderNeeded := true; _selectedObject := None; model := None;
       status := newBehaviorSubject idle;
       loadModel_promise := NotCalled |} in
  let w := {| three := g; window := wd1; document := doc; objects := objs;
              viewer := v |} in
  (* this.loadModel().then(...); this.updateViewer() *)
  updateViewer hasControlsUpdated (loadModel_start w).

(** viewer.ts:300-308 *)
Definition dispose (w : World) : World :=
  let uuid := viewer_id (viewer w) in
  let w1 :=
    with_window
      (fun wd => set_listeners
         (removeEventListener "resize" (ViewerResize uuid) (window_listeners wd)) wd)
      w in
  with_viewer
    (fun v =>
       let r := _renderer v in
       let canvas :=
         (* removeEventListener("click", ...); domElement.remove() *)
         {| inContainer := false;
            canvas_listeners :=
              removeEventListener "click" (ViewerOnMouseClick uuid)
                (canvas_listeners (domElement r)) |} in
       set_renderNeeded false
         (set_scene (sceneClear (scene v))
            (set_cameraControl {| controls_disposed := true |}
               (set_renderer (disposeRenderer (set_domElement canvas r)) v))))
    w1.

(** ** Loading *)

(** What [await axios.get(modelUrl, ...)] resumes with. *)
Inductive FetchOutcome :=
  | RequestFailed                    (* the promise rejects: the [await] throws *)
  | Response (data : JSON).

(** The callback of viewer.ts:80-89, run when the promise of [loadModel] is
    fulfilled.  [rotateX], the bounding box and [fitToBox] are not tracked. *)
Definition onLoaded (object3d : option Object3D) (w : World) : World :=
  match object3d with
  | Some o =>
      with_objects (publish o)
        (with_viewer
           (fun v =>
              set_status (next idle (status v))
                (set_model (Some o)
                   (set_scene
                      (sceneAdd (LoadedObject (obj_id (fields o))) (scene v)) v)))
           w)
  | None => w
  end.

(** [return v] of [loadModel]: the promise is fulfilled and its [then]
    callback runs. *)
Definition loadModel_return (object3d : option Object3D) (w : World) : World :=
  onLoaded object3d
    (with_viewer (set_loadModel_promise (Fulfilled object3d)) w).

(** viewer.ts:142-145, the [catch] block *)
Definition loadModel_catch (w : World) : World :=
  with_viewer
    (fun v => set_loadModel_promise (Rejected "Failed to load model")
                (set_status (next error (status v)) v)) w.

(** viewer.ts:138-140, what follows a successful [await parseJSON(...)] *)
Definition loadModel_finish (object3d : Object3D) (w : World) : World :=
  let assigned := assignPropertyValues object3d in
  let '(labelled, g) := addLabelsToModel (document w) assigned (three w) in
  loadModel_return (Some labelled) (with_three (fun _ => g) w).

Section ParseJson.

(** The two exports of [../utils/parse-json] that [loadModel] calls; the
    module itself is not part of the sources at hand.  [findThreeJSJSON]
    searches the response body for the three.js document and answers with
    it or with a falsy value; [parseJSON] builds the objects, drawing their
    ids from three.js's counters.  Either may throw. *)
Variable findThreeJSJSON : JSON -> Completion (option JSON).
Variable parseJSON : JSON -> ThreeGlobals -> Completion (Object3D * ThreeGlobals).

(** viewer.ts:126-137: [loadModel] resumes after [await axios.get]. *)
Definition loadModel_afterFetch (r : FetchOutcome) (w : World) : World :=
  match r with
  | RequestFailed => loadModel_catch w
  | Response data =>
      match findThreeJSJSON data with
      | Throws => loadModel_catch w
      | Returns (Some jsonObject) =>
          with_viewer (set_loadModel_promise (AwaitingParse jsonObject)) w
      | Returns None =>
          (* [if (jsonObject)] is not entered; the function ends *)
          loadModel_return None w
      end
  end.

(** viewer.ts:137-141: [loadModel] resumes after [await parseJSON]. *)
Definition loadModel_afterParse (jsonObject : JSON) (w : World) : World :=
  match parseJSON jsonObject (three w) with
  | Throws => loadModel_catch w
  | Returns (object3d, g) =>
      loadModel_finish object3d (with_three (fun _ => g) w)
  end.

(** ** What can happen to a viewer once it is constructed *)

Inductive Event :=
  | FetchSettled (r : FetchOutcome)       (* the request of [loadModel] ends *)
  | ParseSettled                          (* the promise of [parseJSON] ends *)
  | AnimationFrame (hasControlsUpdated : bool)
  | WindowResized (width height : float) (hasControlsUpdated : bool)
  | CanvasClicked (hit : option ObjRef)
  | ItemClicked (object : ObjRef)         (* an [<li>] of the hierarchy widget *)
  | Disposed.                             (* somebody calls [viewer.dispose()] *)

Definition resizeListener (w : World) : EventListener :=
  {| listener_type := "resize";
     listener_callback := ViewerResize (viewer_id (viewer w)) |}.

Definition clickListener (w : World) : EventListener :=
  {| listener_type := "click";
     listener_callback := ViewerOnMouseClick (viewer_id (viewer w)) |}.

Definition step (w : World) (e : Event) : World :=
  match e with
  | FetchSettled r =>
      match loadModel_promise (viewer w) with
      | AwaitingResponse => loadModel_afterFetch r w
      | _ => w
      end
  | ParseSettled =>
      match loadModel_promise (viewer w) with
      | AwaitingParse jsonObject => loadModel_afterParse jsonObject w
      | _ => w
      end
  | AnimationFrame b =>
      match animationFrameRequests (window w) with
      | S n => _render b (with_window (set_animationFrameRequests n) w)
      | O => w
      end
  | WindowResized width height b =>
      let w1 := with_window (set_innerSize width height) w in
      if decide (resizeListener w ∈ window_listeners (window w))
      then resize b w1 else w1
  | CanvasClicked hit =>
      if decide (clickListener w ∈ canvas_listeners (domElement (_renderer (viewer w))))
      then onMouseClick hit w else w
  | ItemClicked object => highlightObject object w
  | Disposed => dispose w
  end.

Definition run (w : World) (es : list Event) : World := fold_left step es w.

End ParseJson.

(** Events other than the two that resume [loadModel]. *)
Definition isSettlement (e : Event) : bool :=
  match e with
  | FetchSettled _ | ParseSettled => true
  | _ => false
  end.

(** A run without such events: whatever else happens while [loadModel] is
    suspended. *)
Definition noSettlement (es : list Event) : Prop :=
  Forall (fun e => isSettlement e = false) es.

(** The promise of [loadModel] is settled. *)
Definition settled (p : LoadModel) : bool :=
  match p with
  | Fulfilled _ | Rejected _ => true
  | _ => false
  end.

(** ** Selecting, as a sequence of operations *)

Inductive Selection :=
  | HighlightObject (object : ObjRef)     (* [viewer.highlightObject(object)] *)
  | MouseClick (hit : option ObjRef).     (* the click handler runs *)

Definition select (w : World) (s : Selection) : World :=
  match s with
  | HighlightObject object => highlightObject object w
  | MouseClick hit => onMouseClick hit w
  end.

Definition selecting (w : World) (ss : list Selection) : World :=
  fold_left select ss w.

(* ===================================================================== *)
(** * Part 4: vocabulary of the properties, and sample data               *)
(* ===================================================================== *)

(** The tree [loadModel] returns for a parsed tree (viewer.ts:138-140). *)
Definition loadedModel (doc : Document) (parsed : Object3D) (g : ThreeGlobals)
  : Object3D :=
  (addLabelsToModel doc (assignPropertyValues parsed) g).1.

(** Objects of a subtree whose class satisfies [q]. *)
Definition countClass (q : Class -> bool) (o : Object3D) : nat :=
  count (fun x => q (obj_class (fields x))) o.

(** Whether [makeTextLabel] builds a sprite for an object with fields [f];
    the counters play no part in it. *)
Definition labels (doc : Document) (f : Fields) : bool :=
  match propertyValue (obj_userData f) with
  | Some pv =>
      truthyNumber (statusCode pv) && truthyString (statusText pv)
      && getContext2d doc
  | None => false
  end.

(** A Mesh for which [addTextLabel] mounts a label. *)
Definition labelledMesh (doc : Document) (x : Object3D) : bool :=
  isMesh x && labels doc (fields x).

(** [sprite] is a label as [addTextLabel] builds it for status [code] and
    [text]: a childless Sprite whose material maps the painted canvas. *)
Definition isStatusLabel (code : N) (text : string) (sprite : Object3D) : Prop :=
  isSprite sprite = true ∧ children sprite = [] ∧
  ∃ n, obj_material (fields sprite)
       = Some {| material_id := n;
                 material_data := SpriteMaterial (drawLabel code text) |}.

(** One label per Mesh: [model] has as many Sprites more than [parsed] as
    [parsed] has Meshes, and every Mesh of [model] ends its children with
    the label of its status. *)
Definition oneLabelPerMesh (parsed model : Object3D) : Prop :=
  count isSprite model = (count isSprite parsed + count isMesh parsed)%nat ∧
  ∀ x, x ∈ nodes model → isMesh x = true →
    ∃ kids sprite text,
      children x = kids ++ [sprite] ∧
      statusText (propertyValueOf (obj_id (fields x))) = Some text ∧
      isStatusLabel (statusIndex (obj_id (fields x))) text sprite.

(** The object behind [o] currently wears a highlight material. *)
Definition holdsHighlight (w : World) (o : ObjRef) : Prop :=
  ∃ f m, objects w !! o = Some f ∧ obj_material f = Some m ∧
         isHighlightMaterial m = true.

(** The material of the object behind [o], if there is such an object and
    it has one. *)
Definition materialOf (w : World) (o : ObjRef) : option Material :=
  objects w !! o ≫= obj_material.

(** An object nobody has highlighted: nothing is cached under
    [userData.originalMaterial], its material is not a highlight material,
    and, as in three.js, a Mesh has a material. *)
Definition pristineObject (f : Fields) : bool :=
  match originalMaterial (obj_userData f) with
  | Some _ => false
  | None =>
      match obj_material f with
      | Some m => negb (isHighlightMaterial m)
      | None => negb (instanceofMesh (obj_class f))
      end
  end.

(** A world in which no selection has been made yet. *)
Definition pristine (w : World) : Prop :=
  _selectedObject (viewer w) = None ∧
  map_Forall (fun _ f => pristineObject f = true) (objects w).

(** The state of an object while it is the highlighted selection: the
    highlight material with serial [n] on it, its own material cached. *)
Definition highlighted (n : N) (f : Fields) : Fields :=
  set_material
    (Some {| material_id := n; material_data := HighlightMaterial |})
    (set_originalMaterial (obj_material f) f).

(** How the store of a world [w] relates to the store [w0] it started from,
    before any selection was made: the selected object, if it is a Mesh,
    is in its highlighted state, every other object is as it was. *)
Definition selectionInvariant (w0 w : World) : Prop :=
  ∀ o,
    match objects w0 !! o with
    | None => objects w !! o = None
    | Some f0 =>
        if decide (_selectedObject (viewer w) = Some o) then
          if instanceofMesh (obj_class f0)
          then ∃ n, objects w !! o = Some (highlighted n f0)
          else objects w !! o = Some f0
        else objects w !! o = Some f0
    end.

(** An object on which no highlight shows and to which none can come back:
    its material is not a highlight material, nor is what it carries under
    [userData.originalMaterial], if anything (the file can provide that
    key), and, as in three.js, a Mesh has a material. *)
Definition unlit (f : Fields) : bool :=
  match obj_material f with
  | Some m => negb (isHighlightMaterial m)
  | None => negb (instanceofMesh (obj_class f))
  end
  && match originalMaterial (obj_userData f) with
     | Some x => negb (isHighlightMaterial x)
     | None => true
     end.

(** A world in which nothing is selected and nothing is highlighted,
    whatever [userData] its objects brought along. *)
Definition unselected (w : World) : Prop :=
  _selectedObject (viewer w) = None ∧
  map_Forall (fun _ f => unlit f = true) (objects w).

(** Every object is unlit, apart from the selection when it is a Mesh,
    which then has something other than a highlight material cached. *)
Definition onlySelectionLit (w : World) : Prop :=
  ∀ o f, objects w !! o = Some f →
    unlit f = true
    ∨ (_selectedObject (viewer w) = Some o
       ∧ instanceofMesh (obj_class f) = true
       ∧ ∃ x, originalMaterial (obj_userData f) = Some x
              ∧ isHighlightMaterial x = false).

(** The resize handler as the specification describes it, for a window
    that now measures [width] by [height]: when the handler returns, the
    redraw is still to come; the dirty flag is set and the next frame draws
    even if the camera controls report no change. *)
Definition resizeLeavesRedrawPending (width height : float)
    (hasControlsUpdated : bool) (w : World) : Prop :=
  let w' := resize hasControlsUpdated (with_window (set_innerSize width height) w) in
  aspect (camera (viewer w')) = (width / height)%float ∧
  size (_renderer (viewer w')) = (width, height) ∧
  _renderNeeded (viewer w') = true ∧
  draws (_renderer (viewer (_render false w')))
    = draws (_renderer (viewer w'))
        ++ [{| draw_projection := projectionMatrix (camera (viewer w'));
               draw_size := size (_renderer (viewer w')) |}].

(** ** Sample data *)

Definition sampleMaterial (n : N) : Material :=
  {| material_id := n; material_data := ParsedMaterial |}.

Definition sampleFields (id : N) (name : string) (c : Class)
    (m : option Material) : Fields :=
  {| obj_id := id; obj_uuid := "uuid-of-" +:+ name; obj_name := name;
     obj_class := c; obj_material := m;
     obj_userData := {| propertyValue := None; originalMaterial := None |} |}.

(** A ceiling of two panels and a nested frame. *)
Definition sampleTree : Object3D :=
  Node (sampleFields 7 "ceiling" GroupClass None)
    [ Node (sampleFields 8 "panel" MeshClass (Some (sampleMaterial 0))) [];
      Node (sampleFields 9 "" MeshClass (Some (sampleMaterial 0))) [];
      Node (sampleFields 10 "frame" GroupClass None)
        [ Node (sampleFields 11 "rail" MeshClass (Some (sampleMaterial 1))) [] ] ].

Definition sampleGlobals : ThreeGlobals := {| object3DId := 12; materialId := 2 |}.

Definition sampleDocument : Document := {| getContext2d := true |}.

(** A page whose canvases hand out no 2D context. *)
Definition documentWithout2d : Document := {| getContext2d := false |}.

Definition sampleWindow : Window :=
  {| innerWidth := 1920; innerHeight := 1080; devicePixelRatio := 1;
     window_listeners :=
       [ {| listener_type := "resize"; listener_callback := OtherCallback 0 |} ];
     animationFrameRequests := 0 |}.

(** A [findThreeJSJSON] that looks for a member called [scene]. *)
Definition sampleFind (data : JSON) : Completion (option JSON) :=
  match data with
  | JObject members =>
      Returns (snd <$> List.find (fun kv => String.eqb (fst kv) "scene") members)
  | _ => Returns None
  end.

(** A [parseJSON] that accepts objects and delivers [sampleTree]. *)
Definition sampleParse (jsonObject : JSON) (g : ThreeGlobals)
  : Completion (Object3D * ThreeGlobals) :=
  match jsonObject with
  | JObject _ => Returns (sampleTree, sampleGlobals)
  | _ => Throws
  end.

Definition sampleEnvelope : JSON := JObject [("scene", JObject [])].

Definition emptyEnvelope : JSON := JObject [].

(** [sampleTree] as [loadModel] returns it, and its first panel. *)
Definition sampleLoadedTree : Object3D :=
  loadedModel sampleDocument sampleTree sampleGlobals.

Definition samplePanel : Object3D :=
  default sampleTree (nodes sampleLoadedTree !! 1%nat).

(** A [findThreeJSJSON] that throws on a body that is [null]. *)
Definition strictFind (data : JSON) : Completion (option JSON) :=
  match data with
  | JNull => Throws
  | _ => sampleFind data
  end.

(** An envelope whose [scene] is no object: [sampleParse] rejects it. *)
Definition brokenEnvelope : JSON := JObject [("scene", JString "broken")].

(** The world right after [new Viewer(container)]. *)
Definition sampleWorld : World :=
  construct "viewer-1" false {| object3DId := 0; materialId := 0 |}
    sampleWindow sampleDocument ∅.

(** The same world once [sampleTree] is loaded. *)
Definition sampleLoadedWorld : World :=
  run sampleFind sampleParse sampleWorld
    [FetchSettled (Response sampleEnvelope); ParseSettled].

(** The loaded world after the first panel (id 8) was picked in the widget. *)
Definition samplePanelSelected : World :=
  selecting sampleLoadedWorld [HighlightObject 8].

(** What a file holds under [userData.originalMaterial] of its first panel
    when the scene was exported while that panel was highlighted. *)
Definition sampleFileValue : Material :=
  {| material_id := 2; material_data := ParsedMaterial |}.

(** [sampleTree] as such a file delivers it. *)
Definition sampleKeyedTree : Object3D :=
  Node (sampleFields 7 "ceiling" GroupClass None)
    [ Node (set_originalMaterial (Some sampleFileValue)
              (sampleFields 8 "panel" MeshClass (Some (sampleMaterial 0)))) [];
      Node (sampleFields 9 "" MeshClass (Some (sampleMaterial 0))) [];
      Node (sampleFields 10 "frame" GroupClass None)
        [ Node (sampleFields 11 "rail" MeshClass (Some (sampleMaterial 1))) [] ] ].

(** A [parseJSON] that accepts objects and delivers [sampleKeyedTree]. *)
Definition sampleKeyedParse (jsonObject : JSON) (g : ThreeGlobals)
  : Completion (Object3D * ThreeGlobals) :=
  match jsonObject with
  | JObject _ => Returns (sampleKeyedTree, {| object3DId := 12; materialId := 3 |})
  | _ => Throws
  end.

(** The world right after [new Viewer(container)] once that file is loaded. *)
Definition sampleKeyedWorld : World :=
  run sampleFind sampleKeyedParse sampleWorld
    [FetchSettled (Response sampleEnvelope); ParseSettled].

(** ** The hierarchy widget as a whole (ObjectHierarchyWidget.tsx:20-29) *)

(** What the widget shows under its heading. *)
Inductive WidgetBody :=
  | NoModelLoaded                  (* [<p>No model loaded.</p>] *)
  | Hierarchy (list : Ul).

(** [viewer?.model ? renderObjectHierarchy(viewer.model) : ...]; the viewer
    comes from the context and may be missing. *)
Definition ObjectHierarchyWidget (v : option Viewer) : WidgetBody :=
  match v with
  | Some v =>
      match model v with
      | Some m => Hierarchy (renderObjectHierarchy m)
      | None => NoModelLoaded
      end
  | None => NoModelLoaded
  end.

(** ** Vocabulary of the life-cycle properties *)

(** How [status], [model] and the scene go with the state of the promise
    of [loadModel]. *)
Definition loadingConsistent (v : Viewer) : Prop :=
  match loadModel_promise v with
  | NotCalled => False
  | AwaitingResponse | AwaitingParse _ | Fulfilled None =>
      emissions (status v) = [idle; loading] ∧ model v = None ∧
      ∀ r, LoadedObject r ∉ scene_children (scene v)
  | Fulfilled (Some o) =>
      emissions (status v) = [idle; loading; idle] ∧ model v = Some o ∧
      ∀ r, LoadedObject r ∈ scene_children (scene v) → r = obj_id (fields o)
  | Rejected message =>
      message = "Failed to load model" ∧
      emissions (status v) = [idle; loading; error] ∧ model v = None ∧
      ∀ r, LoadedObject r ∉ scene_children (scene v)
  end.

(** The resize events of a run that reach the viewer: those before the
    first disposal. *)
Fixpoint resizesBeforeDisposal (es : list Event) : nat :=
  match es with
  | [] => 0%nat
  | Disposed :: _ => 0%nat
  | WindowResized _ _ _ :: es' => S (resizesBeforeDisposal es')
  | _ :: es' => resizesBeforeDisposal es'
  end.

(** ** Proof automation *)

(** Unfold the handlers an event can run and split on every test they make. *)
Ltac unfold_handlers :=
  unfold step, loadModel_afterFetch, loadModel_afterParse, loadModel_finish,
    loadModel_return, loadModel_catch, onLoaded, _render, updateViewer, resize,
    requestAnimationFrame, onMouseClick, highlightObject, applyHighlight,
    resetSelected, resetObjectMaterial, dispose.

Ltac by_cases :=
  unfold_handlers; simpl;
  repeat (first [rewrite orb_true_r | case_match]; simpl);
  try reflexivity.

(* ===================================================================== *)
(** * Part 5: properties of the load-time passes                          *)
(* ===================================================================== *)

(** Induction over a tree, with the hypothesis for every child. *)
Lemma Object3D_subtree_ind (P : Object3D -> Prop) :
  (∀ f cs, Forall P cs → P (Node f cs)) → ∀ o, P o.
Proof.
  intros step. fix IH 1. intros [f cs]. apply step.
  induction cs as [|c cs IHcs]; constructor; [apply IH | exact IHcs].
Qed.

Lemma addLabelsToModel_unfold doc f cs g :
  addLabelsToModel doc (Node f cs) g =
    let '(label, g1) :=
      if instanceofMesh (obj_class f) then makeTextLabel doc f g else (None, g) in
    let '(cs', g2) := addLabelsToChildren doc cs g1 in
    (Node f (cs' ++ option_list label), g2).
Proof.
  simpl. destruct (if instanceofMesh (obj_class f) then _ else _) as [label g1].
  assert (E : ∀ l h,
    (fix walk (l : list Object3D) (g : ThreeGlobals) {struct l} :=
       match l with
       | [] => ([], g)
       | c :: l' =>
           let '(c', g') := addLabelsToModel doc c g in
           let '(l'', g'') := walk l' g' in (c' :: l'', g'')
       end) l h = addLabelsToChildren doc l h).
  { induction l as [|c l IHl]; intros h; simpl; [reflexivity|].
    destruct (addLabelsToModel doc c h) as [c' g']. rewrite IHl. reflexivity. }
  rewrite E. reflexivity.
Qed.

(** The label of a Mesh is a childless Sprite, on which the pass does
    nothing. *)
Lemma makeTextLabel_is_leaf doc f g sprite g' :
  makeTextLabel doc f g = (Some sprite, g') →
  ∀ h, addLabelsToModel doc sprite h = (sprite, h).
Proof.
  unfold makeTextLabel. intros H h. repeat case_match; simplify_eq. reflexivity.
Qed.

Lemma addLabelsToChildren_app doc l1 l2 g :
  addLabelsToChildren doc (l1 ++ l2) g =
    let '(l1', g1) := addLabelsToChildren doc l1 g in
    let '(l2', g2) := addLabelsToChildren doc l2 g1 in
    (l1' ++ l2', g2).
Proof.
  revert g. induction l1 as [|c l1 IH]; intros g; simpl.
  - destruct (addLabelsToChildren doc l2 g); reflexivity.
  - destruct (addLabelsToModel doc c g) as [c' g']. rewrite IH.
    destruct (addLabelsToChildren doc l1 g') as [l1' g1].
    destruct (addLabelsToChildren doc l2 g1) as [l2' g2]. reflexivity.
Qed.

(** [addLabelsToModel] is [model.traverse] with the callback of
    viewer.ts:215-219, read literally: the callback runs on the object
    (for a Mesh, [addTextLabel]), then every child the object has by then,
    the new label included, is traversed in turn. *)
Lemma addLabelsToModel_is_traverse doc model g :
  addLabelsToModel doc model g =
    let '(visited, g1) :=
      if isMesh model then addTextLabel doc model g else (model, g) in
    let '(kids, g2) := addLabelsToChildren doc (children visited) g1 in
    (Node (fields visited) kids, g2).
Proof.
  destruct model as [f cs]. rewrite addLabelsToModel_unfold.
  unfold isMesh, addTextLabel. simpl.
  destruct (instanceofMesh (obj_class f)); simpl.
  - destruct (makeTextLabel doc f g) as [[sprite|] g1] eqn:E; simpl.
    + rewrite addLabelsToChildren_app.
      destruct (addLabelsToChildren doc cs g1) as [cs' g2]. simpl.
      rewrite (makeTextLabel_is_leaf doc f g sprite g1 E). reflexivity.
    + destruct (addLabelsToChildren doc cs g1) as [cs' g2].
      rewrite app_nil_r. reflexivity.
  - destruct (addLabelsToChildren doc cs g) as [cs' g2].
    rewrite app_nil_r. reflexivity.
Qed.

(** The passes keep the own fields of the root; [assignPropertyValues]
    rewrites them through its callback. *)
Lemma fields_addLabelsToModel doc o g :
  fields (addLabelsToModel doc o g).1 = fields o.
Proof.
  destruct o as [f cs]. rewrite addLabelsToModel_unfold.
  destruct (if instanceofMesh (obj_class f) then _ else _) as [label g1].
  destruct (addLabelsToChildren doc cs g1) as [cs' g2]. reflexivity.
Qed.

Lemma nodes_traverse callback o :
  nodes (traverse callback o) = map (traverse callback) (nodes o).
Proof.
  induction o as [f cs IH] using Object3D_subtree_ind. simpl. f_equal.
  induction IH as [|c cs Hc _ IHcs]; simpl; [reflexivity|].
  rewrite map_app, Hc, IHcs. reflexivity.
Qed.

Lemma fields_traverse callback o :
  fields (traverse callback o) = callback (fields o).
Proof. destruct o; reflexivity. Qed.

Lemma makeTextLabel_Some doc f g :
  labels doc f = true →
  ∃ pv text,
    propertyValue (obj_userData f) = Some pv ∧ statusText pv = Some text ∧
    makeTextLabel doc f g =
      (Some (Node {| obj_id := object3DId g; obj_uuid := ""; obj_name := "";
                     obj_class := SpriteClass;
                     obj_material :=
                       Some {| material_id := materialId g;
                               material_data :=
                                 SpriteMaterial (drawLabel (statusCode pv) text) |};
                     obj_userData := {| propertyValue := None;
                                        originalMaterial := None |} |} []),
       {| object3DId := object3DId g + 1; materialId := materialId g + 1 |}).
Proof.
  unfold labels, makeTextLabel. destruct (propertyValue _) as [pv|]; [|done].
  intros H. apply andb_true_iff in H as [H1 H3]. rewrite H1, H3.
  apply andb_true_iff in H1 as [_ H2].
  destruct (statusText pv) as [text|] eqn:E; [|done].
  exists pv, text. auto.
Qed.

Lemma makeTextLabel_None doc f g :
  labels doc f = false → makeTextLabel doc f g = (None, g).
Proof.
  unfold labels, makeTextLabel. destruct (propertyValue _) as [pv|]; [|done].
  destruct (truthyNumber _ && truthyString _); simpl; [|done].
  intros ->. reflexivity.
Qed.

(** A Mesh that went through [assignPropertyValues] gets a label whenever
    the page hands out a 2D context. *)
Lemma labels_assignPropertyValue doc f :
  instanceofMesh (obj_class f) = true →
  labels doc (assignPropertyValue f) = getContext2d doc.
Proof.
  intros Hm. unfold assignPropertyValue. rewrite Hm.
  unfold labels, propertyValueOf, statusIndex. simpl.
  assert (Hlt : obj_id f mod 4 < 4) by (apply N.mod_upper_bound; done).
  destruct (obj_id f mod 4) as [|[[|[]|]|[|[]|]|]] eqn:E; simpl; try reflexivity; lia.
Qed.

(** ** Counting through [addLabelsToModel] *)

Lemma count_Node p f cs :
  count p (Node f cs) =
    ((if p (Node f cs) then 1 else 0) + sum_list_with (count p) cs)%nat.
Proof.
  unfold count. simpl. rewrite filter_cons.
  assert (E : length (filter (λ x, p x = true) (flat_map nodes cs))
              = sum_list_with (λ o, length (filter (λ x, p x = true) (nodes o))) cs).
  { induction cs as [|c cs IH]; simpl; [reflexivity|].
    rewrite filter_app, length_app, IH. reflexivity. }
  destruct (decide (p (Node f cs) = true)) as [->|Hn]; simpl; rewrite E.
  - reflexivity.
  - destruct (p (Node f cs)); [done | reflexivity].
Qed.

Lemma count_leaf_sprite q f :
  obj_class f = SpriteClass →
  countClass q (Node f []) = if q SpriteClass then 1%nat else 0%nat.
Proof.
  intros E. unfold countClass. rewrite count_Node. simpl. rewrite E.
  destruct (q SpriteClass); reflexivity.
Qed.

(** What the pass does to the numbers of objects of each class, and to the
    counter of object ids: one Sprite more, and one id taken, for every Mesh
    that gets a label. *)
Lemma addLabelsToModel_counts doc q o g :
  let r := addLabelsToModel doc o g in
  countClass q r.1 =
    (countClass q o + if q SpriteClass then count (labelledMesh doc) o else 0)%nat
  ∧ object3DId r.2 = object3DId g + N.of_nat (count (labelledMesh doc) o).
Proof.
  revert g. induction o as [f cs IH] using Object3D_subtree_ind. intros g.
  cbv zeta. rewrite addLabelsToModel_unfold.
  assert (Hcs : ∀ h,
    let r := addLabelsToChildren doc cs h in
    sum_list_with (countClass q) r.1 =
      (sum_list_with (countClass q) cs
       + if q SpriteClass
         then sum_list_with (count (labelledMesh doc)) cs else 0)%nat
    ∧ object3DId r.2
      = object3DId h + N.of_nat (sum_list_with (count (labelledMesh doc)) cs)).
  { clear f g. induction IH as [|c cs Hc _ IHcs]; intros h; cbv zeta; simpl.
    - destruct (q SpriteClass); split; [reflexivity | lia | reflexivity | lia].
    - specialize (Hc h). cbv zeta in Hc. destruct Hc as [Hc1 Hc2].
      destruct (addLabelsToModel doc c h) as [c' h1]. simpl in Hc1, Hc2.
      specialize (IHcs h1). cbv zeta in IHcs. destruct IHcs as [I1 I2].
      destruct (addLabelsToChildren doc cs h1) as [cs' h2]. simpl in *.
      rewrite Hc1, I1, I2, Hc2. destruct (q SpriteClass); split; lia. }
  assert (Hnode : ∀ cs0, countClass q (Node f cs0)
            = ((if q (obj_class f) then 1 else 0)
               + sum_list_with (countClass q) cs0)%nat).
  { intros cs0. unfold countClass. rewrite count_Node. reflexivity. }
  assert (Hlab : count (labelledMesh doc) (Node f cs)
            = ((if instanceofMesh (obj_class f) && labels doc f then 1 else 0)
               + sum_list_with (count (labelledMesh doc)) cs)%nat).
  { rewrite count_Node. reflexivity. }
  rewrite Hlab, (Hnode cs). clear Hlab.
  destruct (instanceofMesh (obj_class f)) eqn:Hm; simpl.
  - destruct (labels doc f) eqn:Hl.
    + destruct (makeTextLabel_Some doc f g Hl) as (pv & text & _ & _ & ->).
      specialize (Hcs {| object3DId := object3DId g + 1;
                         materialId := materialId g + 1 |}).
      cbv zeta in Hcs. destruct Hcs as [H1 H2].
      destruct (addLabelsToChildren doc cs _) as [cs' g2]. simpl in *.
      rewrite Hnode, sum_list_with_app. simpl.
      rewrite count_leaf_sprite by reflexivity.
      rewrite H1, H2. destruct (q SpriteClass), (q (obj_class f)); split; lia.
    + rewrite (makeTextLabel_None doc f g Hl).
      specialize (Hcs g). cbv zeta in Hcs. destruct Hcs as [H1 H2].
      destruct (addLabelsToChildren doc cs g) as [cs' g2]. simpl in *.
      rewrite app_nil_r, Hnode, H1, H2.
      destruct (q SpriteClass); split; lia.
  - specialize (Hcs g). cbv zeta in Hcs. destruct Hcs as [H1 H2].
    destruct (addLabelsToChildren doc cs g) as [cs' g2]. simpl in *.
    rewrite app_nil_r, Hnode, H1, H2.
    destruct (q SpriteClass); split; lia.
Qed.

(** ** The objects of the labelled tree *)

(** Every object of the labelled tree is an object of the tree that went in,
    with its labelled subtree, or the label of one of its meshes. *)
Lemma nodes_addLabelsToModel doc o g x :
  x ∈ nodes (addLabelsToModel doc o g).1 →
  (∃ x0 g0, x0 ∈ nodes o ∧ x = (addLabelsToModel doc x0 g0).1)
  ∨ (∃ m g0 g1, m ∈ nodes o ∧ isMesh m = true ∧
                makeTextLabel doc (fields m) g0 = (Some x, g1)).
Proof.
  revert g x. induction o as [f cs IH] using Object3D_subtree_ind.
  intros g x Hx.
  assert (Hcs : ∀ h, x ∈ flat_map nodes (addLabelsToChildren doc cs h).1 →
    (∃ x0 g0, x0 ∈ flat_map nodes cs ∧ x = (addLabelsToModel doc x0 g0).1)
    ∨ (∃ m g0 g1, m ∈ flat_map nodes cs ∧ isMesh m = true ∧
                  makeTextLabel doc (fields m) g0 = (Some x, g1))).
  { clear Hx. induction IH as [|c cs Hc _ IHcs]; intros h; simpl.
    - intros H. inversion H.
    - pose proof (Hc h x) as Hc'.
      destruct (addLabelsToModel doc c h) as [c' h1]. simpl in Hc'.
      specialize (IHcs h1).
      destruct (addLabelsToChildren doc cs h1) as [cs' h2]. simpl in *.
      rewrite elem_of_app. intros [H|H].
      + destruct (Hc' H) as [(x0 & g0 & Hin & ->)|(m & g0 & g1 & Hin & Hm & E)].
        * left. exists x0, g0. rewrite elem_of_app. auto.
        * right. exists m, g0, g1. rewrite elem_of_app. auto.
      + destruct (IHcs H) as [(x0 & g0 & Hin & ->)|(m & g0 & g1 & Hin & Hm & E)].
        * left. exists x0, g0. rewrite elem_of_app. auto.
        * right. exists m, g0, g1. rewrite elem_of_app. auto. }
  rewrite addLabelsToModel_unfold in Hx.
  destruct (if instanceofMesh (obj_class f) then _ else _) as [label g1] eqn:El.
  specialize (Hcs g1).
  destruct (addLabelsToChildren doc cs g1) as [cs' g2] eqn:Ecs. simpl in Hx, Hcs.
  apply elem_of_cons in Hx as [->|Hx].
  - left. exists (Node f cs), g. split; [apply elem_of_cons; auto|].
    rewrite addLabelsToModel_unfold, El, Ecs. reflexivity.
  - rewrite flat_map_app, elem_of_app in Hx. destruct Hx as [Hx|Hx].
    + destruct (Hcs Hx) as [(x0 & g0 & Hin & ->)|(m & g0 & g3 & Hin & Hm & E)].
      * left. exists x0, g0. split; [apply elem_of_cons; auto | reflexivity].
      * right. exists m, g0, g3. split; [apply elem_of_cons; auto | auto].
    + destruct label as [sprite|]; simpl in Hx; [|inversion Hx].
      destruct (instanceofMesh (obj_class f)) eqn:Hm; [|congruence].
      assert (Hs : ∃ fs, sprite = Node fs []).
      { unfold makeTextLabel in El. repeat case_match; simplify_eq; eauto. }
      destruct Hs as [fs ->]. simpl in Hx.
      apply list_elem_of_singleton in Hx as ->.
      right. exists (Node f cs), g, g1.
      split; [apply elem_of_cons; auto | auto].
Qed.

(** A label is no Mesh. *)
Lemma makeTextLabel_not_mesh doc f g x g' :
  makeTextLabel doc f g = (Some x, g') → isMesh x = false.
Proof.
  unfold makeTextLabel. intros H. repeat case_match; simplify_eq. reflexivity.
Qed.

(** The label sits at the end of the children of its Mesh. *)
Lemma children_addLabelsToModel_mesh doc f cs g :
  instanceofMesh (obj_class f) = true → labels doc f = true →
  ∃ pv text n kids,
    propertyValue (obj_userData f) = Some pv ∧ statusText pv = Some text ∧
    children (addLabelsToModel doc (Node f cs) g).1 =
      kids ++ [Node {| obj_id := object3DId g; obj_uuid := ""; obj_name := "";
                       obj_class := SpriteClass;
                       obj_material :=
                         Some {| material_id := n;
                                 material_data :=
                                   SpriteMaterial (drawLabel (statusCode pv) text) |};
                       obj_userData := {| propertyValue := None;
                                          originalMaterial := None |} |} []].
Proof.
  intros Hm Hl. rewrite addLabelsToModel_unfold, Hm.
  destruct (makeTextLabel_Some doc f g Hl) as (pv & text & Hpv & Ht & ->).
  destruct (addLabelsToChildren doc cs _) as [cs' g2]. simpl.
  exists pv, text, (materialId g), cs'. auto.
Qed.

Lemma count_traverse p callback o :
  count p (traverse callback o) = count (fun x => p (traverse callback x)) o.
Proof.
  unfold count. rewrite nodes_traverse.
  induction (nodes o) as [|x l IH]; simpl; [reflexivity|].
  rewrite !filter_cons. destruct (decide _); simpl; rewrite IH; reflexivity.
Qed.

Lemma count_ext p q o :
  (∀ x, p x = q x) → count p o = count q o.
Proof.
  intros E. unfold count. induction (nodes o) as [|x l IH]; simpl; [reflexivity|].
  rewrite !filter_cons, E. destruct (decide _); simpl; rewrite IH; reflexivity.
Qed.

Lemma isMesh_assignPropertyValues x :
  isMesh (assignPropertyValues x) = isMesh x.
Proof.
  unfold isMesh, assignPropertyValues. rewrite fields_traverse.
  unfold assignPropertyValue. destruct (instanceofMesh (obj_class (fields x))) eqn:E;
    simpl; rewrite E; reflexivity.
Qed.

Lemma labelledMesh_assignPropertyValues doc x :
  labelledMesh doc (assignPropertyValues x) = isMesh x && getContext2d doc.
Proof.
  unfold labelledMesh. rewrite isMesh_assignPropertyValues.
  destruct (isMesh x) eqn:Hm; [simpl | reflexivity].
  unfold assignPropertyValues. rewrite fields_traverse.
  apply labels_assignPropertyValue. exact Hm.
Qed.

(** After [assignPropertyValues], every Mesh carries the value computed from
    its id, and the other objects what they carried before. *)
Lemma propertyValue_assignPropertyValue f :
  propertyValue (obj_userData (assignPropertyValue f)) =
    if instanceofMesh (obj_class f) then Some (propertyValueOf (obj_id f))
    else propertyValue (obj_userData f).
Proof. unfold assignPropertyValue. destruct (instanceofMesh _); reflexivity. Qed.

Lemma statusIndex_range id : 1 ≤ statusIndex id ≤ 4.
Proof.
  unfold statusIndex.
  assert (id mod 4 < 4) by (apply N.mod_upper_bound; done).
  generalize dependent (id mod 4). intros r Hr. lia.
Qed.

Lemma progressStatuses_defined id :
  progressStatuses (statusIndex id) ∈
    [Some "Not Started"; Some "In Progress"; Some "Partially Installed";
     Some "Installed"].
Proof.
  unfold statusIndex.
  assert (Hlt : id mod 4 < 4) by (apply N.mod_upper_bound; done).
  destruct (id mod 4) as [|[[|[]|]|[|[]|]|]] eqn:E; simpl; try lia;
    repeat (first [apply list_elem_of_here | apply list_elem_of_further]).
Qed.

(** Every Mesh of the loaded tree is a Mesh of the parsed tree after
    [assignPropertyValue]. *)
Lemma mesh_of_loadedModel doc parsed g x :
  x ∈ nodes (loadedModel doc parsed g) → isMesh x = true →
  ∃ x0 g0, x0 ∈ nodes parsed ∧ isMesh x0 = true ∧
           x = (addLabelsToModel doc (assignPropertyValues x0) g0).1.
Proof.
  unfold loadedModel. intros Hx Hm.
  apply nodes_addLabelsToModel in Hx
    as [(x1 & g0 & Hin & ->)|(m & g0 & g1 & _ & _ & E)].
  - unfold assignPropertyValues in Hin. rewrite nodes_traverse in Hin.
    apply list_elem_of_fmap in Hin as (x0 & -> & Hin).
    exists x0, g0. split; [exact Hin|]. split; [|reflexivity].
    unfold isMesh in Hm. rewrite fields_addLabelsToModel in Hm.
    rewrite <- isMesh_assignPropertyValues. exact Hm.
  - apply makeTextLabel_not_mesh in E. congruence.
Qed.

(** C4.  Every Mesh of the loaded tree carries, under
    [userData.propertyValue], the value [propertyValueOf] computes from its
    id and from nothing else: the status code is [id mod 4 + 1], one of 1,
    2, 3 and 4, the status text is the entry of [progressStatuses] under
    that code and is always defined; any two meshes with the same id, in
    whatever trees, pages and counter states they were loaded, carry the
    same value. *)
Theorem mesh_status_is_a_function_of_its_id doc parsed g x :
  x ∈ nodes (loadedModel doc parsed g) → isMesh x = true →
  propertyValue (obj_userData (fields x))
    = Some (propertyValueOf (obj_id (fields x)))
  ∧ statusCode (propertyValueOf (obj_id (fields x))) = obj_id (fields x) mod 4 + 1
  ∧ statusCode (propertyValueOf (obj_id (fields x))) ∈ [1; 2; 3; 4]
  ∧ statusText (propertyValueOf (obj_id (fields x)))
    = progressStatuses (obj_id (fields x) mod 4 + 1)
  ∧ is_Some (statusText (propertyValueOf (obj_id (fields x))))
  ∧ ∀ doc' parsed' g' y,
      y ∈ nodes (loadedModel doc' parsed' g') → isMesh y = true →
      obj_id (fields y) = obj_id (fields x) →
      propertyValue (obj_userData (fields y))
        = propertyValue (obj_userData (fields x)).
Proof.
  assert (Hpv : ∀ doc parsed g x,
    x ∈ nodes (loadedModel doc parsed g) → isMesh x = true →
    propertyValue (obj_userData (fields x))
      = Some (propertyValueOf (obj_id (fields x)))).
  { clear. intros doc parsed g x Hx Hm.
    destruct (mesh_of_loadedModel _ _ _ _ Hx Hm) as (x0 & g0 & _ & Hm0 & ->).
    rewrite fields_addLabelsToModel. unfold assignPropertyValues.
    rewrite fields_traverse. unfold assignPropertyValue.
    unfold isMesh in Hm0. rewrite Hm0. reflexivity. }
  intros Hx Hm. split; [eapply Hpv; eassumption|].
  split; [reflexivity|]. split.
  { pose proof (statusIndex_range (obj_id (fields x))) as Hr. simpl.
    generalize dependent (statusIndex (obj_id (fields x))). intros c Hc.
    assert (E : c = 1 ∨ c = 2 ∨ c = 3 ∨ c = 4) by lia.
    destruct E as [->|[->|[->| ->]]];
      repeat (first [apply list_elem_of_here | apply list_elem_of_further]). }
  split; [reflexivity|]. split.
  { pose proof (progressStatuses_defined (obj_id (fields x))) as Hd. simpl.
    generalize dependent (progressStatuses (statusIndex (obj_id (fields x)))).
    intros t Ht. repeat (apply elem_of_cons in Ht as [->|Ht]; [eauto|]).
    inversion Ht. }
  intros doc' parsed' g' y Hy Hmy Eid.
  rewrite (Hpv _ _ _ _ Hy Hmy), (Hpv _ _ _ _ Hx Hm), Eid. reflexivity.
Qed.

(** Without a 2D context [addTextLabel] returns early: the tree is left as
    [assignPropertyValues] produced it and no id is taken. *)
Lemma addLabelsToModel_without_context doc o g :
  getContext2d doc = false → addLabelsToModel doc o g = (o, g).
Proof.
  intros Hd. revert g. induction o as [f cs IH] using Object3D_subtree_ind.
  intros g. rewrite addLabelsToModel_unfold.
  assert (El : (if instanceofMesh (obj_class f) then makeTextLabel doc f g
                else (None, g)) = (None, g)).
  { destruct (instanceofMesh _); [|reflexivity]. apply makeTextLabel_None.
    unfold labels. rewrite Hd. destruct (propertyValue _); [|reflexivity].
    apply andb_false_r. }
  rewrite El.
  assert (Ecs : addLabelsToChildren doc cs g = (cs, g)).
  { clear El. revert g. induction IH as [|c cs Hc _ IHcs]; intros g; simpl;
      [reflexivity|]. rewrite Hc, IHcs. reflexivity. }
  rewrite Ecs. simpl. rewrite app_nil_r. reflexivity.
Qed.

(** C5, as amended.  When the page hands out a 2D canvas context, loading a
    parsed tree with N meshes creates exactly N sprites (N more Sprite
    objects in the tree, N object ids taken), the number of meshes stays N,
    and every Mesh ends its children with one childless Sprite whose
    texture is painted for the status code and status text of that Mesh. *)
Theorem one_label_per_mesh doc parsed g :
  getContext2d doc = true →
  oneLabelPerMesh parsed (loadedModel doc parsed g)
  ∧ count isMesh (loadedModel doc parsed g) = count isMesh parsed
  ∧ object3DId (addLabelsToModel doc (assignPropertyValues parsed) g).2
    = object3DId g + N.of_nat (count isMesh parsed).
Proof.
  intros Hd.
  assert (Hn : count (labelledMesh doc) (assignPropertyValues parsed)
               = count isMesh parsed).
  { unfold assignPropertyValues. rewrite count_traverse. apply count_ext.
    intros x. fold (assignPropertyValues x).
    rewrite labelledMesh_assignPropertyValues, Hd. apply andb_true_r. }
  assert (Hc : ∀ q, countClass q (assignPropertyValues parsed) = countClass q parsed).
  { intros q. unfold countClass, assignPropertyValues. rewrite count_traverse.
    apply count_ext. intros x. rewrite fields_traverse.
    unfold assignPropertyValue. destruct (instanceofMesh _); reflexivity. }
  pose proof (addLabelsToModel_counts doc instanceofSprite
                (assignPropertyValues parsed) g) as [Hs Hid].
  pose proof (addLabelsToModel_counts doc instanceofMesh
                (assignPropertyValues parsed) g) as [Hm _].
  rewrite Hn in Hs, Hid. rewrite Hc in Hs, Hm. simpl in Hs, Hm.
  split; [split|split].
  - exact Hs.
  - intros x Hx Hmx.
    destruct (mesh_of_loadedModel _ _ _ _ Hx Hmx) as (x0 & g0 & _ & Hm0 & ->).
    rewrite fields_addLabelsToModel.
    destruct (assignPropertyValues x0) as [f cs] eqn:E.
    assert (Ef : f = assignPropertyValue (fields x0)).
    { pose proof (fields_traverse assignPropertyValue x0) as Ft.
      fold (assignPropertyValues x0) in Ft. rewrite E in Ft. exact Ft. }
    assert (Hmf : instanceofMesh (obj_class f) = true).
    { change (isMesh (Node f cs) = true). rewrite <- E.
      rewrite isMesh_assignPropertyValues. exact Hm0. }
    assert (Hl : labels doc f = true).
    { rewrite Ef, labels_assignPropertyValue; [exact Hd | exact Hm0]. }
    destruct (children_addLabelsToModel_mesh doc f cs g0 Hmf Hl)
      as (pv & text & n & kids & Hpv & Ht & Hch).
    assert (Epv : pv = propertyValueOf (obj_id (fields x0))).
    { rewrite Ef, propertyValue_assignPropertyValue in Hpv.
      unfold isMesh in Hm0. rewrite Hm0 in Hpv. congruence. }
    assert (Eid : obj_id f = obj_id (fields x0)).
    { rewrite Ef. unfold assignPropertyValue. unfold isMesh in Hm0.
      rewrite Hm0. reflexivity. }
    simpl. rewrite Eid. subst pv.
    eexists kids, _, text. split; [exact Hch|]. split; [exact Ht|].
    split; [reflexivity|]. split; [reflexivity|]. exists n. reflexivity.
  - rewrite Nat.add_0_r in Hm. exact Hm.
  - exact Hid.
Qed.

(** C4 on the first panel of the sample tree, whose id is 8. *)
Lemma mesh_status_on_sample_panel :
  propertyValue (obj_userData (fields samplePanel))
    = Some {| statusCode := 1; statusText := Some "Not Started" |}.
Proof.
  refine (eq_trans
            (proj1 (mesh_status_is_a_function_of_its_id
                      sampleDocument sampleTree sampleGlobals samplePanel _ _)) _).
  - apply (list_elem_of_lookup_2 _ 1%nat). reflexivity.
  - reflexivity.
  - reflexivity.
Defined.

(** C5 as amended, on the sample tree: three meshes, three labels. *)
Lemma one_label_per_mesh_on_sample :
  getContext2d sampleDocument = true ∧
  count isSprite sampleLoadedTree = 3%nat ∧
  count isMesh sampleLoadedTree = 3%nat.
Proof.
  pose proof (one_label_per_mesh sampleDocument sampleTree sampleGlobals eq_refl)
    as [[Hs _] [Hm _]].
  split; [reflexivity|]. split; [exact Hs | exact Hm].
Defined.

(** C5 as stated fails on a page without 2D canvas contexts: the sample
    tree has three meshes and the loaded tree not a single sprite. *)
Lemma no_label_without_2d_context :
  ¬ oneLabelPerMesh sampleTree
      (loadedModel documentWithout2d sampleTree sampleGlobals).
Proof.
  intros [Hs _]. vm_compute in Hs. discriminate Hs.
Qed.

(* ===================================================================== *)
(** * Part 6: properties of selecting and highlighting                    *)
(* ===================================================================== *)

(** ** [resetObjectMaterial] *)

Lemma resetObjectMaterial_restores object w f m :
  objects w !! object = Some f → instanceofMesh (obj_class f) = true →
  originalMaterial (obj_userData f) = Some m →
  resetObjectMaterial object w
    = with_objects
        (insert object (set_originalMaterial None (set_material (Some m) f))) w.
Proof. intros E Hm Ho. unfold resetObjectMaterial. rewrite E, Hm, Ho. reflexivity. Qed.

Lemma resetObjectMaterial_nothing_to_restore object w :
  (∀ f, objects w !! object = Some f →
        instanceofMesh (obj_class f) = false
        ∨ originalMaterial (obj_userData f) = None) →
  resetObjectMaterial object w = w.
Proof.
  intros H. unfold resetObjectMaterial.
  destruct (objects w !! object) as [f|]; [|reflexivity].
  destruct (H f eq_refl) as [-> | ->]; [reflexivity|].
  destruct (instanceofMesh _); reflexivity.
Qed.

Lemma resetObjectMaterial_viewer object w :
  viewer (resetObjectMaterial object w) = viewer w.
Proof. unfold resetObjectMaterial. repeat case_match; reflexivity. Qed.


Lemma resetObjectMaterial_other object q w :
  q ≠ object → objects (resetObjectMaterial object w) !! q = objects w !! q.
Proof.
  intros Hq. unfold resetObjectMaterial. repeat case_match; try reflexivity.
  simpl. apply lookup_insert_ne. congruence.
Qed.

(** C10.  [resetObjectMaterial] is a total function on worlds; applying it
    twice to the same object gives the world one application gives, and it
    returns the world unchanged when the object is no Mesh, or is a Mesh
    with nothing cached under [userData.originalMaterial] (or when there is
    no such object at all). *)
Theorem resetObjectMaterial_idempotent object w :
  resetObjectMaterial object (resetObjectMaterial object w)
    = resetObjectMaterial object w
  ∧ ((∀ f, objects w !! object = Some f →
           instanceofMesh (obj_class f) = false
           ∨ originalMaterial (obj_userData f) = None) →
     resetObjectMaterial object w = w).
Proof.
  split; [|apply resetObjectMaterial_nothing_to_restore].
  assert (Hnoop : (∀ f, objects w !! object = Some f →
                        instanceofMesh (obj_class f) = false
                        ∨ originalMaterial (obj_userData f) = None) →
                  resetObjectMaterial object (resetObjectMaterial object w)
                    = resetObjectMaterial object w).
  { intros H. pose proof (resetObjectMaterial_nothing_to_restore object w H) as Hw.
    rewrite Hw. exact Hw. }
  destruct (objects w !! object) as [f|] eqn:E.
  - destruct (instanceofMesh (obj_class f)) eqn:Hm.
    + destruct (originalMaterial (obj_userData f)) as [m|] eqn:Ho.
      * rewrite (resetObjectMaterial_restores object w f m E Hm Ho).
        apply resetObjectMaterial_nothing_to_restore. simpl.
        intros f'. rewrite lookup_insert_eq. intros [= <-]. right. reflexivity.
      * apply Hnoop. intros f' [= <-]. auto.
    + apply Hnoop. intros f' [= <-]. auto.
  - apply Hnoop. intros f' [=].
Qed.

(** ** [highlightObject] on an object that is no Mesh *)

Lemma resetSelected_viewer w : viewer (resetSelected w) = viewer w.
Proof.
  unfold resetSelected. destruct (_selectedObject _); [|reflexivity].
  apply resetObjectMaterial_viewer.
Qed.


Lemma resetSelected_other q w :
  _selectedObject (viewer w) ≠ Some q →
  objects (resetSelected w) !! q = objects w !! q.
Proof.
  intros Hq. unfold resetSelected. destruct (_selectedObject _) as [s|]; [|reflexivity].
  apply resetObjectMaterial_other. congruence.
Qed.

(** The class of an object never changes. *)
Lemma resetObjectMaterial_class object q w :
  obj_class <$> objects (resetObjectMaterial object w) !! q
    = obj_class <$> objects w !! q.
Proof.
  destruct (decide (q = object)) as [->|Hq];
    [|rewrite resetObjectMaterial_other by exact Hq; reflexivity].
  unfold resetObjectMaterial. destruct (objects w !! object) as [f|] eqn:E;
    [|rewrite E; reflexivity].
  repeat case_match; try (rewrite E; reflexivity).
  simpl. rewrite lookup_insert_eq. reflexivity.
Qed.

Lemma resetSelected_class q w :
  obj_class <$> objects (resetSelected w) !! q = obj_class <$> objects w !! q.
Proof.
  unfold resetSelected. destruct (_selectedObject _); [|reflexivity].
  apply resetObjectMaterial_class.
Qed.


(** ** The selection invariant *)

(** Restoring the highlighted state of a pristine object gives the object
    back as it was. *)
Lemma restore_highlighted n f m :
  pristineObject f = true → obj_material f = Some m →
  set_originalMaterial None (set_material (Some m) (highlighted n f)) = f.
Proof.
  destruct f as [i u nm c mat [pv om]]. unfold pristineObject. simpl.
  destruct om; [discriminate|]. intros _ ->. reflexivity.
Qed.

Lemma pristine_mesh_has_material f :
  pristineObject f = true → instanceofMesh (obj_class f) = true →
  ∃ m, obj_material f = Some m ∧ isHighlightMaterial m = false.
Proof.
  unfold pristineObject. destruct (originalMaterial _); [discriminate|].
  destruct (obj_material f) as [m|].
  - intros H _. exists m. split; [reflexivity|]. apply negb_true_iff, H.
  - intros H Hm. rewrite Hm in H. discriminate.
Qed.

Lemma pristine_no_highlight f m :
  pristineObject f = true → obj_material f = Some m →
  isHighlightMaterial m = false.
Proof.
  unfold pristineObject. destruct (originalMaterial _); [discriminate|].
  intros H E. rewrite E in H. apply negb_true_iff, H.
Qed.

Lemma pristine_no_cache f :
  pristineObject f = true → originalMaterial (obj_userData f) = None.
Proof. unfold pristineObject. destruct (originalMaterial _); [discriminate|done]. Qed.

Section Selecting.

Variable w0 : World.
Hypothesis Hpristine : pristine w0.

Lemma pristine_lookup o f : objects w0 !! o = Some f → pristineObject f = true.
Proof. intros E. destruct Hpristine as [_ H]. exact (H o f E). Qed.

Lemma selectionInvariant_start : selectionInvariant w0 w0.
Proof.
  intros o. destruct (objects w0 !! o) as [f0|] eqn:E; [|reflexivity].
  destruct Hpristine as [-> _]. destruct (decide _); [discriminate | reflexivity].
Qed.

(** Once the selection is restored, every object is as it was at the start. *)
Lemma resetSelected_restores_all w :
  selectionInvariant w0 w → objects (resetSelected w) = objects w0.
Proof.
  intros Inv. apply map_eq. intros o. specialize (Inv o) as Ho.
  unfold resetSelected. destruct (_selectedObject (viewer w)) as [s|] eqn:Es.
  - destruct (decide (o = s)) as [->|Hne].
    + destruct (objects w0 !! s) as [f0|] eqn:E0.
      * rewrite decide_True in Ho by reflexivity.
        destruct (instanceofMesh (obj_class f0)) eqn:Hm.
        -- destruct Ho as [n Ho].
           destruct (pristine_mesh_has_material f0 (pristine_lookup _ _ E0) Hm)
             as (m & Em & _).
           rewrite (resetObjectMaterial_restores s w (highlighted n f0) m Ho).
           ++ simpl. rewrite lookup_insert_eq. f_equal.
              apply restore_highlighted; [exact (pristine_lookup _ _ E0) | exact Em].
           ++ exact Hm.
           ++ exact Em.
        -- rewrite resetObjectMaterial_nothing_to_restore; [exact Ho|].
           intros f. rewrite Ho. intros [= <-]. auto.
      * rewrite resetObjectMaterial_nothing_to_restore; [exact Ho|].
        intros f. rewrite Ho. discriminate.
    + rewrite resetObjectMaterial_other by exact Hne.
      destruct (objects w0 !! o) as [f0|]; [|exact Ho].
      rewrite decide_False in Ho by congruence. exact Ho.
  - destruct (objects w0 !! o) as [f0|]; [|exact Ho].
    rewrite decide_False in Ho by discriminate. exact Ho.
Qed.

(** In a world whose objects are as at the start, there is nothing to
    restore. *)
Lemma resetObjectMaterial_on_restored o w :
  objects w = objects w0 → resetObjectMaterial o w = w.
Proof.
  intros E. apply resetObjectMaterial_nothing_to_restore. intros f Ef.
  rewrite E in Ef. right. apply pristine_no_cache, (pristine_lookup _ _ Ef).
Qed.

Lemma resetSelected_on_restored w :
  objects w = objects w0 → resetSelected w = w.
Proof.
  intros E. unfold resetSelected. destruct (_selectedObject _); [|reflexivity].
  apply resetObjectMaterial_on_restored, E.
Qed.

(** Selecting [o] and highlighting it, from a world whose objects are as
    at the start. *)
Lemma applyHighlight_invariant o w :
  objects w = objects w0 →
  selectionInvariant w0
    (applyHighlight o (with_viewer (set_selectedObject (Some o)) w)).
Proof.
  intros E q. unfold applyHighlight. simpl.
  destruct (objects w !! o) as [f|] eqn:Eo;
    [destruct (instanceofMesh (obj_class f)) eqn:Hm|]; simpl; rewrite E in *.
  - destruct (decide (q = o)) as [->|Hne].
    + rewrite Eo, decide_True, Hm by reflexivity.
      rewrite lookup_insert_eq. eexists. reflexivity.
    + rewrite lookup_insert_ne by congruence.
      destruct (objects w0 !! q); [|reflexivity].
      rewrite decide_False by congruence. reflexivity.
  - destruct (objects w0 !! q) as [f0|] eqn:Eq; [|reflexivity].
    destruct (decide _) as [[= ->]|]; [|reflexivity].
    replace f0 with f by congruence. rewrite Hm. reflexivity.
  - destruct (objects w0 !! q) as [f0|] eqn:Eq; [|reflexivity].
    destruct (decide _) as [[= ->]|]; [congruence | reflexivity].
Qed.

Lemma highlightObject_invariant o w :
  selectionInvariant w0 w → selectionInvariant w0 (highlightObject o w).
Proof.
  intros Inv. unfold highlightObject.
  apply applyHighlight_invariant, resetSelected_restores_all, Inv.
Qed.

Lemma onMouseClick_invariant hit w :
  selectionInvariant w0 w → selectionInvariant w0 (onMouseClick hit w).
Proof.
  intros Inv. pose proof (resetSelected_restores_all w Inv) as E.
  unfold onMouseClick. destruct hit as [o|].
  - unfold highlightObject. rewrite resetSelected_on_restored by exact E.
    apply applyHighlight_invariant. exact E.
  - unfold resetSelected in E.
    destruct (_selectedObject (viewer w)) as [s|] eqn:Es.
    + intros q. simpl. rewrite E.
      destruct (objects w0 !! q); reflexivity.
    + exact Inv.
Qed.

Lemma selecting_invariant ss : selectionInvariant w0 (selecting w0 ss).
Proof.
  unfold selecting. induction ss as [|s ss IH] using rev_ind.
  - apply selectionInvariant_start.
  - rewrite fold_left_app. simpl. destruct s as [o|hit]; simpl.
    + apply highlightObject_invariant, IH.
    + apply onMouseClick_invariant, IH.
Qed.

(** Under the invariant, only the selection can hold a highlight material,
    and whatever does not hold one wears its material of the start. *)
Lemma highlight_is_selected w a :
  selectionInvariant w0 w → holdsHighlight w a →
  _selectedObject (viewer w) = Some a.
Proof.
  intros Inv (f & m & Ef & Em & Hh). specialize (Inv a).
  destruct (objects w0 !! a) as [f0|] eqn:E0; [|congruence].
  destruct (decide _) as [Hs|Hs]; [exact Hs|].
  rewrite Ef in Inv. injection Inv as ->.
  rewrite (pristine_no_highlight f0 m (pristine_lookup _ _ E0) Em) in Hh.
  discriminate.
Qed.

Lemma unhighlighted_is_original w a :
  selectionInvariant w0 w → ¬ holdsHighlight w a →
  materialOf w a = materialOf w0 a.
Proof.
  intros Inv Hn. unfold materialOf. specialize (Inv a).
  destruct (objects w0 !! a) as [f0|] eqn:E0; [|rewrite Inv; reflexivity].
  destruct (decide _) as [Hs|Hs]; [|rewrite Inv; reflexivity].
  destruct (instanceofMesh (obj_class f0)); [|rewrite Inv; reflexivity].
  destruct Inv as [n En]. exfalso. apply Hn.
  exists (highlighted n f0), {| material_id := n; material_data := HighlightMaterial |}.
  auto.
Qed.

Lemma restored_holds_no_highlight w a :
  objects w = objects w0 → ¬ holdsHighlight w a.
Proof.
  intros E (f & m & Ef & Em & Hh). rewrite E in Ef.
  rewrite (pristine_no_highlight f m (pristine_lookup _ _ Ef) Em) in Hh.
  discriminate.
Qed.

(** Selecting an object that is no Mesh leaves no object highlighted. *)
Lemma non_mesh_selection_shows_nothing w object :
  selectionInvariant w0 w →
  (∀ f, objects w !! object = Some f → instanceofMesh (obj_class f) = false) →
  ∀ q, ¬ holdsHighlight (highlightObject object w) q.
Proof.
  intros Inv Hnm q Hh.
  pose proof (highlightObject_invariant object w Inv) as Inv'.
  pose proof (highlight_is_selected _ q Inv' Hh) as Hs.
  assert (Es : _selectedObject (viewer (highlightObject object w)) = Some object).
  { unfold highlightObject, applyHighlight. simpl. repeat case_match; reflexivity. }
  rewrite Es in Hs. injection Hs as <-.
  destruct Hh as (f & m & Ef & Em & Hm).
  specialize (Inv object).
  destruct (objects w0 !! object) as [f0|] eqn:E0.
  - assert (Hc : instanceofMesh (obj_class f0) = false).
    { destruct (decide (_selectedObject (viewer w) = Some object)).
      - destruct (instanceofMesh (obj_class f0)) eqn:Hmesh; [|reflexivity].
        destruct Inv as [n En]. rewrite <- (Hnm _ En). symmetry. exact Hmesh.
      - apply (Hnm _ Inv). }
    specialize (Inv' object).
    rewrite E0, Es, decide_True, Hc in Inv' by reflexivity.
    rewrite Ef in Inv'. injection Inv' as ->.
    rewrite (pristine_no_highlight f0 m (pristine_lookup _ _ E0) Em) in Hm.
    discriminate.
  - specialize (Inv' object). rewrite E0 in Inv'. congruence.
Qed.

End Selecting.

(** ** Selecting when the file brings its own [userData] *)

Lemma unlit_no_highlight f m :
  unlit f = true → obj_material f = Some m → isHighlightMaterial m = false.
Proof.
  unfold unlit. intros H E. rewrite E in H.
  apply andb_true_iff in H as [H _]. apply negb_true_iff, H.
Qed.

Lemma unlit_cache f x :
  unlit f = true → originalMaterial (obj_userData f) = Some x →
  isHighlightMaterial x = false.
Proof.
  unfold unlit. intros H E. rewrite E in H.
  apply andb_true_iff in H as [_ H]. apply negb_true_iff, H.
Qed.

Lemma unlit_mesh_has_material f :
  unlit f = true → instanceofMesh (obj_class f) = true →
  ∃ m, obj_material f = Some m.
Proof.
  unfold unlit. intros H Hm. destruct (obj_material f) as [m|]; [eauto|].
  rewrite Hm in H. discriminate.
Qed.

Lemma restored_is_unlit f x :
  isHighlightMaterial x = false →
  unlit (set_originalMaterial None (set_material (Some x) f)) = true.
Proof. intros H. unfold unlit. simpl. rewrite H. reflexivity. Qed.

Lemma pristine_unselected w : pristine w → unselected w.
Proof.
  intros [Hs Ho]. split; [exact Hs|]. intros o f E.
  specialize (Ho o f E). simpl in Ho. unfold pristineObject in Ho. unfold unlit.
  destruct (originalMaterial (obj_userData f)); [discriminate|].
  rewrite Ho. reflexivity.
Qed.

Lemma unselected_onlySelectionLit w : unselected w → onlySelectionLit w.
Proof. intros [_ H] o f E. left. exact (H o f E). Qed.

Lemma resetObjectMaterial_keeps_unlit o w :
  map_Forall (fun _ f => unlit f = true) (objects w) →
  map_Forall (fun _ f => unlit f = true) (objects (resetObjectMaterial o w)).
Proof.
  intros H. unfold resetObjectMaterial.
  destruct (objects w !! o) as [f|] eqn:E; [|exact H].
  destruct (instanceofMesh (obj_class f)); [|exact H].
  destruct (originalMaterial (obj_userData f)) as [x|] eqn:Ex; [|exact H].
  simpl. apply map_Forall_insert_2; [|exact H].
  apply restored_is_unlit, (unlit_cache f x (H o f E) Ex).
Qed.

(** The restore step leaves every object unlit. *)
Lemma resetSelected_unlit w :
  onlySelectionLit w →
  map_Forall (fun _ f => unlit f = true) (objects (resetSelected w)).
Proof.
  intros Inv q fq Eq. simpl. unfold resetSelected in Eq.
  destruct (_selectedObject (viewer w)) as [s|] eqn:Es.
  - destruct (decide (q = s)) as [->|Hne].
    + unfold resetObjectMaterial in Eq.
      destruct (objects w !! s) as [f|] eqn:E; [|congruence].
      destruct (Inv s f E) as [Hu | (_ & Hm & x & Ex & Hx)].
      * destruct (instanceofMesh (obj_class f));
          [|rewrite E in Eq; injection Eq as <-; exact Hu].
        destruct (originalMaterial (obj_userData f)) as [x|] eqn:Ex;
          [|rewrite E in Eq; injection Eq as <-; exact Hu].
        simpl in Eq. rewrite lookup_insert_eq in Eq. injection Eq as <-.
        apply restored_is_unlit, (unlit_cache f x Hu Ex).
      * rewrite Hm, Ex in Eq. simpl in Eq. rewrite lookup_insert_eq in Eq.
        injection Eq as <-. apply restored_is_unlit, Hx.
    + rewrite resetObjectMaterial_other in Eq by exact Hne.
      destruct (Inv q fq Eq) as [Hu | (Hs & _)]; [exact Hu | congruence].
  - destruct (Inv q fq Eq) as [Hu | (Hs & _)]; [exact Hu | congruence].
Qed.

Lemma applyHighlight_onlySelectionLit o w :
  map_Forall (fun _ f => unlit f = true) (objects w) →
  onlySelectionLit (applyHighlight o (with_viewer (set_selectedObject (Some o)) w)).
Proof.
  intros H q fq. unfold applyHighlight. simpl.
  destruct (objects w !! o) as [f|] eqn:E;
    [destruct (instanceofMesh (obj_class f)) eqn:Hm|]; simpl.
  - destruct (decide (q = o)) as [->|Hne].
    + rewrite lookup_insert_eq. intros [= <-]. right. simpl.
      split; [reflexivity|]. split; [exact Hm|].
      destruct (unlit_mesh_has_material f (H o f E) Hm) as [m Em].
      exists m. split; [exact Em|]. exact (unlit_no_highlight f m (H o f E) Em).
    + rewrite lookup_insert_ne by congruence. intros Eq. left. exact (H q fq Eq).
  - intros Eq. left. exact (H q fq Eq).
  - intros Eq. left. exact (H q fq Eq).
Qed.

Lemma highlightObject_onlySelectionLit o w :
  onlySelectionLit w → onlySelectionLit (highlightObject o w).
Proof.
  intros Inv. unfold highlightObject.
  apply applyHighlight_onlySelectionLit, resetSelected_unlit, Inv.
Qed.

Lemma onMouseClick_onlySelectionLit hit w :
  onlySelectionLit w → onlySelectionLit (onMouseClick hit w).
Proof.
  intros Inv. pose proof (resetSelected_unlit w Inv) as H.
  unfold onMouseClick. destruct hit as [o|].
  - unfold highlightObject. apply applyHighlight_onlySelectionLit.
    unfold resetSelected at 1. simpl.
    apply resetObjectMaterial_keeps_unlit. exact H.
  - unfold resetSelected in H.
    destruct (_selectedObject (viewer w)) as [s|] eqn:Es.
    + intros q fq Eq. left. exact (H q fq Eq).
    + exact Inv.
Qed.

Lemma selecting_onlySelectionLit w0 ss :
  unselected w0 → onlySelectionLit (selecting w0 ss).
Proof.
  intros H0. unfold selecting. induction ss as [|s ss IH] using rev_ind.
  - apply unselected_onlySelectionLit, H0.
  - rewrite fold_left_app. simpl. destruct s as [o|hit]; simpl.
    + apply highlightObject_onlySelectionLit, IH.
    + apply onMouseClick_onlySelectionLit, IH.
Qed.

Lemma lit_is_the_selection w a :
  onlySelectionLit w → holdsHighlight w a →
  _selectedObject (viewer w) = Some a.
Proof.
  intros Inv (f & m & Ef & Em & Hh).
  destruct (Inv a f Ef) as [Hu | (Hs & _)]; [|exact Hs].
  rewrite (unlit_no_highlight f m Hu Em) in Hh. discriminate.
Qed.

Lemma unlit_world_shows_no_highlight w a :
  map_Forall (fun _ f => unlit f = true) (objects w) → ¬ holdsHighlight w a.
Proof.
  intros H (f & m & Ef & Em & Hh).
  rewrite (unlit_no_highlight f m (H a f Ef) Em) in Hh. discriminate.
Qed.

Lemma applyHighlight_other o q w :
  q ≠ o → objects (applyHighlight o w) !! q = objects w !! q.
Proof.
  intros Hq. unfold applyHighlight. repeat case_match; try reflexivity.
  simpl. apply lookup_insert_ne. congruence.
Qed.

(** For an object that is no Mesh, [highlightObject] touches the store
    only through its restore step. *)
Lemma highlightObject_non_mesh_objects object w :
  (∀ f, objects w !! object = Some f → instanceofMesh (obj_class f) = false) →
  objects (highlightObject object w) = objects (resetSelected w).
Proof.
  intros Hnm. unfold highlightObject, applyHighlight. simpl.
  destruct (objects (resetSelected w) !! object) as [f|] eqn:E; [|reflexivity].
  pose proof (resetSelected_class object w) as Hc. rewrite E in Hc. simpl in Hc.
  destruct (objects w !! object) as [f0|] eqn:E0; [|discriminate].
  simpl in Hc. injection Hc as Hc. rewrite Hc, (Hnm f0 eq_refl). reflexivity.
Qed.

(** ** A picked Mesh that brought [userData.originalMaterial] along *)

(** [highlightObject] caches the material the Mesh wears, whatever the key
    held before. *)
Lemma highlightObject_caches_the_material w a f m :
  _selectedObject (viewer w) ≠ Some a →
  objects w !! a = Some f → instanceofMesh (obj_class f) = true →
  obj_material f = Some m →
  ∃ f', objects (highlightObject a w) !! a = Some f'
        ∧ instanceofMesh (obj_class f') = true
        ∧ originalMaterial (obj_userData f') = Some m
        ∧ (∃ h, obj_material f' = Some h ∧ isHighlightMaterial h = true).
Proof.
  intros Hs E Hm Em. unfold highlightObject, applyHighlight. simpl.
  rewrite (resetSelected_other a w Hs), E, Hm. simpl.
  rewrite lookup_insert_eq. eexists. split; [reflexivity|]. simpl.
  split; [exact Hm|]. split; [exact Em|]. eexists. split; reflexivity.
Qed.

(** The click handler has made the Mesh the selection by the time
    [highlightObject] runs, so the restore step of [highlightObject] puts
    what the key held on the Mesh, and that is what gets cached. *)
Lemma onMouseClick_caches_the_key w a f x :
  _selectedObject (viewer w) = None →
  objects w !! a = Some f → instanceofMesh (obj_class f) = true →
  originalMaterial (obj_userData f) = Some x →
  ∃ f', objects (onMouseClick (Some a) w) !! a = Some f'
        ∧ instanceofMesh (obj_class f') = true
        ∧ originalMaterial (obj_userData f') = Some x
        ∧ (∃ h, obj_material f' = Some h ∧ isHighlightMaterial h = true).
Proof.
  intros Hs E Hm Ex.
  assert (E0 : resetSelected w = w)
    by (unfold resetSelected; rewrite Hs; reflexivity).
  pose (w2 := with_viewer (set_selectedObject (Some a)) w).
  assert (E2 : objects w2 !! a = Some f) by exact E.
  assert (Er : resetSelected w2
               = with_objects
                   (insert a (set_originalMaterial None (set_material (Some x) f)))
                   w2)
    by exact (resetObjectMaterial_restores a w2 f x E2 Hm Ex).
  unfold onMouseClick. rewrite E0. fold w2. unfold highlightObject. rewrite Er.
  unfold applyHighlight. simpl. rewrite lookup_insert_eq. simpl. rewrite Hm. simpl.
  rewrite lookup_insert_eq. eexists. split; [reflexivity|]. simpl.
  split; [exact Hm|]. split; [reflexivity|]. eexists. split; reflexivity.
Qed.

(** What [highlightObject b] gives back to a highlighted selection [a] is
    what [a] has cached. *)
Lemma highlightObject_restores_the_cache w a b f x :
  _selectedObject (viewer w) = Some a →
  objects w !! a = Some f → instanceofMesh (obj_class f) = true →
  originalMaterial (obj_userData f) = Some x →
  materialOf (resetSelected w) a = Some x
  ∧ (a ≠ b → materialOf (highlightObject b w) a = Some x).
Proof.
  intros Hs E Hm Ex.
  assert (Er : materialOf (resetSelected w) a = Some x).
  { assert (Eq : resetSelected w = resetObjectMaterial a w)
      by (unfold resetSelected; rewrite Hs; reflexivity).
    unfold materialOf. rewrite Eq.
    rewrite (resetObjectMaterial_restores a w f x E Hm Ex). simpl.
    rewrite lookup_insert_eq. reflexivity. }
  split; [exact Er|]. intros Hne.
  unfold materialOf, highlightObject.
  rewrite applyHighlight_other by exact Hne. exact Er.
Qed.

(** C1.  Take a Mesh [a] that wears the material [m] and arrives with a
    value [x] under [userData.originalMaterial], as the file can provide
    it, in a viewer in which nothing is selected yet.  Picked by a click on
    the canvas, [a] is highlighted, and the restore step of a following
    [highlightObject b] puts [x] on [a], not [m]: the click handler has made
    [a] the selection before it calls [highlightObject a], whose restore
    step then runs on [a] itself and caches what the key held.  Picked
    through [highlightObject a] instead, [a] gets [m] back. *)
Theorem canvas_pick_restores_the_value_of_the_file w a b f m x :
  _selectedObject (viewer w) = None →
  objects w !! a = Some f → instanceofMesh (obj_class f) = true →
  obj_material f = Some m →
  originalMaterial (obj_userData f) = Some x →
  a ≠ b →
  holdsHighlight (onMouseClick (Some a) w) a
  ∧ materialOf (resetSelected (onMouseClick (Some a) w)) a = Some x
  ∧ materialOf (highlightObject b (onMouseClick (Some a) w)) a = Some x
  ∧ holdsHighlight (highlightObject a w) a
  ∧ materialOf (resetSelected (highlightObject a w)) a = Some m
  ∧ materialOf (highlightObject b (highlightObject a w)) a = Some m.
Proof.
  intros Hs E Hm Em Ex Hne.
  destruct (onMouseClick_caches_the_key w a f x Hs E Hm Ex)
    as (f1 & E1 & Hm1 & Ex1 & h1 & Eh1 & Hh1).
  assert (Hs' : _selectedObject (viewer w) ≠ Some a) by (rewrite Hs; discriminate).
  destruct (highlightObject_caches_the_material w a f m Hs' E Hm Em)
    as (f2 & E2 & Hm2 & Ex2 & h2 & Eh2 & Hh2).
  assert (S1 : _selectedObject (viewer (onMouseClick (Some a) w)) = Some a).
  { unfold onMouseClick, highlightObject, applyHighlight. simpl.
    repeat case_match; reflexivity. }
  assert (S2 : _selectedObject (viewer (highlightObject a w)) = Some a).
  { unfold highlightObject, applyHighlight. simpl. repeat case_match; reflexivity. }
  destruct (highlightObject_restores_the_cache _ a b f1 x S1 E1 Hm1 Ex1) as [R1 R1'].
  destruct (highlightObject_restores_the_cache _ a b f2 m S2 E2 Hm2 Ex2) as [R2 R2'].
  split; [exists f1, h1; auto|]. split; [exact R1|]. split; [exact (R1' Hne)|].
  split; [exists f2, h2; auto|]. split; [exact R2 | exact (R2' Hne)].
Qed.

(** From a start in which nothing is selected, no object carries
    [userData.originalMaterial], no object wears a highlight material and
    every Mesh has a material, run any sequence of [highlightObject] calls
    and clicks.  In the world reached: two objects that hold a highlight
    material are the same object, and it is the selection; an object that
    holds none wears the material object it had at the start.  When
    [highlightObject b] is then called while [a] is highlighted, the call
    is the restore step followed by the selection of [b] and the highlight
    of [b], and in the world between the two, [a] holds no highlight
    material and wears the very material object it had at the start, that
    is, before it was highlighted; if [b] is another object, that is also
    the material of [a] when the call returns. *)
Theorem at_most_one_object_is_highlighted w0 ss :
  pristine w0 →
  (∀ a b, holdsHighlight (selecting w0 ss) a →
          holdsHighlight (selecting w0 ss) b → a = b)
  ∧ (∀ a, holdsHighlight (selecting w0 ss) a →
          _selectedObject (viewer (selecting w0 ss)) = Some a)
  ∧ (∀ a, ¬ holdsHighlight (selecting w0 ss) a →
          materialOf (selecting w0 ss) a = materialOf w0 a)
  ∧ (∀ a b, holdsHighlight (selecting w0 ss) a →
       highlightObject b (selecting w0 ss)
         = applyHighlight b
             (with_viewer (set_selectedObject (Some b))
                (resetSelected (selecting w0 ss)))
       ∧ ¬ holdsHighlight (resetSelected (selecting w0 ss)) a
       ∧ materialOf (resetSelected (selecting w0 ss)) a = materialOf w0 a
       ∧ (a ≠ b →
          materialOf (highlightObject b (selecting w0 ss)) a = materialOf w0 a)).
Proof.
  intros Hp. pose proof (selecting_invariant w0 Hp ss) as Inv.
  pose proof (resetSelected_restores_all w0 Hp _ Inv) as Er.
  split; [|split; [|split]].
  - intros a b Ha Hb.
    pose proof (highlight_is_selected w0 Hp _ a Inv Ha) as Ea.
    pose proof (highlight_is_selected w0 Hp _ b Inv Hb) as Eb.
    congruence.
  - intros a Ha. exact (highlight_is_selected w0 Hp _ a Inv Ha).
  - intros a Ha. exact (unhighlighted_is_original w0 _ a Inv Ha).
  - intros a b Ha. split; [reflexivity|]. split; [|split].
    + apply (restored_holds_no_highlight w0 Hp). exact Er.
    + unfold materialOf. rewrite Er. reflexivity.
    + intros Hne.
      pose proof (highlightObject_invariant w0 Hp b _ Inv) as Inv'.
      apply (unhighlighted_is_original w0 _ a Inv').
      intros Hh. apply (highlight_is_selected w0 Hp _ a Inv') in Hh.
      assert (Es : ∀ w, _selectedObject (viewer (highlightObject b w)) = Some b).
      { intros w. unfold highlightObject, applyHighlight. simpl.
        repeat case_match; reflexivity. }
      rewrite Es in Hh. congruence.
Qed.

(** ** The properties on the sample world *)

Lemma sampleLoadedWorld_pristine : pristine sampleLoadedWorld.
Proof.
  split; [reflexivity|].
  apply (bool_decide_unpack _). vm_compute. exact I.
Qed.

(** C1 on a file whose first panel (id 8) arrives with a key
    [originalMaterial]: clicked on the canvas and followed by a pick of
    the second panel (id 9), the first panel ends up wearing the value of
    the file; picked through [highlightObject], it gets its own material
    back. *)
Lemma keyed_panel_on_sample :
  materialOf sampleKeyedWorld 8 = Some (sampleMaterial 0)
  ∧ holdsHighlight (onMouseClick (Some 8) sampleKeyedWorld) 8
  ∧ materialOf (highlightObject 9 (onMouseClick (Some 8) sampleKeyedWorld)) 8
    = Some sampleFileValue
  ∧ sampleFileValue ≠ sampleMaterial 0
  ∧ materialOf (highlightObject 9 (highlightObject 8 sampleKeyedWorld)) 8
    = Some (sampleMaterial 0).
Proof.
  assert (Hs : _selectedObject (viewer sampleKeyedWorld) = None)
    by (vm_compute; reflexivity).
  assert (Ef : ∃ f, objects sampleKeyedWorld !! 8 = Some f
                    ∧ instanceofMesh (obj_class f) = true
                    ∧ obj_material f = Some (sampleMaterial 0)
                    ∧ originalMaterial (obj_userData f) = Some sampleFileValue).
  { eexists. split; [vm_compute; reflexivity|]. repeat split. }
  destruct Ef as (f & Ef & Hm & Em & Ex).
  assert (Hne : (8 : ObjRef) ≠ 9) by discriminate.
  destruct (canvas_pick_restores_the_value_of_the_file sampleKeyedWorld 8 9 f
              (sampleMaterial 0) sampleFileValue Hs Ef Hm Em Ex Hne)
    as (Hh & _ & Hc & _ & _ & Hw).
  split; [unfold materialOf; rewrite Ef; simpl; exact Em|].
  split; [exact Hh|]. split; [exact Hc|]. split; [discriminate | exact Hw].
Defined.

(** On the sample without such a key: the first panel (id 8) is picked in
    the widget, the second (id 9) is clicked in the canvas.  The second
    panel is then the
    highlighted one, and the restore step of the next [highlightObject]
    gives it back the material object it was loaded with. *)
Lemma highlight_moves_on_sample :
  holdsHighlight
    (selecting sampleLoadedWorld [HighlightObject 8; MouseClick (Some 9)]) 9 ∧
  materialOf
    (resetSelected
       (selecting sampleLoadedWorld [HighlightObject 8; MouseClick (Some 9)])) 9
    = Some (sampleMaterial 0) ∧
  materialOf
    (highlightObject 8
       (selecting sampleLoadedWorld [HighlightObject 8; MouseClick (Some 9)])) 9
    = Some (sampleMaterial 0).
Proof.
  assert (Hh : holdsHighlight
                 (selecting sampleLoadedWorld
                    [HighlightObject 8; MouseClick (Some 9)]) 9).
  { eexists _, _. split; [vm_compute; reflexivity|]. split; reflexivity. }
  pose proof (at_most_one_object_is_highlighted sampleLoadedWorld
                [HighlightObject 8; MouseClick (Some 9)]
                sampleLoadedWorld_pristine) as (_ & _ & _ & H).
  specialize (H 9 8 Hh). destruct H as (_ & _ & Hr & Hf).
  assert (Hne : (9 : ObjRef) ≠ 8) by discriminate.
  specialize (Hf Hne).
  assert (E0 : materialOf sampleLoadedWorld 9 = Some (sampleMaterial 0))
    by (vm_compute; reflexivity).
  split; [exact Hh|]. split.
  - exact (eq_trans Hr E0).
  - exact (eq_trans Hf E0).
Defined.


(** C10 on the sample: the group "ceiling" is no Mesh. *)
Lemma reset_group_on_sample :
  resetObjectMaterial 7 samplePanelSelected = samplePanelSelected.
Proof.
  apply (proj2 (resetObjectMaterial_idempotent 7 samplePanelSelected)).
  intros f E. vm_compute in E. injection E as <-. left. reflexivity.
Defined.

(* ===================================================================== *)
(** * Part 7: properties of the viewer's life cycle                       *)
(* ===================================================================== *)

Section LifeCycle.

Variable findThreeJSJSON : JSON -> Completion (option JSON).
Variable parseJSON : JSON -> ThreeGlobals -> Completion (Object3D * ThreeGlobals).

#[local] Abbreviation step := (step findThreeJSJSON parseJSON).
#[local] Abbreviation run := (run findThreeJSJSON parseJSON).

Lemma run_app w es1 es2 : run w (es1 ++ es2) = run (run w es1) es2.
Proof. apply fold_left_app. Qed.

Lemma run_cons w e es : run w (e :: es) = run (step w e) es.
Proof. reflexivity. Qed.

(** *** What no event changes *)

Lemma step_document w e : document (step w e) = document w.
Proof. destruct e; by_cases. Qed.

Lemma step_viewer_id w e : viewer_id (viewer (step w e)) = viewer_id (viewer w).
Proof. destruct e; by_cases. Qed.

Lemma run_document w es : document (run w es) = document w.
Proof.
  revert w. induction es as [|e es IH]; intros w; [reflexivity|].
  rewrite run_cons, IH. apply step_document.
Qed.

Lemma run_viewer_id w es : viewer_id (viewer (run w es)) = viewer_id (viewer w).
Proof.
  revert w. induction es as [|e es IH]; intros w; [reflexivity|].
  rewrite run_cons, IH. apply step_viewer_id.
Qed.

(** *** The loading state: [status], [model] and the promise *)

(** Only the two settlements touch them. *)
Lemma step_loading_untouched w e :
  isSettlement e = false →
  status (viewer (step w e)) = status (viewer w)
  ∧ model (viewer (step w e)) = model (viewer w)
  ∧ loadModel_promise (viewer (step w e)) = loadModel_promise (viewer w).
Proof. destruct e; try discriminate; intros _; by_cases; auto. Qed.

(** ... and they do so only while the promise is pending. *)
Lemma step_loading_settled w e :
  settled (loadModel_promise (viewer w)) = true →
  status (viewer (step w e)) = status (viewer w)
  ∧ model (viewer (step w e)) = model (viewer w)
  ∧ loadModel_promise (viewer (step w e)) = loadModel_promise (viewer w).
Proof.
  intros Hs.
  destruct (isSettlement e) eqn:He; [|apply step_loading_untouched, He].
  destruct e; try discriminate; simpl;
    destruct (loadModel_promise (viewer w)) eqn:Ep; try discriminate; auto.
Qed.

Lemma run_loading_untouched w es :
  noSettlement es →
  status (viewer (run w es)) = status (viewer w)
  ∧ model (viewer (run w es)) = model (viewer w)
  ∧ loadModel_promise (viewer (run w es)) = loadModel_promise (viewer w).
Proof.
  intros H. revert w. induction H as [|e es He _ IH]; intros w; [auto|].
  rewrite run_cons.
  destruct (IH (step w e)) as (-> & -> & ->).
  apply step_loading_untouched, He.
Qed.

Lemma run_loading_settled w es :
  settled (loadModel_promise (viewer w)) = true →
  status (viewer (run w es)) = status (viewer w)
  ∧ model (viewer (run w es)) = model (viewer w)
  ∧ loadModel_promise (viewer (run w es)) = loadModel_promise (viewer w).
Proof.
  revert w. induction es as [|e es IH]; intros w Hs; [auto|].
  rewrite run_cons.
  destruct (step_loading_settled w e Hs) as (E1 & E2 & E3).
  destruct (IH (step w e)) as (-> & -> & ->); [rewrite E3; exact Hs | auto].
Qed.

(** *** Construction *)

Lemma construct_loading uuid b g wd doc objs :
  status (viewer (construct uuid b g wd doc objs))
    = next loading (newBehaviorSubject idle)
  ∧ model (viewer (construct uuid b g wd doc objs)) = None
  ∧ loadModel_promise (viewer (construct uuid b g wd doc objs)) = AwaitingResponse.
Proof. destruct b; auto. Qed.

(** C8.  A viewer's status subject is created with the value "idle", and
    the constructor itself, through the first lines of [loadModel], pushes
    "loading" before it returns: when construction ends the emissions are
    idle, loading, the current value is "loading", and [loadModel] is still
    suspended at its first [await], so nothing asynchronous has run. *)
Theorem construction_emits_idle_then_loading uuid b g wd doc objs :
  initialValue (status (viewer (construct uuid b g wd doc objs))) = idle
  ∧ emissions (status (viewer (construct uuid b g wd doc objs))) = [idle; loading]
  ∧ getValue (status (viewer (construct uuid b g wd doc objs))) = loading
  ∧ loadModel_promise (viewer (construct uuid b g wd doc objs)) = AwaitingResponse
  ∧ ∀ w, emissions (status (viewer (loadModel_start w)))
         = emissions (status (viewer w)) ++ [loading].
Proof.
  destruct (construct_loading uuid b g wd doc objs) as (-> & _ & ->).
  repeat split; reflexivity.
Qed.

(** *** Failures that the [catch] block reports *)

Lemma request_failure_is_reported w r :
  loadModel_promise (viewer w) = AwaitingResponse →
  (r = RequestFailed ∨ ∃ data, r = Response data ∧ findThreeJSJSON data = Throws) →
  status (viewer (step w (FetchSettled r))) = next error (status (viewer w))
  ∧ loadModel_promise (viewer (step w (FetchSettled r)))
    = Rejected "Failed to load model"
  ∧ model (viewer (step w (FetchSettled r))) = model (viewer w)
  ∧ scene (viewer (step w (FetchSettled r))) = scene (viewer w)
  ∧ objects (step w (FetchSettled r)) = objects w.
Proof.
  intros Hp [-> | (data & -> & Hf)]; simpl; rewrite Hp; simpl;
    [|rewrite Hf]; repeat split; reflexivity.
Qed.

Lemma parse_failure_is_reported w jsonObject :
  loadModel_promise (viewer w) = AwaitingParse jsonObject →
  parseJSON jsonObject (three w) = Throws →
  status (viewer (step w ParseSettled)) = next error (status (viewer w))
  ∧ loadModel_promise (viewer (step w ParseSettled))
    = Rejected "Failed to load model"
  ∧ model (viewer (step w ParseSettled)) = model (viewer w)
  ∧ scene (viewer (step w ParseSettled)) = scene (viewer w)
  ∧ objects (step w ParseSettled) = objects w.
Proof.
  intros Hp Hf. simpl. rewrite Hp. unfold loadModel_afterParse. rewrite Hf.
  repeat split; reflexivity.
Qed.

(** *** A response in which the payload is found *)

Lemma payload_found w data jsonObject :
  loadModel_promise (viewer w) = AwaitingResponse →
  findThreeJSJSON data = Returns (Some jsonObject) →
  step w (FetchSettled (Response data))
    = with_viewer (set_loadModel_promise (AwaitingParse jsonObject)) w.
Proof. intros Hp Hf. simpl. rewrite Hp. simpl. rewrite Hf. reflexivity. Qed.

Lemma parse_succeeded w jsonObject object3d g :
  loadModel_promise (viewer w) = AwaitingParse jsonObject →
  parseJSON jsonObject (three w) = Returns (object3d, g) →
  status (viewer (step w ParseSettled)) = next idle (status (viewer w))
  ∧ model (viewer (step w ParseSettled))
    = Some (loadedModel (document w) object3d g)
  ∧ loadModel_promise (viewer (step w ParseSettled))
    = Fulfilled (Some (loadedModel (document w) object3d g))
  ∧ scene_children (scene (viewer (step w ParseSettled)))
    = scene_children (scene (viewer w)) ++ [LoadedObject (obj_id (fields object3d))].
Proof.
  intros Hp Hf. simpl. rewrite Hp. unfold loadModel_afterParse. rewrite Hf.
  unfold loadModel_finish, loadedModel. simpl.
  destruct (addLabelsToModel (document w) (assignPropertyValues object3d) g)
    as [labelled g'] eqn:E. simpl.
  repeat split; try reflexivity.
  do 2 f_equal. change labelled with (labelled, g').1. rewrite <- E.
  rewrite fields_addLabelsToModel. unfold assignPropertyValues.
  rewrite fields_traverse. unfold assignPropertyValue.
  destruct (instanceofMesh _); reflexivity.
Qed.

(** C3.  Take a viewer from its construction, with whatever else happens
    around the two settlements.  If the request succeeds with an envelope in
    which [findThreeJSJSON] finds a payload that [parseJSON] accepts, then
    [model] is the root object [parseJSON] delivered (with its statuses and
    labels) and the status went idle, loading, idle.  If the request fails,
    the status went idle, loading, error and [model] stays undefined. *)
Theorem load_outcome_decides_status_and_model
    uuid b g wd doc objs data jsonObject es0 es1 es2 :
  noSettlement es0 →
  (findThreeJSJSON data = Returns (Some jsonObject) →
   (∀ g0, ∃ object3d g1, parseJSON jsonObject g0 = Returns (object3d, g1)) →
   noSettlement es1 →
   ∃ object3d g0 g1,
     parseJSON jsonObject g0 = Returns (object3d, g1)
     ∧ model (viewer (run (construct uuid b g wd doc objs)
                        (es0 ++ FetchSettled (Response data) :: es1
                             ++ ParseSettled :: es2)))
       = Some (loadedModel doc object3d g1)
     ∧ obj_id (fields (loadedModel doc object3d g1)) = obj_id (fields object3d)
     ∧ emissions (status (viewer (run (construct uuid b g wd doc objs)
                                    (es0 ++ FetchSettled (Response data) :: es1
                                         ++ ParseSettled :: es2))))
       = [idle; loading; idle])
  ∧ (emissions (status (viewer (run (construct uuid b g wd doc objs)
                                  (es0 ++ FetchSettled RequestFailed :: es1))))
       = [idle; loading; error]
     ∧ model (viewer (run (construct uuid b g wd doc objs)
                        (es0 ++ FetchSettled RequestFailed :: es1)))
       = None).
Proof.
  intros H0.
  destruct (construct_loading uuid b g wd doc objs) as (Cs & Cm & Cp).
  destruct (run_loading_untouched (construct uuid b g wd doc objs) es0 H0)
    as (S0 & M0 & P0).
  rewrite Cs in S0. rewrite Cm in M0. rewrite Cp in P0.
  set (w0 := run (construct uuid b g wd doc objs) es0) in *.
  split.
  - intros Hf Hparse H1.
    rewrite run_app, run_cons. fold w0.
    rewrite (payload_found w0 data jsonObject P0 Hf).
    set (w1 := with_viewer (set_loadModel_promise (AwaitingParse jsonObject)) w0).
    rewrite run_app, run_cons.
    destruct (run_loading_untouched w1 es1 H1) as (S1 & M1 & P1).
    set (w2 := run w1 es1) in *.
    destruct (Hparse (three w2)) as (object3d & g1 & Hp).
    destruct (parse_succeeded w2 jsonObject object3d g1 P1 Hp) as (S2 & M2 & P2 & _).
    assert (Hd : document w2 = doc).
    { unfold w2, w1, w0. rewrite run_document. simpl. rewrite run_document.
      destruct b; reflexivity. }
    rewrite Hd in M2, P2.
    destruct (run_loading_settled (step w2 ParseSettled) es2) as (S3 & M3 & _);
      [rewrite P2; reflexivity|].
    exists object3d, (three w2), g1. split; [exact Hp|].
    rewrite S3, M3, S2, M2, S1. split; [reflexivity|]. split.
    + unfold loadedModel. rewrite fields_addLabelsToModel.
      unfold assignPropertyValues. rewrite fields_traverse.
      unfold assignPropertyValue. destruct (instanceofMesh _); reflexivity.
    + simpl. fold w0. rewrite S0. reflexivity.
  - rewrite run_app, run_cons. fold w0.
    destruct (request_failure_is_reported w0 RequestFailed P0 (or_introl eq_refl))
      as (S1 & P1 & M1 & _).
    destruct (run_loading_settled (step w0 (FetchSettled RequestFailed)) es1)
      as (S2 & M2 & _); [rewrite P1; reflexivity|].
    rewrite S2, M2, S1, M1, S0, M0. split; reflexivity.
Qed.

(** C2, where the code falls short of it.  When the envelope arrives and
    [findThreeJSJSON] answers with a falsy value, [loadModel] leaves its
    [try] block without entering the [if] or the [catch]: the promise is
    fulfilled with [undefined], no "error" is pushed, and the status stays
    "loading" whatever happens afterwards.  Nothing is attached either. *)
Theorem missing_payload_leaves_status_loading
    uuid b g wd doc objs data es0 es1 :
  noSettlement es0 →
  findThreeJSJSON data = Returns None →
  emissions (status (viewer (run (construct uuid b g wd doc objs)
                               (es0 ++ FetchSettled (Response data) :: es1))))
    = [idle; loading]
  ∧ getValue (status (viewer (run (construct uuid b g wd doc objs)
                                (es0 ++ FetchSettled (Response data) :: es1))))
    = loading
  ∧ loadModel_promise (viewer (run (construct uuid b g wd doc objs)
                                 (es0 ++ FetchSettled (Response data) :: es1)))
    = Fulfilled None
  ∧ model (viewer (run (construct uuid b g wd doc objs)
                     (es0 ++ FetchSettled (Response data) :: es1)))
    = None.
Proof.
  intros H0 Hf.
  destruct (construct_loading uuid b g wd doc objs) as (Cs & Cm & Cp).
  destruct (run_loading_untouched (construct uuid b g wd doc objs) es0 H0)
    as (S0 & M0 & P0).
  rewrite Cs in S0. rewrite Cm in M0. rewrite Cp in P0.
  rewrite run_app, run_cons.
  set (w0 := run (construct uuid b g wd doc objs) es0) in *.
  assert (E : step w0 (FetchSettled (Response data))
              = with_viewer (set_loadModel_promise (Fulfilled None)) w0).
  { simpl. rewrite P0. simpl. rewrite Hf. reflexivity. }
  rewrite E.
  destruct (run_loading_settled
              (with_viewer (set_loadModel_promise (Fulfilled None)) w0) es1 eq_refl)
    as (-> & -> & ->).
  simpl. rewrite S0, M0. repeat split; reflexivity.
Qed.

(** *** Listeners *)

Lemma removeEventListener_removes type callback ls :
  {| listener_type := type; listener_callback := callback |}
    ∉ removeEventListener type callback ls.
Proof.
  unfold removeEventListener. rewrite list_elem_of_filter. intros [Hne _].
  apply Hne. reflexivity.
Qed.

Lemma removeEventListener_keeps type callback ls l :
  l ≠ {| listener_type := type; listener_callback := callback |} →
  l ∈ ls → l ∈ removeEventListener type callback ls.
Proof. intros Hne Hin. unfold removeEventListener. apply list_elem_of_filter. auto. Qed.

Lemma removeEventListener_subseteq type callback ls l :
  l ∈ removeEventListener type callback ls → l ∈ ls.
Proof. unfold removeEventListener. rewrite list_elem_of_filter. tauto. Qed.

Lemma addEventListener_keeps type callback ls l :
  l ∈ ls → l ∈ addEventListener type callback ls.
Proof.
  intros Hin. unfold addEventListener. destruct (decide _); [exact Hin|].
  apply elem_of_app. auto.
Qed.

(** An event leaves the listeners of the window and of the canvas alone,
    unless it is the disposal, which takes the viewer's own away. *)
Lemma step_window_listeners w e :
  window_listeners (window (step w e)) = window_listeners (window w)
  ∨ window_listeners (window (step w e))
    = removeEventListener "resize" (ViewerResize (viewer_id (viewer w)))
        (window_listeners (window w)).
Proof. destruct e; by_cases; auto. Qed.

Lemma step_canvas_listeners w e :
  canvas_listeners (domElement (_renderer (viewer (step w e))))
    = canvas_listeners (domElement (_renderer (viewer w)))
  ∨ canvas_listeners (domElement (_renderer (viewer (step w e))))
    = removeEventListener "click" (ViewerOnMouseClick (viewer_id (viewer w)))
        (canvas_listeners (domElement (_renderer (viewer w)))).
Proof. destruct e; by_cases; auto. Qed.

Lemma run_listeners_shrink w es l :
  (l ∈ window_listeners (window (run w es)) → l ∈ window_listeners (window w))
  ∧ (l ∈ canvas_listeners (domElement (_renderer (viewer (run w es)))) →
     l ∈ canvas_listeners (domElement (_renderer (viewer w)))).
Proof.
  revert w. induction es as [|e es IH]; intros w; [auto|].
  rewrite run_cons. destruct (IH (step w e)) as [IHw IHc]. split.
  - intros H. apply IHw in H.
    destruct (step_window_listeners w e) as [E|E]; rewrite E in H;
      [exact H | exact (removeEventListener_subseteq _ _ _ _ H)].
  - intros H. apply IHc in H.
    destruct (step_canvas_listeners w e) as [E|E]; rewrite E in H;
      [exact H | exact (removeEventListener_subseteq _ _ _ _ H)].
Qed.

Lemma run_foreign_listeners_stay w es l :
  l ≠ resizeListener w → l ∈ window_listeners (window w) →
  l ∈ window_listeners (window (run w es)).
Proof.
  revert w. induction es as [|e es IH]; intros w Hne Hin; [exact Hin|].
  rewrite run_cons. apply IH.
  - unfold resizeListener in *. rewrite step_viewer_id. exact Hne.
  - destruct (step_window_listeners w e) as [E|E]; rewrite E;
      [exact Hin | apply removeEventListener_keeps; assumption].
Qed.

(** C7.  Take a viewer from its construction through any events, and
    dispose of it.  Right after [dispose()]: the window no longer holds the
    viewer's resize listener, the canvas no longer holds its click
    listener, the canvas is out of the container, renderer and camera
    controls are disposed, and the scene has no children.  Whatever happens
    later, neither listener is registered again; and the listeners of
    others that the window held before the viewer was built are all still
    there. *)
Theorem dispose_releases_the_listeners uuid b g wd doc objs es1 es2 :
  ({| listener_type := "resize"; listener_callback := ViewerResize uuid |}
     ∉ window_listeners
         (window (dispose (run (construct uuid b g wd doc objs) es1))))
  ∧ ({| listener_type := "click"; listener_callback := ViewerOnMouseClick uuid |}
       ∉ canvas_listeners
           (domElement (_renderer (viewer
              (dispose (run (construct uuid b g wd doc objs) es1))))))
  ∧ inContainer (domElement (_renderer (viewer
       (dispose (run (construct uuid b g wd doc objs) es1))))) = false
  ∧ renderer_disposed (_renderer (viewer
       (dispose (run (construct uuid b g wd doc objs) es1)))) = true
  ∧ controls_disposed (_cameraControl (viewer
       (dispose (run (construct uuid b g wd doc objs) es1)))) = true
  ∧ scene_children (scene (viewer
       (dispose (run (construct uuid b g wd doc objs) es1)))) = []
  ∧ ({| listener_type := "resize"; listener_callback := ViewerResize uuid |}
       ∉ window_listeners
           (window (run (dispose (run (construct uuid b g wd doc objs) es1)) es2)))
  ∧ ({| listener_type := "click"; listener_callback := ViewerOnMouseClick uuid |}
       ∉ canvas_listeners
           (domElement (_renderer (viewer
              (run (dispose (run (construct uuid b g wd doc objs) es1)) es2)))))
  ∧ ∀ l, l ≠ {| listener_type := "resize"; listener_callback := ViewerResize uuid |} →
         l ∈ window_listeners wd →
         l ∈ window_listeners
               (window (run (dispose (run (construct uuid b g wd doc objs) es1)) es2)).
Proof.
  set (w0 := construct uuid b g wd doc objs).
  assert (Hid0 : viewer_id (viewer w0) = uuid) by (unfold w0; destruct b; reflexivity).
  assert (Hid : viewer_id (viewer (run w0 es1)) = uuid)
    by (rewrite run_viewer_id; exact Hid0).
  assert (Hw : {| listener_type := "resize"; listener_callback := ViewerResize uuid |}
               ∉ window_listeners (window (dispose (run w0 es1)))).
  { unfold dispose. simpl. rewrite Hid. apply removeEventListener_removes. }
  assert (Hc : {| listener_type := "click"; listener_callback := ViewerOnMouseClick uuid |}
               ∉ canvas_listeners (domElement (_renderer (viewer (dispose (run w0 es1)))))).
  { unfold dispose. simpl. rewrite Hid. apply removeEventListener_removes. }
  split; [exact Hw|]. split; [exact Hc|].
  do 4 (split; [reflexivity|]).
  split; [|split].
  - intros H. apply Hw. exact (proj1 (run_listeners_shrink _ es2 _) H).
  - intros H. apply Hc. exact (proj2 (run_listeners_shrink _ es2 _) H).
  - intros l Hne Hin.
    apply run_foreign_listeners_stay.
    + unfold resizeListener, dispose. simpl. rewrite Hid. exact Hne.
    + unfold dispose. simpl. rewrite Hid.
      apply removeEventListener_keeps; [exact Hne|].
      apply run_foreign_listeners_stay.
      * unfold resizeListener. rewrite Hid0. exact Hne.
      * unfold w0. destruct b; simpl; apply addEventListener_keeps; exact Hin.
Qed.

End LifeCycle.

(** ** The resize handler *)

(** C6, as amended.  With the window now [width] by [height], the resize
    handler sets the camera's aspect to exactly [width / height], computes
    the projection matrix from it, sizes the renderer to [width] by
    [height], and redraws at once: one more draw, made with the new
    projection and size, is on record when the handler returns.  By then
    the dirty flag is cleared again, one more animation-frame callback is
    queued, and the next frame draws only if the camera controls report a
    change. *)
Theorem resize_redraws_at_once width height b w :
  aspect (camera (viewer
    (resize b (with_window (set_innerSize width height) w))))
    = (width / height)%float
  ∧ projectionMatrix (camera (viewer
      (resize b (with_window (set_innerSize width height) w))))
    = {| projection_fov := fov (camera (viewer w));
         projection_aspect := (width / height)%float;
         projection_near := near (camera (viewer w));
         projection_far := far (camera (viewer w)) |}
  ∧ size (_renderer (viewer
      (resize b (with_window (set_innerSize width height) w))))
    = (width, height)
  ∧ draws (_renderer (viewer
      (resize b (with_window (set_innerSize width height) w))))
    = draws (_renderer (viewer w))
        ++ [{| draw_projection :=
                 {| projection_fov := fov (camera (viewer w));
                    projection_aspect := (width / height)%float;
                    projection_near := near (camera (viewer w));
                    projection_far := far (camera (viewer w)) |};
               draw_size := (width, height) |}]
  ∧ _renderNeeded (viewer
      (resize b (with_window (set_innerSize width height) w))) = false
  ∧ animationFrameRequests (window
      (resize b (with_window (set_innerSize width height) w)))
    = S (animationFrameRequests (window w))
  ∧ draws (_renderer (viewer
      (_render false (resize b (with_window (set_innerSize width height) w)))))
    = draws (_renderer (viewer
        (resize b (with_window (set_innerSize width height) w)))).
Proof.
  unfold resize, updateViewer, _render. simpl.
  rewrite orb_true_r. simpl. repeat split; reflexivity.
Qed.

(** C6 as stated fails: after a resize of the sample world to 800 by 600
    the dirty flag is off, and a frame in which the controls report no
    change draws nothing. *)
Lemma resize_leaves_no_redraw_pending :
  ¬ resizeLeavesRedrawPending 800 600 false sampleLoadedWorld.
Proof.
  intros (_ & _ & H & _). vm_compute in H. discriminate H.
Qed.

(** ** The resize handler and the event that runs it *)

Lemma window_resized_runs_handler findThreeJSJSON parseJSON width height b w :
  resizeListener w ∈ window_listeners (window w) →
  step findThreeJSJSON parseJSON w (WindowResized width height b)
    = resize b (with_window (set_innerSize width height) w).
Proof. intros H. simpl. rewrite decide_True by exact H. reflexivity. Qed.

(** ** From loading to selecting *)

(** The widget offers every object of the loaded tree, groups and labels
    included, to [highlightObject]. *)
Lemma widget_offers_every_object o :
  clickTargets (renderObjectHierarchy o) = map (fun x => obj_id (fields x)) (nodes o).
Proof.
  induction o as [f cs IH] using Object3D_subtree_ind. simpl. f_equal.
  induction IH as [|c cs Hc _ IHcs]; simpl; [reflexivity|].
  rewrite map_app, Hc, IHcs. reflexivity.
Qed.

Lemma publish_pristine o m :
  Forall (fun x => pristineObject (fields x) = true) (nodes o) →
  map_Forall (fun _ f => pristineObject f = true) m →
  map_Forall (fun _ f => pristineObject f = true) (publish o m).
Proof.
  intros Ho Hm. unfold publish. induction Ho as [|x l Hx _ IH]; simpl; [exact Hm|].
  apply map_Forall_insert_2; assumption.
Qed.

Lemma pristineObject_assignPropertyValue f :
  pristineObject (assignPropertyValue f) = pristineObject f.
Proof. unfold assignPropertyValue. destruct (instanceofMesh _); reflexivity. Qed.

(** The tree [loadModel] returns holds only objects nobody has highlighted,
    if the parser delivered such objects. *)
Lemma loadedModel_pristine doc parsed g :
  Forall (fun x => pristineObject (fields x) = true) (nodes parsed) →
  Forall (fun x => pristineObject (fields x) = true) (nodes (loadedModel doc parsed g)).
Proof.
  intros Hp. apply Forall_forall. intros x Hx. unfold loadedModel in Hx.
  apply nodes_addLabelsToModel in Hx
    as [(x1 & g0 & Hin & ->)|(m & g0 & g1 & _ & _ & E)].
  - rewrite fields_addLabelsToModel.
    unfold assignPropertyValues in Hin. rewrite nodes_traverse in Hin.
    apply list_elem_of_fmap in Hin as (x0 & -> & Hin).
    rewrite fields_traverse, pristineObject_assignPropertyValue.
    exact (proj1 (Forall_forall _ _) Hp x0 Hin).
  - unfold makeTextLabel in E. repeat case_match; simplify_eq. reflexivity.
Qed.

(** A successful load into a world in which nothing was ever selected
    leaves such a world: the selection properties of Part 6 start there. *)
Lemma loaded_world_is_pristine findThreeJSJSON parseJSON w jsonObject object3d g :
  loadModel_promise (viewer w) = AwaitingParse jsonObject →
  parseJSON jsonObject (three w) = Returns (object3d, g) →
  Forall (fun x => pristineObject (fields x) = true) (nodes object3d) →
  pristine w →
  pristine (step findThreeJSJSON parseJSON w ParseSettled).
Proof.
  intros Hp Hf Ho [Hs Hm]. simpl. rewrite Hp. unfold loadModel_afterParse.
  rewrite Hf. unfold loadModel_finish. simpl.
  pose proof (loadedModel_pristine (document w) object3d g Ho) as Hl.
  unfold loadedModel in Hl.
  destruct (addLabelsToModel (document w) (assignPropertyValues object3d) g)
    as [labelled g'].
  split; [exact Hs|]. simpl. apply publish_pristine; assumption.
Qed.

(** ** The life cycle on the sample world *)

(** C3 on the sample: a frame, the response, a resize, the parsed tree, a
    click; and the same start with a failed request. *)
Lemma sample_load_outcomes :
  emissions (status (viewer
    (run sampleFind sampleParse sampleWorld
       [AnimationFrame true; FetchSettled (Response sampleEnvelope);
        WindowResized 800 600 false; ParseSettled; CanvasClicked (Some 8)])))
    = [idle; loading; idle]
  ∧ emissions (status (viewer
      (run sampleFind sampleParse sampleWorld
         [AnimationFrame true; FetchSettled RequestFailed; Disposed])))
    = [idle; loading; error].
Proof.
  assert (H0 : noSettlement [AnimationFrame true])
    by (repeat constructor).
  assert (H1 : noSettlement [WindowResized 800 600 false])
    by (repeat constructor).
  split.
  - destruct (proj1 (load_outcome_decides_status_and_model sampleFind sampleParse
                       "viewer-1" false {| object3DId := 0; materialId := 0 |}
                       sampleWindow sampleDocument ∅ sampleEnvelope (JObject [])
                       [AnimationFrame true] [WindowResized 800 600 false]
                       [CanvasClicked (Some 8)] H0) eq_refl
                (fun g0 => ex_intro _ sampleTree
                             (ex_intro _ sampleGlobals eq_refl)) H1)
      as (object3d & g0 & g1 & _ & _ & _ & Hs).
    exact Hs.
  - exact (proj1 (proj2 (load_outcome_decides_status_and_model sampleFind sampleParse
                           "viewer-1" false {| object3DId := 0; materialId := 0 |}
                           sampleWindow sampleDocument ∅ sampleEnvelope (JObject [])
                           [AnimationFrame true] [Disposed] [] H0))).
Defined.

(** C2's shortfall on the sample: the envelope [{}] has no [scene]. *)
Lemma sample_missing_payload :
  sampleFind emptyEnvelope = Returns None
  ∧ emissions (status (viewer
      (run sampleFind sampleParse sampleWorld
         [AnimationFrame true; FetchSettled (Response emptyEnvelope);
          AnimationFrame false; ParseSettled])))
    = [idle; loading]
  ∧ loadModel_promise (viewer
      (run sampleFind sampleParse sampleWorld
         [AnimationFrame true; FetchSettled (Response emptyEnvelope);
          AnimationFrame false; ParseSettled]))
    = Fulfilled None.
Proof.
  assert (H0 : noSettlement [AnimationFrame true]) by (repeat constructor).
  destruct (missing_payload_leaves_status_loading sampleFind sampleParse
              "viewer-1" false {| object3DId := 0; materialId := 0 |}
              sampleWindow sampleDocument ∅ emptyEnvelope
              [AnimationFrame true] [AnimationFrame false; ParseSettled]
              H0 eq_refl) as (Hs & _ & Hp & _).
  split; [reflexivity|]. split; [exact Hs | exact Hp].
Defined.

(* ===================================================================== *)
(** * Part 8: further properties of selecting                             *)
(* ===================================================================== *)

Lemma highlightObject_selects object w :
  _selectedObject (viewer (highlightObject object w)) = Some object.
Proof.
  unfold highlightObject, applyHighlight. simpl. repeat case_match; reflexivity.
Qed.

(** A click that hits [object] does what [highlightObject object] does,
    whenever [object] is the selection already, is no Mesh, or carries
    nothing under [userData.originalMaterial]: the handler's own restore
    and assignment (viewer.ts:261-266) are repeated by [highlightObject]
    and find nothing left to do. *)
Theorem canvas_pick_is_highlightObject w object :
  (_selectedObject (viewer w) = Some object
   ∨ ∀ f, objects w !! object = Some f →
          instanceofMesh (obj_class f) = false
          ∨ originalMaterial (obj_userData f) = None) →
  onMouseClick (Some object) w = highlightObject object w.
Proof.
  intros H.
  assert (Hn : ∀ f, objects (resetSelected w) !! object = Some f →
                    instanceofMesh (obj_class f) = false
                    ∨ originalMaterial (obj_userData f) = None).
  { destruct (decide (_selectedObject (viewer w) = Some object)) as [Es|Hs].
    - assert (Eq : resetSelected w = resetObjectMaterial object w)
        by (unfold resetSelected; rewrite Es; reflexivity).
      rewrite Eq. intros f. unfold resetObjectMaterial.
      destruct (objects w !! object) as [f0|] eqn:E0; [|rewrite E0; discriminate].
      destruct (instanceofMesh (obj_class f0)) eqn:Hm;
        [|rewrite E0; intros [= <-]; left; exact Hm].
      destruct (originalMaterial (obj_userData f0)) as [x|] eqn:Ex;
        [|rewrite E0; intros [= <-]; right; exact Ex].
      simpl. rewrite lookup_insert_eq. intros [= <-]. right. reflexivity.
    - destruct H as [H|H]; [contradiction|].
      intros f. rewrite resetSelected_other by exact Hs. apply H. }
  unfold onMouseClick. unfold highlightObject at 1.
  assert (Er : resetSelected
                 (with_viewer (set_selectedObject (Some object)) (resetSelected w))
               = with_viewer (set_selectedObject (Some object)) (resetSelected w))
    by (apply (resetObjectMaterial_nothing_to_restore object); exact Hn).
  rewrite Er. reflexivity.
Qed.

(** From a start in which nothing is selected, no object carries
    [userData.originalMaterial], no object wears a highlight material and
    every Mesh has a material: after any [highlightObject] calls and
    clicks, a click on empty space undoes every highlight; all objects are
    back in their starting state, nothing is selected and nothing is
    highlighted. *)
Theorem click_on_empty_space_restores_all w0 ss :
  pristine w0 →
  objects (onMouseClick None (selecting w0 ss)) = objects w0
  ∧ _selectedObject (viewer (onMouseClick None (selecting w0 ss))) = None
  ∧ ∀ q, ¬ holdsHighlight (onMouseClick None (selecting w0 ss)) q.
Proof.
  intros Hp. pose proof (selecting_invariant w0 Hp ss) as Inv.
  pose proof (resetSelected_restores_all w0 Hp _ Inv) as Er.
  assert (Eo : objects (onMouseClick None (selecting w0 ss)) = objects w0).
  { unfold onMouseClick. unfold resetSelected in Er.
    destruct (_selectedObject (viewer (selecting w0 ss))); exact Er. }
  split; [exact Eo|]. split.
  - unfold onMouseClick.
    destruct (_selectedObject (viewer (selecting w0 ss))) eqn:Es;
      [reflexivity | exact Es].
  - intros q. apply (restored_holds_no_highlight w0 Hp). exact Eo.
Qed.

(** From a start in which nothing is selected, no object carries
    [userData.originalMaterial], no object wears a highlight material and
    every Mesh has a material: after any [highlightObject] calls and
    clicks, only the selected object carries a cached material, it is then
    highlighted, and the cache holds the material the object started with,
    never a highlight material, also after the same Mesh was highlighted
    several times in a row. *)
Theorem cache_holds_the_starting_material w0 ss o f m :
  pristine w0 →
  objects (selecting w0 ss) !! o = Some f →
  originalMaterial (obj_userData f) = Some m →
  _selectedObject (viewer (selecting w0 ss)) = Some o
  ∧ materialOf w0 o = Some m
  ∧ isHighlightMaterial m = false
  ∧ holdsHighlight (selecting w0 ss) o.
Proof.
  intros Hp Ef Ec. pose proof (selecting_invariant w0 Hp ss o) as Inv.
  destruct (objects w0 !! o) as [f0|] eqn:E0; [|congruence].
  pose proof (pristine_lookup w0 Hp o f0 E0) as Hf0.
  assert (Hplain : objects (selecting w0 ss) !! o = Some f0 → False).
  { intros E. rewrite Ef in E. injection E as ->.
    rewrite (pristine_no_cache f0 Hf0) in Ec. discriminate. }
  destruct (decide (_selectedObject (viewer (selecting w0 ss)) = Some o))
    as [Hs|Hs]; [|destruct (Hplain Inv)].
  destruct (instanceofMesh (obj_class f0)) eqn:Hm; [|destruct (Hplain Inv)].
  destruct Inv as [n En]. rewrite Ef in En. injection En as ->.
  simpl in Ec. split; [exact Hs|]. split.
  - unfold materialOf. rewrite E0. exact Ec.
  - split; [exact (pristine_no_highlight f0 m Hf0 Ec)|].
    exists (highlighted n f0),
      {| material_id := n; material_data := HighlightMaterial |}.
    split; [exact Ef|]. split; reflexivity.
Qed.

(** From a start in which nothing is selected and no highlight material
    is around (every Mesh has a material; [userData] may hold anything the
    file brought), and after any [highlightObject] calls and clicks:
    selecting an object that is no Mesh (a group, a label) leaves no object
    of the scene highlighted. *)
Theorem non_mesh_selection_highlights_nothing w0 ss object :
  unselected w0 →
  (∀ f, objects (selecting w0 ss) !! object = Some f →
        instanceofMesh (obj_class f) = false) →
  ∀ q, ¬ holdsHighlight (highlightObject object (selecting w0 ss)) q.
Proof.
  intros H0 Hnm q.
  apply unlit_world_shows_no_highlight.
  rewrite (highlightObject_non_mesh_objects object _ Hnm).
  apply resetSelected_unlit, selecting_onlySelectionLit, H0.
Qed.

(** From the same kind of start, whatever [userData] the file brought: in
    every world reached by [highlightObject] calls and clicks, two objects
    that hold a highlight material are the same object, and it is the
    selection; the restore step of a further [highlightObject b] leaves no
    object highlighted, and when the call returns no object other than [b]
    is. *)
Theorem only_the_selection_is_highlighted w0 ss :
  unselected w0 →
  (∀ a b, holdsHighlight (selecting w0 ss) a →
          holdsHighlight (selecting w0 ss) b → a = b)
  ∧ (∀ a, holdsHighlight (selecting w0 ss) a →
          _selectedObject (viewer (selecting w0 ss)) = Some a)
  ∧ (∀ a, ¬ holdsHighlight (resetSelected (selecting w0 ss)) a)
  ∧ (∀ a b, holdsHighlight (highlightObject b (selecting w0 ss)) a → a = b).
Proof.
  intros H0. pose proof (selecting_onlySelectionLit w0 ss H0) as Inv.
  split; [|split; [|split]].
  - intros a b Ha Hb.
    pose proof (lit_is_the_selection _ a Inv Ha) as Ea.
    pose proof (lit_is_the_selection _ b Inv Hb) as Eb.
    congruence.
  - intros a Ha. exact (lit_is_the_selection _ a Inv Ha).
  - intros a. apply unlit_world_shows_no_highlight, resetSelected_unlit, Inv.
  - intros a b Ha.
    pose proof (highlightObject_onlySelectionLit b _ Inv) as Inv'.
    pose proof (lit_is_the_selection _ a Inv' Ha) as Es.
    rewrite highlightObject_selects in Es. congruence.
Qed.

(** ** The further selection properties on the sample world *)

Lemma canvas_pick_on_sample :
  onMouseClick (Some 9) (selecting sampleLoadedWorld [HighlightObject 8])
    = highlightObject 9 (selecting sampleLoadedWorld [HighlightObject 8]).
Proof.
  apply (canvas_pick_is_highlightObject
           (selecting sampleLoadedWorld [HighlightObject 8]) 9).
  right. intros f E. vm_compute in E. injection E as <-. right. reflexivity.
Defined.

Lemma click_on_empty_space_on_sample :
  objects (onMouseClick None
             (selecting sampleLoadedWorld [HighlightObject 8; MouseClick (Some 9)]))
    = objects sampleLoadedWorld.
Proof.
  exact (proj1 (click_on_empty_space_restores_all sampleLoadedWorld
                  [HighlightObject 8; MouseClick (Some 9)]
                  sampleLoadedWorld_pristine)).
Defined.

(** The first panel highlighted twice in a row: the cache still holds the
    material of the file. *)
Lemma cache_on_sample :
  _selectedObject
    (viewer (selecting sampleLoadedWorld [HighlightObject 8; HighlightObject 8]))
    = Some 8
  ∧ materialOf sampleLoadedWorld 8 = Some (sampleMaterial 0).
Proof.
  assert (Ef : ∃ f,
    objects (selecting sampleLoadedWorld [HighlightObject 8; HighlightObject 8]) !! 8
      = Some f
    ∧ originalMaterial (obj_userData f) = Some (sampleMaterial 0)).
  { eexists. split; [vm_compute; reflexivity | reflexivity]. }
  destruct Ef as (f & Ef & Ec).
  destruct (cache_holds_the_starting_material sampleLoadedWorld
              [HighlightObject 8; HighlightObject 8] 8 f (sampleMaterial 0)
              sampleLoadedWorld_pristine Ef Ec) as (Hs & Hm & _).
  split; [exact Hs | exact Hm].
Defined.

Lemma sampleKeyedWorld_unselected : unselected sampleKeyedWorld.
Proof.
  split; [reflexivity|].
  apply (bool_decide_unpack _). vm_compute. exact I.
Qed.

(** The group "ceiling" (id 7) picked after a click on the first panel,
    which the file delivered with a key [originalMaterial]. *)
Lemma group_selection_on_sample :
  ¬ holdsHighlight
      (highlightObject 7 (selecting sampleKeyedWorld [MouseClick (Some 8)])) 8.
Proof.
  apply (non_mesh_selection_highlights_nothing sampleKeyedWorld
           [MouseClick (Some 8)] 7 sampleKeyedWorld_unselected).
  intros f E. vm_compute in E. injection E as <-. reflexivity.
Defined.

(** On that file, after a click on the first panel and one on the second,
    the second panel is highlighted and is the selection, and the first
    panel holds no highlight material. *)
Lemma only_the_selection_on_sample :
  holdsHighlight
    (selecting sampleKeyedWorld [MouseClick (Some 8); MouseClick (Some 9)]) 9
  ∧ _selectedObject
      (viewer (selecting sampleKeyedWorld
                 [MouseClick (Some 8); MouseClick (Some 9)])) = Some 9
  ∧ ¬ holdsHighlight
        (selecting sampleKeyedWorld [MouseClick (Some 8); MouseClick (Some 9)]) 8.
Proof.
  assert (Hh : holdsHighlight
                 (selecting sampleKeyedWorld
                    [MouseClick (Some 8); MouseClick (Some 9)]) 9).
  { eexists _, _. split; [vm_compute; reflexivity|]. split; reflexivity. }
  destruct (only_the_selection_is_highlighted sampleKeyedWorld
              [MouseClick (Some 8); MouseClick (Some 9)]
              sampleKeyedWorld_unselected) as (Hone & Hsel & _ & _).
  split; [exact Hh|]. split; [exact (Hsel 9 Hh)|].
  intros H8. specialize (Hone 8 9 H8 Hh). discriminate.
Defined.

(* ===================================================================== *)
(** * Part 9: further properties of the load-time passes                  *)
(* ===================================================================== *)

Lemma assignPropertyValue_idempotent f :
  assignPropertyValue (assignPropertyValue f) = assignPropertyValue f.
Proof.
  unfold assignPropertyValue.
  destruct (instanceofMesh (obj_class f)) eqn:Hm; simpl; rewrite Hm; reflexivity.
Qed.

Lemma traverse_traverse c1 c2 o :
  traverse c1 (traverse c2 o) = traverse (fun f => c1 (c2 f)) o.
Proof.
  induction o as [f cs IH] using Object3D_subtree_ind. simpl. f_equal.
  induction IH as [|c cs Hc _ IHcs]; simpl; [reflexivity|].
  rewrite Hc, IHcs. reflexivity.
Qed.

Lemma traverse_ext c1 c2 o :
  (∀ f, c1 f = c2 f) → traverse c1 o = traverse c2 o.
Proof.
  intros E. induction o as [f cs IH] using Object3D_subtree_ind. simpl.
  rewrite E. f_equal.
  induction IH as [|c cs Hc _ IHcs]; simpl; [reflexivity|].
  rewrite Hc, IHcs. reflexivity.
Qed.

(** [assignPropertyValues] writes [userData.propertyValue] of the meshes,
    replacing whatever the file had there, and nothing else: a second run
    changes nothing; identity, class, name, material and cached material of
    every object are kept, in traversal order; objects that are no Mesh keep
    all their fields. *)
Theorem assignPropertyValues_only_sets_mesh_status o :
  assignPropertyValues (assignPropertyValues o) = assignPropertyValues o
  ∧ map (fun x => (obj_id (fields x), obj_uuid (fields x), obj_name (fields x),
                   obj_class (fields x), obj_material (fields x),
                   originalMaterial (obj_userData (fields x))))
        (nodes (assignPropertyValues o))
    = map (fun x => (obj_id (fields x), obj_uuid (fields x), obj_name (fields x),
                     obj_class (fields x), obj_material (fields x),
                     originalMaterial (obj_userData (fields x))))
          (nodes o)
  ∧ map (fun x => if isMesh x then None else Some (fields x))
        (nodes (assignPropertyValues o))
    = map (fun x => if isMesh x then None else Some (fields x)) (nodes o)
  ∧ map (fun x => if isMesh x then propertyValue (obj_userData (fields x))
                  else None)
        (nodes (assignPropertyValues o))
    = map (fun x => if isMesh x then Some (propertyValueOf (obj_id (fields x)))
                    else None)
          (nodes o).
Proof.
  split; [|split; [|split]].
  - unfold assignPropertyValues. rewrite traverse_traverse.
    apply traverse_ext, assignPropertyValue_idempotent.
  - unfold assignPropertyValues. rewrite nodes_traverse, map_map.
    apply map_ext. intros x. rewrite fields_traverse.
    unfold assignPropertyValue. destruct (instanceofMesh _); reflexivity.
  - unfold assignPropertyValues. rewrite nodes_traverse, map_map.
    apply map_ext. intros x. fold (assignPropertyValues x).
    rewrite isMesh_assignPropertyValues.
    unfold assignPropertyValues. rewrite fields_traverse.
    unfold isMesh, assignPropertyValue.
    destruct (instanceofMesh (obj_class (fields x))); reflexivity.
  - unfold assignPropertyValues. rewrite nodes_traverse, map_map.
    apply map_ext. intros x. fold (assignPropertyValues x).
    rewrite isMesh_assignPropertyValues.
    unfold assignPropertyValues. rewrite fields_traverse.
    unfold isMesh, assignPropertyValue.
    destruct (instanceofMesh (obj_class (fields x))); reflexivity.
Qed.

(** The label [addTextLabel] mounts on a Mesh of the loaded tree. *)
Lemma label_of_loaded_mesh doc parsed g x :
  getContext2d doc = true →
  x ∈ nodes (loadedModel doc parsed g) → isMesh x = true →
  ∃ kids i n text,
    statusText (propertyValueOf (obj_id (fields x))) = Some text ∧
    children x =
      kids ++ [Node {| obj_id := i; obj_uuid := ""; obj_name := "";
                       obj_class := SpriteClass;
                       obj_material :=
                         Some {| material_id := n;
                                 material_data :=
                                   SpriteMaterial
                                     (drawLabel (statusIndex (obj_id (fields x)))
                                        text) |};
                       obj_userData := {| propertyValue := None;
                                          originalMaterial := None |} |} []].
Proof.
  intros Hd Hx Hmx.
  destruct (mesh_of_loadedModel _ _ _ _ Hx Hmx) as (x0 & g0 & _ & Hm0 & ->).
  rewrite fields_addLabelsToModel.
  destruct (assignPropertyValues x0) as [f cs] eqn:E.
  assert (Ef : f = assignPropertyValue (fields x0)).
  { pose proof (fields_traverse assignPropertyValue x0) as Ft.
    fold (assignPropertyValues x0) in Ft. rewrite E in Ft. exact Ft. }
  unfold isMesh in Hm0.
  assert (Hmf : instanceofMesh (obj_class f) = true).
  { rewrite Ef. unfold assignPropertyValue. rewrite Hm0. exact Hm0. }
  assert (Hl : labels doc f = true).
  { rewrite Ef, labels_assignPropertyValue; [exact Hd | exact Hm0]. }
  destruct (children_addLabelsToModel_mesh doc f cs g0 Hmf Hl)
    as (pv & text & n & kids & Hpv & Ht & Hch).
  assert (Epv : pv = propertyValueOf (obj_id (fields x0))).
  { rewrite Ef, propertyValue_assignPropertyValue, Hm0 in Hpv. congruence. }
  assert (Eid : obj_id f = obj_id (fields x0)).
  { rewrite Ef. unfold assignPropertyValue. rewrite Hm0. reflexivity. }
  simpl. rewrite Eid. subst pv.
  exists kids, (object3DId g0), n, text. split; [exact Ht | exact Hch].
Qed.

(** Colour and text of a label follow the id of its Mesh modulo 4: red
    for "Not Started", orange for "In Progress", green for "Partially
    Installed", blue for "Installed".  The fallback colour of the [switch]
    (viewer.ts:177-178) is never painted. *)
Theorem label_colour_follows_mesh_id doc parsed g x :
  getContext2d doc = true →
  x ∈ nodes (loadedModel doc parsed g) → isMesh x = true →
  ∃ kids sprite n texture,
    children x = kids ++ [sprite]
    ∧ obj_material (fields sprite)
      = Some {| material_id := n; material_data := SpriteMaterial texture |}
    ∧ (canvas_background texture, canvas_text texture)
      = match obj_id (fields x) mod 4 with
        | 0 => ("rgba(255, 0, 0, 0.8)", "Not Started")
        | 1 => ("rgba(255, 165, 0, 0.8)", "In Progress")
        | 2 => ("rgba(0, 255, 0, 0.8)", "Partially Installed")
        | _ => ("rgba(0, 0, 255, 0.8)", "Installed")
        end
    ∧ canvas_background texture ≠ "rgba(0, 0, 0, 0.8)".
Proof.
  intros Hd Hx Hm.
  destruct (label_of_loaded_mesh doc parsed g x Hd Hx Hm)
    as (kids & i & n & text & Ht & Hc).
  eexists kids, _, n, _. split; [exact Hc|]. split; [reflexivity|].
  unfold propertyValueOf, statusIndex in *. simpl in Ht. simpl.
  assert (Hlt : obj_id (fields x) mod 4 < 4) by (apply N.mod_upper_bound; done).
  destruct (obj_id (fields x) mod 4) as [|[[|[]|]|[|[]|]|]] eqn:E;
    simpl in *; try lia; injection Ht as <-; split; (reflexivity || discriminate).
Qed.

(** ** The further load-time properties on the sample tree *)

Lemma label_colour_on_sample_panel :
  ∃ kids sprite n texture,
    children samplePanel = kids ++ [sprite]
    ∧ obj_material (fields sprite)
      = Some {| material_id := n; material_data := SpriteMaterial texture |}
    ∧ (canvas_background texture, canvas_text texture)
      = ("rgba(255, 0, 0, 0.8)", "Not Started").
Proof.
  assert (Hin : samplePanel ∈ nodes (loadedModel sampleDocument sampleTree sampleGlobals)).
  { apply (list_elem_of_lookup_2 _ 1%nat). reflexivity. }
  destruct (label_colour_follows_mesh_id sampleDocument sampleTree sampleGlobals
              samplePanel eq_refl Hin eq_refl)
    as (kids & sprite & n & texture & Hc & Hm & Hp & _).
  exists kids, sprite, n, texture. split; [exact Hc|]. split; [exact Hm | exact Hp].
Defined.

Lemma no_context_on_sample :
  addLabelsToModel documentWithout2d sampleTree sampleGlobals
    = (sampleTree, sampleGlobals).
Proof.
  exact (addLabelsToModel_without_context documentWithout2d sampleTree
           sampleGlobals eq_refl).
Defined.

(* ===================================================================== *)
(** * Part 10: further properties of the viewer's life cycle              *)
(* ===================================================================== *)

Lemma emissions_next {A} (a : A) s : emissions (next a s) = emissions s ++ [a].
Proof. reflexivity. Qed.

Lemma getValue_emissions {A} (s : BehaviorSubject A) a l :
  emissions s = l ++ [a] → getValue s = a.
Proof.
  unfold emissions, getValue. destruct s as [i p]. simpl. intros E.
  destruct l as [|x l]; simpl in E.
  - injection E as -> ->. reflexivity.
  - injection E as -> ->. apply last_last.
Qed.

Section LifeCycleMore.

Variable findThreeJSJSON : JSON -> Completion (option JSON).
Variable parseJSON : JSON -> ThreeGlobals -> Completion (Object3D * ThreeGlobals).

#[local] Abbreviation step := (step findThreeJSJSON parseJSON).
#[local] Abbreviation run := (run findThreeJSJSON parseJSON).

(** *** Status, model and scene along a run *)

(** Apart from the settlements, only the disposal touches the children of
    the scene, and it removes them all. *)
Lemma step_scene_children w e :
  isSettlement e = false →
  scene_children (scene (viewer (step w e))) = scene_children (scene (viewer w))
  ∨ scene_children (scene (viewer (step w e))) = [].
Proof. destruct e; try discriminate; intros _; by_cases; auto. Qed.

Lemma loading_step_keeps_consistency w e :
  loadingConsistent (viewer w) → loadingConsistent (viewer (step w e)).
Proof.
  intros H. destruct (isSettlement e) eqn:He.
  - destruct e as [r| | | | | |]; try discriminate; simpl;
      unfold loadingConsistent in *;
      destruct (loadModel_promise (viewer w)) as [| |json|[o|]|msg] eqn:Ep;
      try (rewrite Ep; exact H).
    + (* the request settles *)
      destruct H as (Hs & Hm & Hc).
      unfold loadModel_afterFetch.
      destruct r as [|data]; [|destruct (findThreeJSJSON data) as [[j|]|]];
        simpl; rewrite ?emissions_next, ?Hs; auto.
    + (* the parse settles *)
      destruct H as (Hs & Hm & Hc).
      unfold loadModel_afterParse.
      destruct (parseJSON json (three w)) as [[o g]|]; simpl.
      * unfold loadModel_finish. simpl.
        destruct (addLabelsToModel _ _ _) as [labelled g']. simpl.
        rewrite emissions_next, Hs. split; [reflexivity|]. split; [reflexivity|].
        intros r Hr. unfold sceneAdd in Hr. simpl in Hr.
        apply elem_of_app in Hr as [Hr|Hr]; [destruct (Hc r Hr)|].
        apply list_elem_of_singleton in Hr. congruence.
      * rewrite emissions_next, Hs. auto.
  - destruct (step_loading_untouched findThreeJSJSON parseJSON w e He)
      as (Es & Em & Ep).
    unfold loadingConsistent in *. rewrite Ep, Es, Em.
    destruct (step_scene_children w e He) as [-> | ->]; [exact H|].
    destruct (loadModel_promise (viewer w)) as [| |json|[o|]|msg];
      try exact H;
      repeat match goal with
             | H : _ ∧ _ |- _ => destruct H
             | |- _ ∧ _ => split
             end; try assumption;
      intros r Hr; inversion Hr.
Qed.

Lemma construct_is_consistent uuid b g wd doc objs :
  loadingConsistent (viewer (construct uuid b g wd doc objs)).
Proof.
  unfold loadingConsistent. destruct b; simpl;
    (split; [reflexivity|]; split; [reflexivity|]);
    intros r Hr; repeat (apply elem_of_cons in Hr as [Hr|Hr]; [discriminate|]);
    inversion Hr.
Qed.

Lemma run_keeps_consistency w es :
  loadingConsistent (viewer w) → loadingConsistent (viewer (run w es)).
Proof.
  revert w. induction es as [|e es IH]; intros w H; [exact H|].
  apply IH, loading_step_keeps_consistency, H.
Qed.

(** Whatever happens to a viewer after its construction, its status has
    gone through one of three histories, none with a second attempt, and
    [model] and the scene go with it: idle, loading while the load is
    pending or has ended without a payload (no model, no loaded object in
    the scene); idle, loading, idle after a load (the model is set, and a
    loaded object in the scene is its root); idle, loading, error after a
    failure (no model, no loaded object, the error is "Failed to load
    model").  In particular [model] is defined exactly when the status is
    "idle". *)
Theorem status_model_and_scene_agree uuid b g wd doc objs es :
  loadingConsistent (viewer (run (construct uuid b g wd doc objs) es))
  ∧ (is_Some (model (viewer (run (construct uuid b g wd doc objs) es)))
     ↔ getValue (status (viewer (run (construct uuid b g wd doc objs) es))) = idle).
Proof.
  pose proof (run_keeps_consistency _ es
                (construct_is_consistent uuid b g wd doc objs)) as H.
  split; [exact H|].
  unfold loadingConsistent in H.
  destruct (loadModel_promise _) as [| |json|[o|]|msg]; try destruct H;
    repeat match goal with H : _ ∧ _ |- _ => destruct H end;
    match goal with
    | Hs : emissions _ = _, Hm : model _ = _ |- _ =>
        rewrite Hm;
        first [ rewrite (getValue_emissions _ idle [idle; loading] Hs)
              | rewrite (getValue_emissions _ loading [idle] Hs)
              | rewrite (getValue_emissions _ error [idle; loading] Hs) ]
    end;
    split; intros X; try discriminate X; try (destruct X; discriminate); eauto.
Qed.

End LifeCycleMore.

Section RenderLoop.

Variable findThreeJSJSON : JSON -> Completion (option JSON).
Variable parseJSON : JSON -> ThreeGlobals -> Completion (Object3D * ThreeGlobals).

#[local] Abbreviation step := (step findThreeJSJSON parseJSON).
#[local] Abbreviation run := (run findThreeJSJSON parseJSON).

(** *** The render loop *)

(** Whoever sets the dirty flag draws before returning. *)
Lemma step_leaves_flag_clear w e :
  _renderNeeded (viewer w) = false → _renderNeeded (viewer (step w e)) = false.
Proof. intros H. destruct e; by_cases; exact H. Qed.

Lemma construct_leaves_flag_clear uuid b g wd doc objs :
  _renderNeeded (viewer (construct uuid b g wd doc objs)) = false.
Proof. destruct b; reflexivity. Qed.

Lemma run_leaves_flag_clear w es :
  _renderNeeded (viewer w) = false → _renderNeeded (viewer (run w es)) = false.
Proof.
  revert w. induction es as [|e es IH]; intros w H; [exact H|].
  apply IH, step_leaves_flag_clear, H.
Qed.

(** A frame callback queues its successor; nothing ever takes one away. *)
Lemma step_keeps_frames_queued w e :
  (animationFrameRequests (window w)
   ≤ animationFrameRequests (window (step w e)))%nat.
Proof. destruct e; by_cases; lia. Qed.

Lemma run_keeps_frames_queued w es :
  (animationFrameRequests (window w)
   ≤ animationFrameRequests (window (run w es)))%nat.
Proof.
  revert w. induction es as [|e es IH]; intros w; [reflexivity|].
  etransitivity; [apply (step_keeps_frames_queued w e) | apply IH].
Qed.

Lemma construct_queues_a_frame uuid b g wd doc objs :
  animationFrameRequests (window (construct uuid b g wd doc objs))
    = S (animationFrameRequests wd).
Proof. destruct b; reflexivity. Qed.

(** Between events the dirty flag is always off: everything that sets it
    ([updateViewer], [resize]) redraws before it returns, and a finished load
    does not set it.  So a frame in which the camera controls report no
    change draws nothing, and a frame in which they report one draws exactly
    once, with the camera and size of that moment. *)
Theorem frames_draw_only_when_controls_change uuid b g wd doc objs es :
  _renderNeeded (viewer (run (construct uuid b g wd doc objs) es)) = false
  ∧ draws (_renderer (viewer
      (step (run (construct uuid b g wd doc objs) es) (AnimationFrame false))))
    = draws (_renderer (viewer (run (construct uuid b g wd doc objs) es)))
  ∧ draws (_renderer (viewer
      (step (run (construct uuid b g wd doc objs) es) (AnimationFrame true))))
    = draws (_renderer (viewer (run (construct uuid b g wd doc objs) es)))
        ++ [{| draw_projection :=
                 projectionMatrix
                   (camera (viewer (run (construct uuid b g wd doc objs) es)));
               draw_size :=
                 size (_renderer
                         (viewer (run (construct uuid b g wd doc objs) es))) |}].
Proof.
  set (w := run (construct uuid b g wd doc objs) es).
  assert (Hf : _renderNeeded (viewer w) = false)
    by apply run_leaves_flag_clear, construct_leaves_flag_clear.
  assert (Hq : (S (animationFrameRequests wd) ≤ animationFrameRequests (window w))%nat).
  { rewrite <- (construct_queues_a_frame uuid b g wd doc objs).
    apply run_keeps_frames_queued. }
  clearbody w. split; [exact Hf|].
  destruct (animationFrameRequests (window w)) as [|n] eqn:En; [lia|].
  split; simpl; rewrite En; unfold _render; simpl; rewrite ?Hf; reflexivity.
Qed.

(** [dispose()] does not stop the render loop: however a viewer is used and
    disposed of, a [_render] callback stays queued with the window, so the
    frames keep coming. *)
Theorem render_loop_outlives_dispose uuid b g wd doc objs es1 es2 :
  (animationFrameRequests wd
   < animationFrameRequests
       (window (run (dispose (run (construct uuid b g wd doc objs) es1)) es2)))%nat
  ∧ animationFrameRequests
      (window (dispose (run (construct uuid b g wd doc objs) es1)))
    = animationFrameRequests (window (run (construct uuid b g wd doc objs) es1))
  ∧ animationFrameRequests
      (window (step (run (dispose (run (construct uuid b g wd doc objs) es1)) es2)
                 (AnimationFrame false)))
    = animationFrameRequests
        (window (run (dispose (run (construct uuid b g wd doc objs) es1)) es2)).
Proof.
  set (w1 := run (construct uuid b g wd doc objs) es1).
  set (w3 := run (dispose w1) es2).
  assert (H1 : (S (animationFrameRequests wd) ≤ animationFrameRequests (window w1))%nat).
  { rewrite <- (construct_queues_a_frame uuid b g wd doc objs).
    apply run_keeps_frames_queued. }
  assert (H3 : (animationFrameRequests (window w1)
                ≤ animationFrameRequests (window w3))%nat).
  { change (animationFrameRequests (window w1))
      with (animationFrameRequests (window (dispose w1))).
    apply run_keeps_frames_queued. }
  split; [lia|]. split; [reflexivity|].
  clearbody w3. clearbody w1.
  simpl. destruct (animationFrameRequests (window w3)) as [|n] eqn:En; [lia|].
  unfold _render. simpl. destruct (_renderNeeded (viewer w3)); reflexivity.
Qed.

End RenderLoop.

Section Disposal.

Variable findThreeJSJSON : JSON -> Completion (option JSON).
Variable parseJSON : JSON -> ThreeGlobals -> Completion (Object3D * ThreeGlobals).

#[local] Abbreviation step := (step findThreeJSJSON parseJSON).
#[local] Abbreviation run := (run findThreeJSJSON parseJSON).

(** *** Listeners, from construction to disposal *)

Lemma removeEventListener_absent type callback ls :
  {| listener_type := type; listener_callback := callback |} ∉ ls →
  removeEventListener type callback ls = ls.
Proof.
  unfold removeEventListener. induction ls as [|l ls IH]; intros H; [reflexivity|].
  rewrite filter_cons. apply not_elem_of_cons in H as [Hne Hin].
  rewrite decide_True by congruence. rewrite IH by exact Hin. reflexivity.
Qed.

Lemma removeEventListener_added type callback ls :
  removeEventListener type callback (addEventListener type callback ls)
    = removeEventListener type callback ls.
Proof.
  unfold addEventListener. destruct (decide _) as [Hin|Hin]; [reflexivity|].
  unfold removeEventListener. rewrite filter_app, filter_cons.
  rewrite decide_False by (intros H; apply H; reflexivity).
  rewrite filter_nil. apply app_nil_r.
Qed.

Lemma removeEventListener_twice type callback ls :
  removeEventListener type callback (removeEventListener type callback ls)
    = removeEventListener type callback ls.
Proof. apply removeEventListener_absent, removeEventListener_removes. Qed.

(** Removing the viewer's listener gives the same list at any point of a
    run: no event adds a listener or removes somebody else's. *)
Lemma run_then_remove_resize w es :
  removeEventListener "resize" (ViewerResize (viewer_id (viewer w)))
    (window_listeners (window (run w es)))
  = removeEventListener "resize" (ViewerResize (viewer_id (viewer w)))
      (window_listeners (window w)).
Proof.
  revert w. induction es as [|e es IH]; intros w; [reflexivity|].
  rewrite run_cons.
  rewrite <- (step_viewer_id findThreeJSJSON parseJSON w e), IH.
  rewrite (step_viewer_id findThreeJSJSON parseJSON w e).
  destruct (step_window_listeners findThreeJSJSON parseJSON w e) as [-> | ->];
    [reflexivity | apply removeEventListener_twice].
Qed.

Lemma run_then_remove_click w es :
  removeEventListener "click" (ViewerOnMouseClick (viewer_id (viewer w)))
    (canvas_listeners (domElement (_renderer (viewer (run w es)))))
  = removeEventListener "click" (ViewerOnMouseClick (viewer_id (viewer w)))
      (canvas_listeners (domElement (_renderer (viewer w)))).
Proof.
  revert w. induction es as [|e es IH]; intros w; [reflexivity|].
  rewrite run_cons.
  rewrite <- (step_viewer_id findThreeJSJSON parseJSON w e), IH.
  rewrite (step_viewer_id findThreeJSJSON parseJSON w e).
  destruct (step_canvas_listeners findThreeJSJSON parseJSON w e) as [-> | ->];
    [reflexivity | apply removeEventListener_twice].
Qed.

Lemma construct_viewer_id uuid b g wd doc objs :
  viewer_id (viewer (construct uuid b g wd doc objs)) = uuid.
Proof. destruct b; reflexivity. Qed.

Lemma construct_window_listeners uuid b g wd doc objs :
  window_listeners (window (construct uuid b g wd doc objs))
    = addEventListener "resize" (ViewerResize uuid) (window_listeners wd).
Proof. destruct b; reflexivity. Qed.

Lemma construct_canvas_listeners uuid b g wd doc objs :
  canvas_listeners (domElement (_renderer (viewer (construct uuid b g wd doc objs))))
    = [{| listener_type := "click"; listener_callback := ViewerOnMouseClick uuid |}].
Proof. destruct b; reflexivity. Qed.

(** Construction and disposal are a round trip for the window: if the
    window did not hold this viewer's resize listener before the viewer was
    built, then after [dispose()], whatever happened in between, the
    window's listeners are exactly the ones it had, in their order; and the
    viewer's canvas has no listener of the viewer left. *)
Theorem dispose_restores_the_window_listeners uuid b g wd doc objs es :
  {| listener_type := "resize"; listener_callback := ViewerResize uuid |}
    ∉ window_listeners wd →
  window_listeners (window (dispose (run (construct uuid b g wd doc objs) es)))
    = window_listeners wd
  ∧ canvas_listeners (domElement (_renderer (viewer
      (dispose (run (construct uuid b g wd doc objs) es))))) = [].
Proof.
  intros Hfresh.
  pose proof (run_then_remove_resize (construct uuid b g wd doc objs) es) as Hw.
  pose proof (run_then_remove_click (construct uuid b g wd doc objs) es) as Hc.
  rewrite construct_viewer_id in Hw, Hc.
  rewrite construct_window_listeners, removeEventListener_added in Hw.
  rewrite construct_canvas_listeners in Hc.
  unfold dispose. simpl. rewrite run_viewer_id, construct_viewer_id.
  rewrite Hw, Hc. split.
  - apply removeEventListener_absent, Hfresh.
  - unfold removeEventListener. rewrite filter_cons.
    rewrite decide_False by (intros H; apply H; reflexivity). reflexivity.
Qed.

(** A disposed viewer no longer reacts to the window or to its canvas: a
    resize of the window changes the window's size and nothing else, a click
    on the canvas changes nothing. *)
Theorem disposed_viewer_ignores_resize_and_clicks
    uuid b g wd doc objs es1 es2 width height c hit :
  step (run (dispose (run (construct uuid b g wd doc objs) es1)) es2)
       (WindowResized width height c)
    = with_window (set_innerSize width height)
        (run (dispose (run (construct uuid b g wd doc objs) es1)) es2)
  ∧ step (run (dispose (run (construct uuid b g wd doc objs) es1)) es2)
         (CanvasClicked hit)
    = run (dispose (run (construct uuid b g wd doc objs) es1)) es2.
Proof.
  set (w1 := run (construct uuid b g wd doc objs) es1).
  assert (Hid1 : viewer_id (viewer w1) = uuid)
    by (unfold w1; rewrite run_viewer_id; apply construct_viewer_id).
  set (w3 := run (dispose w1) es2).
  assert (Hid3 : viewer_id (viewer w3) = uuid)
    by (unfold w3; rewrite run_viewer_id; exact Hid1).
  assert (Hw : resizeListener w3 ∉ window_listeners (window w3)).
  { unfold resizeListener. rewrite Hid3. intros H.
    apply (proj1 (run_listeners_shrink findThreeJSJSON parseJSON _ es2 _)) in H.
    revert H. unfold dispose. simpl. rewrite Hid1.
    apply removeEventListener_removes. }
  assert (Hc : clickListener w3
               ∉ canvas_listeners (domElement (_renderer (viewer w3)))).
  { unfold clickListener. rewrite Hid3. intros H.
    apply (proj2 (run_listeners_shrink findThreeJSJSON parseJSON _ es2 _)) in H.
    revert H. unfold dispose. simpl. rewrite Hid1.
    apply removeEventListener_removes. }
  clearbody w3. simpl. rewrite !decide_False by assumption. split; reflexivity.
Qed.

End Disposal.

Section LoadingMore.

Variable findThreeJSJSON : JSON -> Completion (option JSON).
Variable parseJSON : JSON -> ThreeGlobals -> Completion (Object3D * ThreeGlobals).

#[local] Abbreviation step := (step findThreeJSJSON parseJSON).
#[local] Abbreviation run := (run findThreeJSJSON parseJSON).

(** *** Loading and disposal *)

Lemma run_scene_stays_cleared w es :
  noSettlement es → scene_children (scene (viewer w)) = [] →
  scene_children (scene (viewer (run w es))) = [].
Proof.
  intros H. revert w. induction H as [|e es He _ IH]; intros w Hw; [exact Hw|].
  rewrite run_cons. apply IH.
  destruct (step_scene_children findThreeJSJSON parseJSON w e He) as [E|E];
    rewrite E; [exact Hw | reflexivity].
Qed.

Lemma noSettlement_app es1 es2 :
  noSettlement es1 → noSettlement es2 → noSettlement (es1 ++ es2).
Proof. apply Forall_app_2. Qed.

(** [dispose()] does not cancel the load.  A viewer disposed of while the
    request is under way still completes the load when the response comes:
    the model is set, the status goes to "idle", and the root is added to
    the scene that [dispose()] had cleared, which then holds nothing but the
    loaded object. *)
Theorem load_completes_on_a_disposed_viewer
    uuid b g wd doc objs data jsonObject es0 es1 es2 :
  noSettlement es0 → noSettlement es1 → noSettlement es2 →
  findThreeJSJSON data = Returns (Some jsonObject) →
  (∀ g0, ∃ object3d g1, parseJSON jsonObject g0 = Returns (object3d, g1)) →
  ∃ object3d g0 g1,
    parseJSON jsonObject g0 = Returns (object3d, g1)
    ∧ scene_children (scene (viewer
        (run (construct uuid b g wd doc objs)
           (es0 ++ Disposed :: es1 ++ FetchSettled (Response data) :: es2
                ++ [ParseSettled]))))
      = [LoadedObject (obj_id (fields object3d))]
    ∧ model (viewer
        (run (construct uuid b g wd doc objs)
           (es0 ++ Disposed :: es1 ++ FetchSettled (Response data) :: es2
                ++ [ParseSettled])))
      = Some (loadedModel doc object3d g1)
    ∧ emissions (status (viewer
        (run (construct uuid b g wd doc objs)
           (es0 ++ Disposed :: es1 ++ FetchSettled (Response data) :: es2
                ++ [ParseSettled]))))
      = [idle; loading; idle].
Proof.
  intros H0 H1 H2 Hf Hparse.
  destruct (construct_loading uuid b g wd doc objs) as (Cs & _ & Cp).
  assert (H01 : noSettlement (es0 ++ Disposed :: es1)).
  { apply noSettlement_app; [exact H0|]. constructor; [reflexivity | exact H1]. }
  replace (es0 ++ Disposed :: es1 ++ FetchSettled (Response data) :: es2
               ++ [ParseSettled])
    with ((es0 ++ Disposed :: es1) ++ FetchSettled (Response data) :: es2
            ++ [ParseSettled])
    by (rewrite <- app_assoc; reflexivity).
  destruct (run_loading_untouched findThreeJSJSON parseJSON
              (construct uuid b g wd doc objs) _ H01) as (S0 & _ & P0).
  rewrite Cs in S0. rewrite Cp in P0.
  assert (Hscene : scene_children (scene (viewer
            (run (construct uuid b g wd doc objs) (es0 ++ Disposed :: es1)))) = []).
  { rewrite run_app, run_cons. apply run_scene_stays_cleared; [exact H1|].
    reflexivity. }
  assert (Hdoc : document (run (construct uuid b g wd doc objs)
                             (es0 ++ Disposed :: es1)) = doc).
  { rewrite run_document. destruct b; reflexivity. }
  set (w1 := run (construct uuid b g wd doc objs) (es0 ++ Disposed :: es1)) in *.
  rewrite run_app, run_cons. fold w1.
  rewrite (payload_found findThreeJSJSON parseJSON w1 data jsonObject P0 Hf).
  set (w2 := with_viewer (set_loadModel_promise (AwaitingParse jsonObject)) w1).
  rewrite run_app.
  destruct (run_loading_untouched findThreeJSJSON parseJSON w2 es2 H2)
    as (S2 & _ & P2).
  assert (Hscene2 : scene_children (scene (viewer (run w2 es2))) = []).
  { apply run_scene_stays_cleared; [exact H2 | exact Hscene]. }
  assert (Hdoc2 : document (run w2 es2) = doc).
  { rewrite run_document. exact Hdoc. }
  set (w3 := run w2 es2) in *.
  destruct (Hparse (three w3)) as (object3d & g1 & Hp).
  destruct (parse_succeeded findThreeJSJSON parseJSON w3 jsonObject object3d g1
              P2 Hp) as (S4 & M4 & _ & C4).
  exists object3d, (three w3), g1. split; [exact Hp|].
  change (run w3 [ParseSettled]) with (step w3 ParseSettled).
  rewrite C4, Hscene2, M4, Hdoc2, S4, S2. simpl. fold w1. rewrite S0.
  repeat split; reflexivity.
Qed.

(** A failure thrown by [findThreeJSJSON] or by [parseJSON] is reported like
    a failed request: "error" is pushed once, the promise is rejected with
    "Failed to load model", [model] stays undefined and the scene receives
    no loaded object, whatever else happens. *)
Theorem thrown_failures_are_reported
    uuid b g wd doc objs data jsonObject es0 es1 es2 :
  noSettlement es0 →
  (findThreeJSJSON data = Throws →
   emissions (status (viewer
     (run (construct uuid b g wd doc objs)
        (es0 ++ FetchSettled (Response data) :: es2))))
     = [idle; loading; error]
   ∧ loadModel_promise (viewer
       (run (construct uuid b g wd doc objs)
          (es0 ++ FetchSettled (Response data) :: es2)))
     = Rejected "Failed to load model"
   ∧ model (viewer
       (run (construct uuid b g wd doc objs)
          (es0 ++ FetchSettled (Response data) :: es2)))
     = None)
  ∧ (findThreeJSJSON data = Returns (Some jsonObject) →
     (∀ g0, parseJSON jsonObject g0 = Throws) →
     noSettlement es1 →
     emissions (status (viewer
       (run (construct uuid b g wd doc objs)
          (es0 ++ FetchSettled (Response data) :: es1 ++ ParseSettled :: es2))))
       = [idle; loading; error]
     ∧ loadModel_promise (viewer
         (run (construct uuid b g wd doc objs)
            (es0 ++ FetchSettled (Response data) :: es1 ++ ParseSettled :: es2)))
       = Rejected "Failed to load model"
     ∧ model (viewer
         (run (construct uuid b g wd doc objs)
            (es0 ++ FetchSettled (Response data) :: es1 ++ ParseSettled :: es2)))
       = None).
Proof.
  intros H0.
  destruct (construct_loading uuid b g wd doc objs) as (Cs & Cm & Cp).
  destruct (run_loading_untouched findThreeJSJSON parseJSON
              (construct uuid b g wd doc objs) es0 H0) as (S0 & M0 & P0).
  rewrite Cs in S0. rewrite Cm in M0. rewrite Cp in P0.
  set (w0 := run (construct uuid b g wd doc objs) es0) in *.
  split.
  - intros Hf. rewrite run_app, run_cons. fold w0.
    destruct (request_failure_is_reported findThreeJSJSON parseJSON w0
                (Response data) P0
                (or_intror (ex_intro _ data (conj eq_refl Hf))))
      as (S1 & P1 & M1 & _).
    destruct (run_loading_settled findThreeJSJSON parseJSON
                (step w0 (FetchSettled (Response data))) es2)
      as (-> & -> & ->); [rewrite P1; reflexivity|].
    rewrite S1, P1, M1, S0, M0. repeat split; reflexivity.
  - intros Hf Hp H1. rewrite run_app, run_cons. fold w0.
    rewrite (payload_found findThreeJSJSON parseJSON w0 data jsonObject P0 Hf).
    set (w1 := with_viewer (set_loadModel_promise (AwaitingParse jsonObject)) w0).
    rewrite run_app, run_cons.
    destruct (run_loading_untouched findThreeJSJSON parseJSON w1 es1 H1)
      as (S1 & M1 & P1).
    set (w2 := run w1 es1) in *.
    destruct (parse_failure_is_reported findThreeJSJSON parseJSON w2 jsonObject
                P1 (Hp (three w2))) as (S2 & P2 & M2 & _).
    destruct (run_loading_settled findThreeJSJSON parseJSON
                (step w2 ParseSettled) es2)
      as (-> & -> & ->); [rewrite P2; reflexivity|].
    rewrite S2, P2, M2, S1, M1. simpl. fold w0. rewrite S0, M0.
    repeat split; reflexivity.
Qed.

(** *** The widget along a run *)

(** The hierarchy widget shows "No model loaded." until a load has
    succeeded, so also for good after a failed load and after a response
    without payload; from then on it shows the loaded tree, one item per
    object in traversal order, labels and groups included, each item wired
    to [highlightObject] of its object. *)
Theorem widget_follows_the_load uuid b g wd doc objs es :
  match loadModel_promise (viewer (run (construct uuid b g wd doc objs) es)) with
  | Fulfilled (Some o) =>
      ObjectHierarchyWidget (Some (viewer (run (construct uuid b g wd doc objs) es)))
        = Hierarchy (renderObjectHierarchy o)
      ∧ clickTargets (renderObjectHierarchy o)
        = map (fun x => obj_id (fields x)) (nodes o)
  | _ =>
      ObjectHierarchyWidget (Some (viewer (run (construct uuid b g wd doc objs) es)))
        = NoModelLoaded
  end.
Proof.
  pose proof (run_keeps_consistency findThreeJSJSON parseJSON _ es
                (construct_is_consistent uuid b g wd doc objs)) as H.
  unfold loadingConsistent in H. unfold ObjectHierarchyWidget.
  destruct (loadModel_promise _) as [| |json|[o|]|msg]; try destruct H;
    repeat match goal with H : _ ∧ _ |- _ => destruct H end;
    match goal with Hm : model _ = _ |- _ => rewrite Hm end;
    try reflexivity.
  split; [reflexivity|].
  clear. induction o as [f cs IH] using Object3D_subtree_ind. simpl. f_equal.
  induction IH as [|c cs Hc _ IHcs]; simpl; [reflexivity|].
  rewrite map_app, Hc, IHcs. reflexivity.
Qed.

End LoadingMore.

(** ** The further life-cycle properties on the sample world *)

Lemma dispose_restores_on_sample :
  window_listeners
    (window (dispose (run sampleFind sampleParse sampleWorld
                        [WindowResized 800 600 false; AnimationFrame true])))
    = window_listeners sampleWindow.
Proof.
  refine (proj1 (dispose_restores_the_window_listeners sampleFind sampleParse
                   "viewer-1" false {| object3DId := 0; materialId := 0 |}
                   sampleWindow sampleDocument ∅
                   [WindowResized 800 600 false; AnimationFrame true] _)).
  intros H. apply list_elem_of_singleton in H. discriminate H.
Defined.

Lemma late_load_on_sample :
  scene_children (scene (viewer
    (run sampleFind sampleParse sampleWorld
       [Disposed; AnimationFrame false; FetchSettled (Response sampleEnvelope);
        ParseSettled])))
    = [LoadedObject 7].
Proof.
  assert (H0 : noSettlement []) by constructor.
  assert (H1 : noSettlement [AnimationFrame false]) by (repeat constructor).
  destruct (load_completes_on_a_disposed_viewer sampleFind sampleParse
              "viewer-1" false {| object3DId := 0; materialId := 0 |}
              sampleWindow sampleDocument ∅ sampleEnvelope (JObject [])
              [] [AnimationFrame false] [] H0 H1 H0 eq_refl
              (fun g0 => ex_intro _ sampleTree (ex_intro _ sampleGlobals eq_refl)))
    as (object3d & g0 & g1 & Hp & Hs & _).
  injection Hp as <- _. exact Hs.
Defined.

Lemma thrown_failures_on_sample :
  emissions (status (viewer
    (run strictFind sampleParse sampleWorld
       [AnimationFrame true; FetchSettled (Response JNull); ParseSettled])))
    = [idle; loading; error]
  ∧ emissions (status (viewer
      (run strictFind sampleParse sampleWorld
         [AnimationFrame true; FetchSettled (Response brokenEnvelope);
          CanvasClicked None; ParseSettled; AnimationFrame false])))
    = [idle; loading; error].
Proof.
  assert (H0 : noSettlement [AnimationFrame true]) by (repeat constructor).
  assert (H1 : noSettlement [CanvasClicked None]) by (repeat constructor).
  split.
  - exact (proj1 (proj1 (thrown_failures_are_reported strictFind sampleParse
                    "viewer-1" false {| object3DId := 0; materialId := 0 |}
                    sampleWindow sampleDocument ∅ JNull JNull
                    [AnimationFrame true] [] [ParseSettled] H0) eq_refl)).
  - exact (proj1 (proj2 (thrown_failures_are_reported strictFind sampleParse
                    "viewer-1" false {| object3DId := 0; materialId := 0 |}
                    sampleWindow sampleDocument ∅ brokenEnvelope
                    (JString "broken")
                    [AnimationFrame true] [CanvasClicked None]
                    [AnimationFrame false] H0)
                   eq_refl (fun g0 => eq_refl) H1)).
Defined.

(** The sample world is pristine once [sampleTree] is loaded into it. *)
Lemma loaded_sample_is_pristine :
  pristine
    (step sampleFind sampleParse
       (run sampleFind sampleParse sampleWorld
          [FetchSettled (Response sampleEnvelope)])
       ParseSettled).
Proof.
  apply (loaded_world_is_pristine sampleFind sampleParse _ (JObject [])
           sampleTree sampleGlobals).
  - reflexivity.
  - reflexivity.
  - repeat constructor.
  - split; [reflexivity|]. apply map_Forall_empty.
Defined.

Section Chains.

Variable findThreeJSJSON : JSON -> Completion (option JSON).
Variable parseJSON : JSON -> ThreeGlobals -> Completion (Object3D * ThreeGlobals).

#[local] Abbreviation step := (step findThreeJSJSON parseJSON).
#[local] Abbreviation run := (run findThreeJSJSON parseJSON).

(** *** Render loops started by resizes *)

Lemma frame_keeps_the_queue w c :
  animationFrameRequests (window (step w (AnimationFrame c)))
    = animationFrameRequests (window w).
Proof. by_cases; congruence. Qed.

(** Without its listener the viewer starts no further loop. *)
Lemma run_without_listener_keeps_the_queue w es :
  resizeListener w ∉ window_listeners (window w) →
  animationFrameRequests (window (run w es)) = animationFrameRequests (window w).
Proof.
  revert w. induction es as [|e es IH]; intros w Hn; [reflexivity|].
  rewrite run_cons, IH.
  - destruct e; try (by_cases; fail).
    + apply frame_keeps_the_queue.
    + simpl. rewrite decide_False by exact Hn. reflexivity.
  - unfold resizeListener in *. rewrite step_viewer_id. intros H. apply Hn.
    destruct (step_window_listeners findThreeJSJSON parseJSON w e) as [E|E];
      rewrite E in H; [exact H | exact (removeEventListener_subseteq _ _ _ _ H)].
Qed.

Lemma run_with_listener_counts_resizes w es :
  resizeListener w ∈ window_listeners (window w) →
  animationFrameRequests (window (run w es))
    = (animationFrameRequests (window w) + resizesBeforeDisposal es)%nat.
Proof.
  revert w. induction es as [|e es IH]; intros w Hl; [simpl; lia|].
  rewrite run_cons.
  destruct e as [r| |c|width height c|hit|object|].
  - rewrite IH; [simpl; f_equal; by_cases|].
    unfold resizeListener. rewrite step_viewer_id.
    replace (window_listeners (window (step w (FetchSettled r))))
      with (window_listeners (window w)) by by_cases. exact Hl.
  - rewrite IH; [simpl; f_equal; by_cases|].
    unfold resizeListener. rewrite step_viewer_id.
    replace (window_listeners (window (step w ParseSettled)))
      with (window_listeners (window w)) by by_cases. exact Hl.
  - rewrite IH; [simpl resizesBeforeDisposal; f_equal; apply frame_keeps_the_queue|].
    unfold resizeListener. rewrite step_viewer_id.
    replace (window_listeners (window (step w (AnimationFrame c))))
      with (window_listeners (window w)) by by_cases. exact Hl.
  - rewrite IH.
    + simpl resizesBeforeDisposal. simpl. rewrite decide_True by exact Hl.
      unfold resize, updateViewer, _render. simpl. rewrite orb_true_r. simpl. lia.
    + unfold resizeListener. rewrite step_viewer_id.
      replace (window_listeners (window (step w (WindowResized width height c))))
        with (window_listeners (window w)); [exact Hl|].
      simpl. rewrite decide_True by exact Hl.
      unfold resize, updateViewer, _render. simpl. rewrite orb_true_r. reflexivity.
  - rewrite IH; [simpl; f_equal; by_cases|].
    unfold resizeListener. rewrite step_viewer_id.
    replace (window_listeners (window (step w (CanvasClicked hit))))
      with (window_listeners (window w)) by by_cases. exact Hl.
  - rewrite IH; [simpl; f_equal; by_cases|].
    unfold resizeListener. rewrite step_viewer_id.
    replace (window_listeners (window (step w (ItemClicked object))))
      with (window_listeners (window w)) by by_cases. exact Hl.
  - simpl resizesBeforeDisposal. rewrite run_without_listener_keeps_the_queue.
    + simpl. lia.
    + unfold resizeListener. simpl. apply removeEventListener_removes.
Qed.

(** Every resize that reaches the viewer starts one more render loop, and
    none is ever stopped: the number of [_render] callbacks queued with the
    window is the one of the constructor plus one for each resize before the
    first disposal. *)
Theorem each_resize_starts_another_render_loop uuid b g wd doc objs es :
  animationFrameRequests (window (run (construct uuid b g wd doc objs) es))
    = (S (animationFrameRequests wd) + resizesBeforeDisposal es)%nat.
Proof.
  rewrite run_with_listener_counts_resizes.
  - f_equal. destruct b; reflexivity.
  - unfold resizeListener.
    replace (viewer_id (viewer (construct uuid b g wd doc objs))) with uuid
      by (destruct b; reflexivity).
    replace (window_listeners (window (construct uuid b g wd doc objs)))
      with (addEventListener "resize" (ViewerResize uuid) (window_listeners wd))
      by (destruct b; reflexivity).
    unfold addEventListener. destruct (decide _) as [H|H]; [exact H|].
    apply elem_of_app. right. apply list_elem_of_singleton. reflexivity.
Qed.

(** *** Highlighting along a run *)

Lemma step_keeps_selectionInvariant w0 w e :
  pristine w0 → isSettlement e = false →
  selectionInvariant w0 w → selectionInvariant w0 (step w e).
Proof.
  intros Hp He Inv.
  destruct e as [r| |c|width height c|hit|object|]; try discriminate.
  - replace (selectionInvariant w0 (step w (AnimationFrame c)))
      with (selectionInvariant w0 w); [exact Inv|].
    unfold selectionInvariant. by_cases.
  - replace (selectionInvariant w0 (step w (WindowResized width height c)))
      with (selectionInvariant w0 w); [exact Inv|].
    unfold selectionInvariant. by_cases.
  - simpl. destruct (decide _); [|exact Inv].
    apply onMouseClick_invariant; assumption.
  - simpl. apply highlightObject_invariant; assumption.
  - exact Inv.
Qed.

Lemma run_keeps_selectionInvariant w0 w es :
  pristine w0 → noSettlement es →
  selectionInvariant w0 w → selectionInvariant w0 (run w es).
Proof.
  intros Hp H. revert w. induction H as [|e es He _ IH]; intros w Inv; [exact Inv|].
  rewrite run_cons. apply IH, step_keeps_selectionInvariant; assumption.
Qed.

(** A loaded viewer shows at most one highlight, whatever the user does.
    Let the parser deliver objects as three.js builds them (every Mesh with
    a material, no [originalMaterial] in [userData]) into a world without
    selection.  Then after the load and any frames, resizes, canvas clicks,
    widget clicks and disposals, two objects holding a highlight material
    are the same object, it is the selected one, and every other object
    wears the material it had when the load finished. *)
Theorem loaded_viewer_shows_at_most_one_highlight
    w jsonObject object3d g es a b :
  loadModel_promise (viewer w) = AwaitingParse jsonObject →
  parseJSON jsonObject (three w) = Returns (object3d, g) →
  Forall (fun x => pristineObject (fields x) = true) (nodes object3d) →
  pristine w →
  noSettlement es →
  holdsHighlight (run (step w ParseSettled) es) a →
  (holdsHighlight (run (step w ParseSettled) es) b → a = b)
  ∧ _selectedObject (viewer (run (step w ParseSettled) es)) = Some a
  ∧ (a ≠ b →
     materialOf (run (step w ParseSettled) es) b
       = materialOf (step w ParseSettled) b).
Proof.
  intros Hl Hparse Ho Hw Hes Ha.
  assert (Hp : pristine (step w ParseSettled)).
  { simpl. rewrite Hl. unfold loadModel_afterParse.
    rewrite Hparse. unfold loadModel_finish. simpl.
    pose proof (loadedModel_pristine (document w) object3d g Ho) as Hlm.
    unfold loadedModel in Hlm.
    destruct (addLabelsToModel (document w) (assignPropertyValues object3d) g)
      as [labelled g'].
    destruct Hw as [Hs Hm]. split; [exact Hs|]. simpl.
    apply publish_pristine; assumption. }
  pose proof (run_keeps_selectionInvariant _ _ es Hp Hes
                (selectionInvariant_start _ Hp)) as Inv.
  pose proof (highlight_is_selected _ Hp _ a Inv Ha) as Sa.
  split; [|split].
  - intros Hb. pose proof (highlight_is_selected _ Hp _ b Inv Hb) as Sb. congruence.
  - exact Sa.
  - intros Hne. apply (unhighlighted_is_original _ _ b Inv).
    intros Hb. pose proof (highlight_is_selected _ Hp _ b Inv Hb) as Sb. congruence.
Qed.

End Chains.

(** The loaded sample viewer after a pick in the widget, a frame and a click
    on the second panel. *)
Lemma one_highlight_on_sample :
  _selectedObject (viewer
    (run sampleFind sampleParse
       (step sampleFind sampleParse
          (run sampleFind sampleParse sampleWorld
             [FetchSettled (Response sampleEnvelope)])
          ParseSettled)
       [ItemClicked 8; AnimationFrame true; CanvasClicked (Some 9)]))
    = Some 9.
Proof.
  assert (Hes : noSettlement
                  [ItemClicked 8; AnimationFrame true; CanvasClicked (Some 9)])
    by (repeat constructor).
  assert (Hh : holdsHighlight
    (run sampleFind sampleParse
       (step sampleFind sampleParse
          (run sampleFind sampleParse sampleWorld
             [FetchSettled (Response sampleEnvelope)])
          ParseSettled)
       [ItemClicked 8; AnimationFrame true; CanvasClicked (Some 9)]) 9).
  { eexists _, _. split; [vm_compute; reflexivity|]. split; reflexivity. }
  assert (Ho : Forall (fun x => pristineObject (fields x) = true) (nodes sampleTree))
    by (repeat constructor).
  assert (Hw : pristine (run sampleFind sampleParse sampleWorld
                           [FetchSettled (Response sampleEnvelope)])).
  { split; [reflexivity|]. apply map_Forall_empty. }
  exact (proj1 (proj2 (loaded_viewer_shows_at_most_one_highlight
                         sampleFind sampleParse
                         (run sampleFind sampleParse sampleWorld
                            [FetchSettled (Response sampleEnvelope)])
                         (JObject []) sampleTree sampleGlobals
                         [ItemClicked 8; AnimationFrame true; CanvasClicked (Some 9)]
                         9 8 eq_refl eq_refl Ho Hw Hes Hh))).
Defined.
